(** * MCP-for-Unity server: transport connections and custom tool service

    A shallow embedding of
      - [services/tools/custom_tool_service.py]
      - [transport/unity_transport.py]
      - [transport/legacy/uds_connection.py]
      - [transport/legacy/pipe_connection.py]
    followed by the properties of these programs.

    Python values are an inductive type of JSON-shaped data; exceptions are
    values of an error monad; the wall clock, the service's mutable fields and
    the peers on the other side of a channel are explicit state and oracles. *)

From Stdlib Require Import ZArith QArith Qminmax Qround Lqa Lia Bool List String Ascii.
From Stdlib Require Import DecimalString.
Import ListNotations.
Open Scope string_scope.
Open Scope Z_scope.

Set Implicit Arguments.
Set Warnings "-register-all".

(* ===================================================================== *)
(** * Exceptions *)
(* ===================================================================== *)

(** The exception classes the modelled code raises, catches or lets through.
    All of them derive from [Exception]. *)
Inductive exn_class :=
| TypeError | ValueError | OverflowError | KeyError | AttributeError
| NameError | RuntimeError | ValidationError
| ConnectionError | BrokenPipeError | ConnectionResetError | OSError
| PyWinError          (* pywintypes.error *)
| JSONDecodeError | UnicodeDecodeError | StructError
| PlainException.     (* Exception(...) itself, or any other subclass *)

Record exn := Exn { exn_kind : exn_class; exn_text : string }.

(** [str(exc)] for the one-argument exceptions used here. *)
Definition str_of_exn (e : exn) : string := exn_text e.

Inductive result (A : Type) :=
| Ok (a : A)
| Raise (e : exn).
Arguments Ok {A} a.
Arguments Raise {A} e.

Definition rbind {A B} (r : result A) (k : A -> result B) : result B :=
  match r with
  | Ok a => k a
  | Raise e => Raise e
  end.

Declare Scope py_scope.
Delimit Scope py_scope with py.
Notation "'try!' x '<-' c ';' k" := (rbind c (fun x => k))
  (at level 10, x pattern, c at level 100, k at level 200) : py_scope.
Open Scope py_scope.

(** [isinstance(e, cls)] along the class hierarchy of the standard library:
    [BrokenPipeError] and [ConnectionResetError] derive from
    [ConnectionError], which derives from [OSError]; [JSONDecodeError] and
    [UnicodeDecodeError] derive from [ValueError]; [OverflowError] derives
    from [ArithmeticError] and from nothing that is caught by name here. *)
Definition exn_class_eqb (a b : exn_class) : bool :=
  match a, b with
  | TypeError, TypeError | ValueError, ValueError
  | OverflowError, OverflowError | KeyError, KeyError
  | AttributeError, AttributeError | RuntimeError, RuntimeError
  | NameError, NameError
  | ValidationError, ValidationError | ConnectionError, ConnectionError
  | BrokenPipeError, BrokenPipeError
  | ConnectionResetError, ConnectionResetError | OSError, OSError
  | PyWinError, PyWinError | JSONDecodeError, JSONDecodeError
  | UnicodeDecodeError, UnicodeDecodeError | StructError, StructError
  | PlainException, PlainException => true
  | _, _ => false
  end.

Definition is_instance (e : exn) (cls : exn_class) : bool :=
  match cls, exn_kind e with
  | ConnectionError, (BrokenPipeError | ConnectionResetError) => true
  | OSError, (ConnectionError | BrokenPipeError | ConnectionResetError) => true
  | ValueError, (JSONDecodeError | UnicodeDecodeError) => true
  | c, k => exn_class_eqb c k
  end.
Arguments is_instance : simpl never.

(* ===================================================================== *)
(** * Python values *)
(* ===================================================================== *)

(** A Python [float]: the finite ones are read as the rational they denote,
    next to the two infinities and NaN.  Comparison and selection are exact
    on floats; what rounds is conversion, written out in [float_of_int]. *)
Inductive pyfloat :=
| FNan
| FInf (negative : bool)
| FFin (q : Q).

(** [a < b] on floats: false as soon as a NaN is involved. *)
Definition flt (a b : pyfloat) : bool :=
  match a, b with
  | FNan, _ | _, FNan => false
  | FInf true, FInf true => false
  | FInf true, _ => true
  | _, FInf true => false
  | FInf false, _ => false
  | _, FInf false => true
  | FFin x, FFin y => negb (Qle_bool y x)
  end.

(** The built-ins [min(a, b)] and [max(a, b)]: the first argument is kept
    unless the second one is strictly smaller (resp. greater). *)
Definition py_min (a b : pyfloat) : pyfloat := if flt b a then b else a.
Definition py_max (a b : pyfloat) : pyfloat := if flt a b then b else a.
Arguments py_min : simpl never.
Arguments py_max : simpl never.

(** [x * 2] on a float. *)
Definition fdouble (x : pyfloat) : pyfloat :=
  match x with
  | FFin q => FFin (q * 2)
  | other => other
  end.

(** JSON-shaped Python data.  A [str] is held as its UTF-8 encoding; a dict
    keeps insertion order and has [str] keys, as every dict decoded from JSON
    has. *)
Inductive pyval :=
| PNone
| PBool (b : bool)
| PInt (n : Z)
| PFloat (f : pyfloat)
| PStr (s : string)
| PList (l : list pyval)
| PDict (d : list (string * pyval)).

(** A Python dict with [str] keys, in insertion order: lookup, and the
    assignment [d[k] = v], which overwrites in place or appends. *)
Fixpoint alist_find {V} (k : string) (d : list (string * V)) : option V :=
  match d with
  | [] => None
  | (k', v) :: rest => if String.eqb k k' then Some v else alist_find k rest
  end.

Fixpoint alist_set {V} (k : string) (v : V) (d : list (string * V))
  : list (string * V) :=
  match d with
  | [] => [(k, v)]
  | (k', v') :: rest =>
      if String.eqb k k' then (k', v) :: rest
      else (k', v') :: alist_set k v rest
  end.

(** [d.get(k)], as an option; [d.get(k, default)] and [d.get(k)] are
    [dict_get_or] and [dict_get]. *)
Definition dict_find (k : string) (d : list (string * pyval)) : option pyval :=
  alist_find k d.

Definition dict_get_or (d : list (string * pyval)) (k : string) (dflt : pyval)
  : pyval :=
  match dict_find k d with Some v => v | None => dflt end.

Definition dict_get (d : list (string * pyval)) (k : string) : pyval :=
  dict_get_or d k PNone.

(** [k in d]. *)
Definition dict_mem (k : string) (d : list (string * pyval)) : bool :=
  match dict_find k d with Some _ => true | None => false end.

(** [v == "literal"]. *)
Definition eq_str (v : pyval) (s : string) : bool :=
  match v with
  | PStr t => String.eqb t s
  | _ => false
  end.

(** Truth value of an object, as [if v:] tests it. *)
Definition truthy (v : pyval) : bool :=
  match v with
  | PNone => false
  | PBool b => b
  | PInt n => negb (n =? 0)
  | PFloat (FFin q) => negb (Qeq_bool q 0)
  | PFloat _ => true
  | PStr s => negb (String.eqb s "")
  | PList l => match l with [] => false | _ => true end
  | PDict d => match d with [] => false | _ => true end
  end.

(** [float(n)] for an [int]: the nearest binary64 value, ties to even, and
    [OverflowError] when that value would not be finite. *)
Definition float_of_int (n : Z) : result pyfloat :=
  let a := Z.abs n in
  let bits := if a =? 0 then 0 else Z.log2 a + 1 in
  if bits <=? 53 then Ok (FFin (inject_Z n))
  else
    let sh := bits - 53 in
    let q := Z.shiftr a sh in
    let r := a - Z.shiftl q sh in
    let half := Z.shiftl 1 (sh - 1) in
    let q' := if (half <? r) || ((r =? half) && Z.odd q) then q + 1 else q in
    let m := Z.shiftl q' sh in
    if 2 ^ 1024 <=? m
    then Raise (Exn OverflowError "int too large to convert to float")
    else Ok (FFin (inject_Z (Z.sgn n * m))).

(** What the interpreter and its library provide on strings and is not
    spelled out here: [str.lower], parsing by [float(s)] ([None] stands for
    the [ValueError] of a malformed literal) and [str(v)]. *)
Class Runtime := {
  str_lower : string -> string;
  float_of_str : string -> option pyfloat;
  py_str : pyval -> string
}.

Section Builtins.
Context {RT : Runtime}.

(** The built-in [float(v)]. *)
Definition py_float (v : pyval) : result pyfloat :=
  match v with
  | PFloat f => Ok f
  | PInt n => float_of_int n
  | PBool b => Ok (FFin (if b then 1 else 0)%Q)
  | PStr s =>
      match float_of_str s with
      | Some f => Ok f
      | None => Raise (Exn ValueError "could not convert string to float")
      end
  | PNone | PList _ | PDict _ =>
      Raise (Exn TypeError
               "float() argument must be a string or a real number")
  end.
End Builtins.

(* ===================================================================== *)
(** * SHA-256 ([hashlib.sha256]) *)
(* ===================================================================== *)

Module SHA256.

Definition mask32 : Z := 0xffffffff.
Definition w32 (x : Z) : Z := Z.land x mask32.
Definition add32 (x y : Z) : Z := w32 (x + y).
Definition rotr (n x : Z) : Z :=
  Z.lor (Z.shiftr x n) (w32 (Z.shiftl x (32 - n))).
Definition shr (n x : Z) : Z := Z.shiftr x n.

Definition Ch (x y z : Z) : Z :=
  Z.lxor (Z.land x y) (Z.land (Z.lxor x mask32) z).
Definition Maj (x y z : Z) : Z :=
  Z.lxor (Z.lxor (Z.land x y) (Z.land x z)) (Z.land y z).
Definition Sigma0 (x : Z) : Z :=
  Z.lxor (Z.lxor (rotr 2 x) (rotr 13 x)) (rotr 22 x).
Definition Sigma1 (x : Z) : Z :=
  Z.lxor (Z.lxor (rotr 6 x) (rotr 11 x)) (rotr 25 x).
Definition sigma0 (x : Z) : Z :=
  Z.lxor (Z.lxor (rotr 7 x) (rotr 18 x)) (shr 3 x).
Definition sigma1 (x : Z) : Z :=
  Z.lxor (Z.lxor (rotr 17 x) (rotr 19 x)) (shr 10 x).

(** The round constants and the initial chaining words are the first 32
    bits of the fractional parts of the cube roots of the first 64 primes
    and of the square roots of the first 8. *)
Definition is_prime (n : Z) : bool :=
  forallb (fun d => negb (n mod d =? 0))
          (map Z.of_nat (seq 2 (Z.to_nat n - 2))).

Definition primes : list Z :=
  Eval vm_compute in filter is_prime (map Z.of_nat (seq 2 310)).

Definition cube_root (n : Z) : Z :=
  fold_left (fun r b => let c := r + Z.shiftl 1 b in
                        if c * c * c <=? n then c else r)
            (map Z.of_nat (rev (seq 0 40))) 0.

Definition K : list Z :=
  Eval vm_compute in map (fun p => w32 (cube_root (Z.shiftl p 96))) primes.

(** The eight chaining words. *)
Record state := State { ha : Z; hb : Z; hc : Z; hd : Z;
                        he : Z; hf : Z; hg : Z; hh : Z }.

Definition root_word (i : nat) : Z :=
  w32 (Z.sqrt (Z.shiftl (nth i primes 0) 64)).

Definition H0 : state :=
  Eval vm_compute in
    State (root_word 0) (root_word 1) (root_word 2) (root_word 3)
          (root_word 4) (root_word 5) (root_word 6) (root_word 7).

(** Padding: a [0x80] byte, zeros up to 56 modulo 64, then the bit length
    on eight bytes, most significant first. *)
Definition be_bytes (width : nat) (x : Z) : list Z :=
  map (fun i => Z.land (Z.shiftr x (8 * Z.of_nat i)) 0xff)
      (rev (seq 0 width)).

Definition pad (msg : list Z) : list Z :=
  let len := Z.of_nat (List.length msg) in
  let zeros := Z.to_nat ((55 - len) mod 64) in
  msg ++ [0x80] ++ repeat 0 zeros ++ be_bytes 8 (8 * len).

Fixpoint be_word (bs : list Z) : Z :=
  match bs with
  | [] => 0
  | b :: rest => Z.lor (Z.shiftl b (8 * Z.of_nat (List.length rest)))
                       (be_word rest)
  end.

(** The sixteen words of a 64-byte block. *)
Fixpoint words (n : nat) (bs : list Z) : list Z :=
  match n with
  | O => []
  | S n' => be_word (firstn 4 bs) :: words n' (skipn 4 bs)
  end.

(** Message schedule: [rw] holds the words computed so far, latest first. *)
Fixpoint schedule (n : nat) (rw : list Z) : list Z :=
  match n with
  | O => rev rw
  | S n' =>
      let w := add32 (add32 (sigma1 (nth 1 rw 0)) (nth 6 rw 0))
                     (add32 (sigma0 (nth 14 rw 0)) (nth 15 rw 0)) in
      schedule n' (w :: rw)
  end.

Definition round (s : state) (kw : Z * Z) : state :=
  let (k, w) := kw in
  let t1 := add32 (add32 (add32 (hh s) (Sigma1 (he s)))
                         (add32 (Ch (he s) (hf s) (hg s)) k)) w in
  let t2 := add32 (Sigma0 (ha s)) (Maj (ha s) (hb s) (hc s)) in
  State (add32 t1 t2) (ha s) (hb s) (hc s)
        (add32 (hd s) t1) (he s) (hf s) (hg s).

Definition compress (s : state) (block : list Z) : state :=
  let w := schedule 48 (rev (words 16 block)) in
  let r := fold_left round (combine K w) s in
  State (add32 (ha s) (ha r)) (add32 (hb s) (hb r))
        (add32 (hc s) (hc r)) (add32 (hd s) (hd r))
        (add32 (he s) (he r)) (add32 (hf s) (hf r))
        (add32 (hg s) (hg r)) (add32 (hh s) (hh r)).

Fixpoint blocks (n : nat) (s : state) (bs : list Z) : state :=
  match n with
  | O => s
  | S n' => blocks n' (compress s (firstn 64 bs)) (skipn 64 bs)
  end.

(** The 32 bytes of the digest. *)
Definition digest (msg : list Z) : list Z :=
  let p := pad msg in
  let s := blocks (List.length p / 64) H0 p in
  flat_map (be_bytes 4)
    [ha s; hb s; hc s; hd s; he s; hf s; hg s; hh s].

Definition hex_digit (d : Z) : ascii :=
  nth (Z.to_nat (Z.land d 0xf)) (list_ascii_of_string "0123456789abcdef")
      "0"%char.

Fixpoint hex_of_bytes (bs : list Z) : string :=
  match bs with
  | [] => EmptyString
  | b :: rest =>
      String (hex_digit (Z.shiftr b 4))
             (String (hex_digit b) (hex_of_bytes rest))
  end.

Definition bytes_of_string (s : string) : list Z :=
  map (fun c => Z.of_nat (nat_of_ascii c)) (list_ascii_of_string s).

(** [sha256(b).hexdigest()] for the bytes [b] of [s]. *)
Definition hexdigest (s : string) : string :=
  hex_of_bytes (digest (bytes_of_string s)).

End SHA256.

(* ===================================================================== *)
(** * More built-ins *)
(* ===================================================================== *)

(** [needle in hay] on two strings. *)
Fixpoint str_contains (needle hay : string) : bool :=
  String.prefix needle hay
  || match hay with
     | EmptyString => false
     | String _ rest => str_contains needle rest
     end.

(** [k in v] for a [str] key [k]: key membership in a dict, element
    membership in a list, substring test in a string, [TypeError] on what is
    not a container. *)
Definition py_contains (k : string) (v : pyval) : result bool :=
  match v with
  | PDict d => Ok (dict_mem k d)
  | PList l => Ok (existsb (fun x => eq_str x k) l)
  | PStr s => Ok (str_contains k s)
  | PNone | PBool _ | PInt _ | PFloat _ =>
      Raise (Exn TypeError "argument is not iterable")
  end.

(** The elements a [for] loop visits: the items of a list, the keys of a
    dict, the characters of a string (byte by byte here, a [str] being held
    as its encoding); [TypeError] otherwise. *)
Definition py_iter (v : pyval) : result (list pyval) :=
  match v with
  | PList l => Ok l
  | PDict d => Ok (map (fun kv => PStr (fst kv)) d)
  | PStr s => Ok (map (fun c => PStr (String c EmptyString))
                      (list_ascii_of_string s))
  | PNone | PBool _ | PInt _ | PFloat _ =>
      Raise (Exn TypeError "object is not iterable")
  end.

(** [v[k]] for a [str] key [k]. *)
Definition py_getitem (v : pyval) (k : string) : result pyval :=
  match v with
  | PDict d =>
      match dict_find k d with
      | Some x => Ok x
      | None => Raise (Exn KeyError k)
      end
  | _ => Raise (Exn TypeError "indices must be integers or object is not subscriptable")
  end.

(** [s.partition("@")], when the separator occurs: the text before its first
    occurrence and the text after it. *)
Fixpoint partition_at (s : string) : option (string * string) :=
  match s with
  | EmptyString => None
  | String c rest =>
      if Ascii.eqb c "@"%char then Some (EmptyString, rest)
      else match partition_at rest with
           | Some (before, after) => Some (String c before, after)
           | None => None
           end
  end.

(** [str.upper] on the ASCII letters, which is all a hexadecimal digest
    holds. *)
Definition ascii_upper (c : ascii) : ascii :=
  let n := nat_of_ascii c in
  if (97 <=? n)%nat && (n <=? 122)%nat then ascii_of_nat (n - 32) else c.

Fixpoint upper (s : string) : string :=
  match s with
  | EmptyString => EmptyString
  | String c rest => String (ascii_upper c) (upper rest)
  end.

Definition string_of_nat (n : nat) : string :=
  NilEmpty.string_of_uint (Nat.to_uint n).

(* ===================================================================== *)
(** * Models ([models.models]) *)
(* ===================================================================== *)

(** Modelled from the spec: [MCPResponse], the uniform Result of section 3
    (success flag, optional message, optional error string, optional data
    payload); [models/models.py] is not among the sources. *)
Record MCPResponse := {
  success : bool;
  message : option string;
  error : option string;
  data : pyval
}.

(** Modelled from the spec: the Parameter entries of a ToolDefinition
    (section 3); [models/models.py] is not among the sources. *)
Record ToolParameterModel := {
  param_name : string;
  param_description : option string;
  param_type : string;
  param_required : bool;
  param_default_value : option string
}.

(** Modelled from the spec: ToolDefinition (section 3);
    [models/models.py] is not among the sources. *)
Record ToolDefinitionModel := {
  name : string;
  description : option string;
  structured_output : bool;
  requires_polling : bool;
  poll_action : option string;
  parameters : list ToolParameterModel
}.

Record RegisterToolsPayload := {
  project_id : string;
  project_hash : option string;
  tools : list ToolDefinitionModel
}.

Record ToolRegistrationResponse := {
  reg_success : bool;
  registered : list string;
  replaced : list string;
  reg_message : string
}.

Definition of_opt_str (o : option string) : pyval :=
  match o with
  | Some s => PStr s
  | None => PNone
  end.

(** A value the [data] field is known to take: [None] or a dict. *)
Definition is_payload (v : pyval) : bool :=
  match v with
  | PNone | PDict _ => true
  | _ => false
  end.

(** Modelled from the spec: the validating constructors of the pydantic
    models, whose declarations are not among the sources.  [None] stands for
    a [ValidationError].  All that is assumed of them is that an
    [MCPResponse] built from a [bool], optional strings and a [None] or dict
    payload holds exactly these. *)
Class Pydantic := {
  new_MCPResponse : pyval -> pyval -> pyval -> pyval -> option MCPResponse;
  new_ToolParameterModel :
    pyval -> pyval -> pyval -> pyval -> pyval -> option ToolParameterModel;
  new_ToolDefinitionModel :
    pyval -> pyval -> pyval -> pyval -> pyval -> list ToolParameterModel ->
    option ToolDefinitionModel;
  model_validate : pyval -> option RegisterToolsPayload;
  (** [str(r)] for an [MCPResponse] object *)
  model_str : MCPResponse -> string;
  new_MCPResponse_typed :
    forall b m e d,
      is_payload d = true ->
      new_MCPResponse (PBool b) (of_opt_str m) (of_opt_str e) d
      = Some {| success := b; message := m; error := e; data := d |}
}.

Definition validated {A} (o : option A) : result A :=
  match o with
  | Some a => Ok a
  | None => Raise (Exn ValidationError "validation error")
  end.

(** What a transport hands back: an already normalized [MCPResponse] or a
    decoded value. *)
Inductive raw_response :=
| Normalized (r : MCPResponse)
| Raw (v : pyval).

(* ===================================================================== *)
(** * [compute_project_id] *)
(* ===================================================================== *)

Definition compute_project_id (project_name project_path : string) : string :=
  let combined := project_name ++ ":" ++ project_path in
  substring 0 16 (upper (SHA256.hexdigest combined)).

(* ===================================================================== *)
(** * The custom tool service ([services/tools/custom_tool_service.py]) *)
(* ===================================================================== *)

Definition _DEFAULT_POLL_INTERVAL : pyfloat := FFin 1.
Definition _MAX_POLL_SECONDS : Q := 600.

(** The literals [0.1] (the binary64 value nearest to one tenth) and
    [5.0]. *)
Definition f0_1 : pyfloat := FFin (3602879701896397 # 36028797018963968).
Definition f5_0 : pyfloat := FFin 5.

Definition Qltb (x y : Q) : bool := negb (Qle_bool y x).

(** The fields of a [CustomToolService] object. *)
Record CustomToolService := {
  _project_tools : list (string * list (string * ToolDefinitionModel));
  _hash_to_project : list (string * string);
  _last_sync_time : Q
}.

Definition _sync_interval : Q := 5.

(** An entry of [pool.discover_all_instances()]. *)
Record Instance := {
  inst_id : string;
  inst_name : string;
  inst_path : string;
  inst_hash : string
}.

(** One answer of a transport: how long the round trip took and what came
    back, a response or an exception. *)
Record reply := {
  latency : Q;
  outcome : result raw_response
}.

(** The collaborators of the service, as oracles.  The first argument of
    those that talk to the outside is the number of such calls made before
    this one, so that a collaborator may answer differently each time. *)
Record Env := {
  (** [os.environ.get("UNITY_MCP_TRANSPORT", "stdio").lower() == "http"] *)
  _is_http_transport : bool;
  (** [get_unity_connection_pool().discover_all_instances()] *)
  discover_all_instances : nat -> result (list Instance);
  (** [async_send_command_with_retry(command_type, params, instance_id=...)] *)
  async_send_command_with_retry :
    nat -> string -> pyval -> option string -> reply;
  (** [normalize_unity_response(PluginHub.send_command_for_instance(...))] *)
  hub_send_command_for_instance :
    nat -> option string -> string -> pyval -> reply;
  (** [PluginHub.get_tools_for_project(project_id)] *)
  hub_get_tools_for_project : string -> result (list ToolDefinitionModel);
  (** [PluginHub.get_tool_definition(project_id, tool_name)] *)
  hub_get_tool_definition :
    string -> string -> result (option ToolDefinitionModel)
}.

(** The clock read by [time.time()] and the count of outside calls. *)
Record World := {
  now : Q;
  ticks : nat
}.

Definition tick (w : World) : World :=
  {| now := now w; ticks := S (ticks w) |}.

Definition after_reply (r : reply) (w : World) : World :=
  {| now := now w + latency r; ticks := S (ticks w) |}.

(** [await asyncio.sleep(delay)]: the clock moves on by the delay.  A delay
    that is not finite has no model; none is ever computed
    (see [interval_in_range]). *)
Definition asyncio_sleep (delay : pyfloat) (w : World) : option World :=
  match delay with
  | FFin d =>
      Some (if Qle_bool d 0 then w
            else {| now := now w + d; ticks := ticks w |})
  | _ => None
  end.

Inductive poll_status := pending | complete | error_status | final.

Definition is_terminal (s : poll_status) : bool :=
  match s with
  | pending => false
  | complete | error_status | final => true
  end.

Section Service.
Context {RT : Runtime} {PD : Pydantic}.
Variable env : Env.

(* --- transport/unity_transport.py ---------------------------------- *)

(** [send_with_unity_instance(async_send_command_with_retry,
     unity_instance, command_type, params)]. *)
Definition send_with_unity_instance
    (unity_instance : option string) (command_type : string)
    (params : pyval) (w : World) : result raw_response * World :=
  if _is_http_transport env then
    let params := match params with PNone => PDict [] | p => p end in
    match params with
    | PDict _ =>
        let r := hub_send_command_for_instance env (ticks w)
                   unity_instance command_type params in
        (outcome r, after_reply r w)
    | _ =>
        (Raise (Exn TypeError
                  "Command parameters must be a dict for HTTP transport"),
         w)
    end
  else
    let instance_id :=
      match unity_instance with
      | Some u => if String.eqb u "" then None else Some u
      | None => None
      end in
    let r := async_send_command_with_retry env (ticks w)
               command_type params instance_id in
    (outcome r, after_reply r w).

(* --- Internal helpers ---------------------------------------------- *)

Definition project_dict (self : CustomToolService) (project_id : string)
  : list (string * ToolDefinitionModel) :=
  match alist_find project_id (_project_tools self) with
  | Some d => d
  | None => []
  end.

Definition _is_registered (self : CustomToolService)
    (project_id tool_name : string) : bool :=
  match alist_find tool_name (project_dict self project_id) with
  | Some _ => true
  | None => false
  end.

Definition _register_tool (self : CustomToolService) (project_id : string)
    (definition : ToolDefinitionModel) : CustomToolService :=
  {| _project_tools :=
       alist_set project_id
         (alist_set (name definition) definition
                    (project_dict self project_id))
         (_project_tools self);
     _hash_to_project := _hash_to_project self;
     _last_sync_time := _last_sync_time self |}.

Definition get_project_id_for_hash (self : CustomToolService)
    (project_hash : option string) : option string :=
  match project_hash with
  | None => None
  | Some h =>
      if String.eqb h "" then None
      else alist_find (str_lower h) (_hash_to_project self)
  end.

(* --- POST /register-tools ------------------------------------------ *)

Definition join_names (names : list string) : string :=
  String.concat ", " names.

(** The loop of the route over [payload.tools]. *)
Fixpoint register_each (project : string) (ts : list ToolDefinitionModel)
    (self : CustomToolService) (registered replaced : list string)
  : CustomToolService * list string * list string :=
  match ts with
  | [] => (self, registered, replaced)
  | tool :: rest =>
      let replaced' :=
        if _is_registered self project (name tool)
        then (replaced ++ [name tool])%list else replaced in
      register_each project rest (_register_tool self project tool)
                    (registered ++ [name tool])%list replaced'
  end.

(** The route once the payload has been validated. *)
Definition register_payload (self : CustomToolService)
    (payload : RegisterToolsPayload)
  : ToolRegistrationResponse * CustomToolService :=
  let '(self1, registered, replaced) :=
    register_each (project_id payload) (tools payload) self [] [] in
  let self2 :=
    match project_hash payload with
    | Some h =>
        if String.eqb h "" then self1
        else {| _project_tools := _project_tools self1;
                _hash_to_project :=
                  alist_set (str_lower h) (project_id payload)
                            (_hash_to_project self1);
                _last_sync_time := _last_sync_time self1 |}
    | None => self1
    end in
  let message :=
    "Registered " ++ string_of_nat (List.length registered) ++ " tool(s)" in
  let message :=
    match replaced with
    | [] => message
    | _ => message ++ " (replaced: " ++ join_names replaced ++ ")"
    end in
  ({| reg_success := true; registered := registered;
      replaced := replaced; reg_message := message |}, self2).

Inductive http_response :=
| BadRequest                                (* status 400 *)
| JsonOk (body : ToolRegistrationResponse). (* status 200 *)

Definition register_tools (self : CustomToolService) (request_json : pyval)
  : http_response * CustomToolService :=
  match model_validate request_json with
  | None => (BadRequest, self)
  | Some payload =>
      let (response, self') := register_payload self payload in
      (JsonOk response, self')
  end.

(* --- _sync_all_unity_tools ----------------------------------------- *)

(** [v.get(k, default)], a method that only dicts have. *)
Definition py_get (v : pyval) (k : string) (dflt : pyval) : result pyval :=
  match v with
  | PDict d => Ok (dict_get_or d k dflt)
  | _ => Raise (Exn AttributeError "object has no attribute 'get'")
  end.

(** The loop that fills [params_models]. *)
Fixpoint build_params (ps : list pyval) : result (list ToolParameterModel) :=
  match ps with
  | [] => Ok []
  | p :: rest =>
      try! p_name <- py_getitem p "name";
      try! p_description <- py_get p "description" PNone;
      try! p_type <- py_get p "type" (PStr "string");
      try! p_required <- py_get p "required" (PBool true);
      try! p_default <- py_get p "default_value" PNone;
      try! model <- validated (new_ToolParameterModel
                                 p_name p_description p_type p_required
                                 p_default);
      try! models <- build_params rest;
      Ok (model :: models)
  end.

(** One turn of [for tool_data in response["tools"]].  A [Raise] is an
    exception that leaves the loop, for the handler of the instance. *)
Definition sync_tool (pid : string) (tool_data : pyval)
    (self : CustomToolService) : result CustomToolService :=
  try! has_name <- py_contains "name" tool_data;
  if negb has_name then Ok self
  else
    let attempt :=
      try! raw_params <- py_get tool_data "parameters" (PList []);
      try! items <- py_iter raw_params;
      try! params_models <- build_params items;
      try! t_name <- py_getitem tool_data "name";
      try! t_description <- py_get tool_data "description" PNone;
      try! t_structured <- py_get tool_data "structured_output" (PBool true);
      try! t_polling <- py_get tool_data "requires_polling" (PBool false);
      try! t_action <- py_get tool_data "poll_action" (PStr "status");
      try! defn <- validated (new_ToolDefinitionModel
                                t_name t_description t_structured t_polling
                                t_action params_models);
      try! auto_register <- py_get tool_data "auto_register" (PBool true);
      if truthy auto_register then Ok (_register_tool self pid defn)
      else Ok self in
    match attempt with
    | Raise ve => if is_instance ve ValidationError then Ok self
                  else Raise ve
    | Ok self' => Ok self'
    end.

Fixpoint sync_tools (pid : string) (items : list pyval)
    (self : CustomToolService) : CustomToolService :=
  match items with
  | [] => self
  | tool_data :: rest =>
      match sync_tool pid tool_data self with
      | Ok self' => sync_tools pid rest self'
      | Raise _ => self  (* logged by the handler of the instance *)
      end
  end.

(** One turn of [for inst in instances], handler included. *)
Definition sync_instance (inst : Instance) (sw : CustomToolService * World)
  : CustomToolService * World :=
  let (self, w) := sw in
  let r := async_send_command_with_retry env (ticks w)
             "list_csharp_tools" (PDict []) (Some (inst_id inst)) in
  let w' := after_reply r w in
  match outcome r with
  | Ok (Raw (PDict response)) =>
      if negb (dict_mem "tools" response) then (self, w')
      else
        let pid := compute_project_id (inst_name inst) (inst_path inst) in
        match py_iter (dict_get response "tools") with
        | Ok items => (sync_tools pid items self, w')
        | Raise _ => (self, w')
        end
  | Ok _ => (self, w')
  | Raise _ => (self, w')
  end.

Definition _sync_all_unity_tools (force : bool)
    (self : CustomToolService) (w : World) : CustomToolService * World :=
  if negb force && Qltb (now w - _last_sync_time self) _sync_interval
  then (self, w)
  else
    let self1 := {| _project_tools := _project_tools self;
                    _hash_to_project := _hash_to_project self;
                    _last_sync_time := now w |} in
    match discover_all_instances env (ticks w) with
    | Ok instances =>
        fold_left (fun sw inst => sync_instance inst sw) instances
                  (self1, tick w)
    | Raise _ => (self1, tick w)
    end.

(* --- Public API ---------------------------------------------------- *)

Definition list_registered_tools (self : CustomToolService) (w : World)
    (project : string)
  : result (list ToolDefinitionModel) * CustomToolService * World :=
  let (self', w') := _sync_all_unity_tools false self w in
  let legacy := map snd (project_dict self' project) in
  match hub_get_tools_for_project env project with
  | Ok hub_tools => (Ok (legacy ++ hub_tools)%list, self', w')
  | Raise e => (Raise e, self', w')
  end.

Definition get_tool_definition (self : CustomToolService) (w : World)
    (project tool_name : string)
  : result (option ToolDefinitionModel) * CustomToolService * World :=
  match alist_find tool_name (project_dict self project) with
  | Some tool => (Ok (Some tool), self, w)
  | None =>
      let (self', w') := _sync_all_unity_tools false self w in
      match alist_find tool_name (project_dict self' project) with
      | Some tool => (Ok (Some tool), self', w')
      | None => (hub_get_tool_definition env project tool_name, self', w')
      end
  end.

(* --- Poll loop ----------------------------------------------------- *)

Definition _interpret_status (response : raw_response)
  : result (poll_status * pyfloat) :=
  match response with
  | Raw PNone => Ok (pending, _DEFAULT_POLL_INTERVAL)
  | Raw (PDict d) =>
      let status := dict_get d "_mcp_status" in
      match status with
      | PNone =>
          match d with
          | [] => Ok (pending, _DEFAULT_POLL_INTERVAL)
          | _ => Ok (final, _DEFAULT_POLL_INTERVAL)
          end
      | _ =>
          if eq_str status "pending" then
            let interval_raw :=
              dict_get_or d "_mcp_poll_interval"
                          (PFloat _DEFAULT_POLL_INTERVAL) in
            try! interval <-
              match py_float interval_raw with
              | Ok f => Ok f
              | Raise e =>
                  if is_instance e TypeError || is_instance e ValueError
                  then Ok _DEFAULT_POLL_INTERVAL
                  else Raise e
              end;
            let interval := py_max f0_1 (py_min interval f5_0) in
            Ok (pending, interval)
          else if eq_str status "complete" then
            Ok (complete, _DEFAULT_POLL_INTERVAL)
          else if eq_str status "error" then
            Ok (error_status, _DEFAULT_POLL_INTERVAL)
          else Ok (final, _DEFAULT_POLL_INTERVAL)
      end
  | _ => Ok (final, _DEFAULT_POLL_INTERVAL)
  end.

(** [str(x) if x else None]. *)
Definition str_if_truthy (v : pyval) : pyval :=
  if truthy v then PStr (py_str v) else PNone.

(** Lines 338 to 358 of the source: what [_normalize_response] does once
    its two early returns have been passed. *)
Definition normalize_rest (response : pyval) : result MCPResponse :=
  match response with
  | PDict d =>
      let success0 := dict_get_or d "success" (PBool true) in
      let success1 :=
        if dict_mem "_mcp_status" d
           && eq_str (dict_get d "_mcp_status") "error"
        then PBool false else success0 in
      let message0 := str_if_truthy (dict_get d "message") in
      let error0 := str_if_truthy (dict_get d "error") in
      let data0 := dict_get d "data" in
      let data1 :=
        if negb (dict_mem "success" d) && negb (dict_mem "_mcp_status" d)
        then response else data0 in
      validated (new_MCPResponse success1 message0 error0 data1)
  | _ =>
      validated (new_MCPResponse (PBool false) (PStr (py_str response))
                                 PNone PNone)
  end.

Definition _normalize_response (response : raw_response)
  : result MCPResponse :=
  match response with
  | Normalized r => Ok r
  | Raw (PDict d) =>
      validated
        (new_MCPResponse
           (dict_get_or d "success" (PBool true))
           (dict_get d "message")
           (dict_get d "error")
           (if negb (dict_mem "data" d)
            then dict_get_or d "data" (PDict d)
            else dict_get d "data"))
  | Raw v => normalize_rest v
  end.

(** [_safe_response]; an [MCPResponse] object is turned into text as any
    other object that is neither a dict nor [None]. *)
Definition _safe_response (response : raw_response) : pyval :=
  match response with
  | Raw (PDict d) => PDict d
  | Raw PNone => PNone
  | Raw v => PDict [("message", PStr (py_str v))]
  | Normalized r => PDict [("message", PStr (model_str r))]
  end.

(** The response that stands in for a poll that raised [exc]. *)
Definition transient_response (poll_interval : pyfloat) (exc : exn)
  : raw_response :=
  Raw (PDict
         [("_mcp_status", PStr "pending");
          ("_mcp_poll_interval",
           PFloat (py_min (py_max (fdouble poll_interval)
                                  _DEFAULT_POLL_INTERVAL) f5_0));
          ("message",
           PStr ("Retrying after transient error: " ++ str_of_exn exc))]).

Definition timeout_response (tool_name : string) (response : raw_response)
  : result MCPResponse :=
  validated
    (new_MCPResponse (PBool false)
       (PStr ("Timeout waiting for " ++ tool_name ++ " to complete"))
       PNone (_safe_response response)).

(** The [while True] loop of [_poll_until_complete].  [fuel] bounds the
    number of turns; [None] is a loop that has not returned within it. *)
Fixpoint poll_loop (fuel : nat) (tool_name : string)
    (unity_instance : option string) (poll_params : pyval) (deadline : Q)
    (response : raw_response) (w : World)
  : option (result MCPResponse * World) :=
  match fuel with
  | O => None
  | S fuel' =>
      match _interpret_status response with
      | Raise e => Some (Raise e, w)
      | Ok (status, poll_interval) =>
          if is_terminal status
          then Some (_normalize_response response, w)
          else if Qltb deadline (now w)
          then Some (timeout_response tool_name response, w)
          else
            match asyncio_sleep poll_interval w with
            | None => None
            | Some w1 =>
                let (r, w2) :=
                  send_with_unity_instance unity_instance tool_name
                                           poll_params w1 in
                let response' :=
                  match r with
                  | Ok resp => resp
                  | Raise exc => transient_response poll_interval exc
                  end in
                poll_loop fuel' tool_name unity_instance poll_params
                          deadline response' w2
            end
      end
  end.

(** [x or "status"]. *)
Definition or_status (poll_action : string) : string :=
  if String.eqb poll_action "" then "status" else poll_action.

Definition _poll_until_complete (fuel : nat) (tool_name : string)
    (unity_instance : option string)
    (initial_params : list (string * pyval))
    (initial_response : raw_response) (poll_action : string) (w : World)
  : option (result MCPResponse * World) :=
  let poll_params :=
    PDict (alist_set "action" (PStr (or_status poll_action))
                     initial_params) in
  let deadline := (now w + _MAX_POLL_SECONDS)%Q in
  poll_loop fuel tool_name unity_instance poll_params deadline
            initial_response w.

Definition not_found_response (project tool_name : string)
  : result MCPResponse :=
  validated
    (new_MCPResponse (PBool false)
       (PStr ("Tool '" ++ tool_name ++ "' not found for project "
              ++ project))
       PNone PNone).

Definition execute_tool (fuel : nat) (self : CustomToolService) (w : World)
    (project tool_name : string) (unity_instance : option string)
    (params : option (list (string * pyval)))
  : option (result MCPResponse * CustomToolService * World) :=
  let params := match params with Some d => d | None => [] end in
  let '(first, self1, w1) := get_tool_definition self w project tool_name in
  match first with
  | Raise e => Some (Raise e, self1, w1)
  | Ok definition =>
      let '(second, self2, w2) :=
        match definition with
        | Some d => (Ok (Some d), self1, w1)
        | None =>
            let (self', w') := _sync_all_unity_tools true self1 w1 in
            get_tool_definition self' w' project tool_name
        end in
      match second with
      | Raise e => Some (Raise e, self2, w2)
      | Ok None => Some (not_found_response project tool_name, self2, w2)
      | Ok (Some definition) =>
          let (sent, w3) :=
            send_with_unity_instance unity_instance tool_name
                                     (PDict params) w2 in
          match sent with
          | Raise e => Some (Raise e, self2, w3)
          | Ok response =>
              if negb (requires_polling definition)
              then Some (_normalize_response response, self2, w3)
              else
                let action :=
                  match poll_action definition with
                  | Some a => or_status a
                  | None => "status"
                  end in
                match _poll_until_complete fuel tool_name unity_instance
                        params response action w3 with
                | Some (r, w4) => Some (r, self2, w4)
                | None => None
                end
          end
      end
  end.

(* --- resolve_project_id_for_unity_instance ------------------------- *)

(** [instance] is [CustomToolService._instance]; [get_instance()] raises
    [RuntimeError] when it is [None]. *)
Definition resolve_project_id_for_unity_instance
    (instance : option CustomToolService) (unity_instance : option string)
    (w : World) : option string * World :=
  match unity_instance with
  | None => (None, w)
  | Some token =>
      let target :=
        match discover_all_instances env (ticks w) with
        | Raise _ => None
        | Ok instances =>
            match partition_at token with
            | Some (name_part, hash_hint) =>
                find (fun inst =>
                        String.eqb (inst_name inst) name_part
                        && String.prefix hash_hint (inst_hash inst))
                     instances
            | None =>
                find (fun inst =>
                        String.eqb (inst_id inst) token
                        || String.prefix token (inst_hash inst))
                     instances
            end
        end in
      match target with
      | Some t =>
          (Some (compute_project_id (inst_name t) (inst_path t)), tick w)
      | None =>
          let hash_part :=
            match partition_at token with
            | Some (_, suffix) =>
                if String.eqb suffix "" then None else Some suffix
            | None => Some token
            end in
          match hash_part with
          | Some h =>
              if String.eqb h "" then (None, tick w)
              else
                let lowered := str_lower h in
                let mapped :=
                  match instance with
                  | Some service =>
                      get_project_id_for_hash service (Some lowered)
                  | None => None
                  end in
                match mapped with
                | Some m =>
                    if String.eqb m "" then (Some lowered, tick w)
                    else (Some m, tick w)
                | None => (Some lowered, tick w)
                end
          | None => (None, tick w)
          end
      end
  end.
End Service.

(* ===================================================================== *)
(** * The framed connections ([transport/legacy]) *)
(* ===================================================================== *)

(** [json.dumps(v).encode("utf-8")] and [json.loads(b.decode("utf-8"))];
    the second raises [UnicodeDecodeError] or [JSONDecodeError] on bytes
    that are not the encoding of a JSON text. *)
Class JsonCodec := {
  json_dumps : pyval -> list Z;
  json_loads : list Z -> result pyval
}.

(** What the operating system and the host at the other end will do, call
    after call: the outcome of each attempt to open the channel, of each
    write and of each read.  A read that finds the list empty sees the end
    of the stream; a write or an opening that finds it empty succeeds. *)
Record Channel := {
  endpoint_exists : bool;
  opens : list (option exn);
  writes : list (option exn);
  reads : list (result (list Z));
  opened : nat    (* how many handles have been handed out *)
}.

Definition pop_open (ch : Channel) : option exn * Channel :=
  match opens ch with
  | [] => (None, ch)
  | o :: rest =>
      (o, {| endpoint_exists := endpoint_exists ch; opens := rest;
             writes := writes ch; reads := reads ch; opened := opened ch |})
  end.

Definition pop_write (ch : Channel) : option exn * Channel :=
  match writes ch with
  | [] => (None, ch)
  | o :: rest =>
      (o, {| endpoint_exists := endpoint_exists ch; opens := opens ch;
             writes := rest; reads := reads ch; opened := opened ch |})
  end.

Definition with_reads (ch : Channel) (rs : list (result (list Z))) : Channel :=
  {| endpoint_exists := endpoint_exists ch; opens := opens ch;
     writes := writes ch; reads := rs; opened := opened ch |}.

Definition new_handle (ch : Channel) : nat * Channel :=
  (opened ch,
   {| endpoint_exists := endpoint_exists ch; opens := opens ch;
      writes := writes ch; reads := reads ch; opened := S (opened ch) |}).

(** The first [n] items of [l]. *)
Fixpoint take (n : Z) (l : list Z) : list Z :=
  match l with
  | [] => []
  | x :: rest => if n <=? 0 then [] else x :: take (n - 1) rest
  end.

(** A read of at most [n] bytes. *)
Definition pop_read (n : Z) (ch : Channel) : result (list Z) * Channel :=
  match reads ch with
  | [] => (Ok [], ch)
  | Ok chunk :: rest => (Ok (take n chunk), with_reads ch rest)
  | Raise e :: rest => (Raise e, with_reads ch rest)
  end.

(** [struct.pack(">Q", n)] and [struct.unpack(">Q", b)[0]]. *)
Definition pack_Q (n : Z) : result (list Z) :=
  if (0 <=? n) && (n <? 2 ^ 64) then Ok (SHA256.be_bytes 8 n)
  else Raise (Exn StructError "argument out of range").

Definition unpack_Q (bs : list Z) : result Z :=
  if (Z.of_nat (List.length bs) =? 8) then Ok (SHA256.be_word bs)
  else Raise (Exn StructError "unpack requires a buffer of 8 bytes").

Section Framing.
Context {RT : Runtime} {JC : JsonCodec}.

(** The request body. *)
Definition encode_request (command_type : string) (params : option pyval)
  : list Z :=
  if String.eqb command_type "ping" then
    json_dumps (PDict [("type", PStr "ping"); ("params", PDict [])])
  else
    let params :=
      match params with
      | Some p => if truthy p then p else PDict []
      | None => PDict []
      end in
    json_dumps (PDict [("type", PStr command_type); ("params", params)]).

(** From the decoded response to what [send_command] returns. *)
Definition unwrap_response (command_type : string) (resp_json : pyval)
  : result pyval :=
  match resp_json with
  | PDict d =>
      if eq_str (dict_get d "status") "error"
      then Raise (Exn PlainException (py_str (dict_get d "error")))
      else if String.eqb command_type "ping"
      then Ok (PDict [("message", PStr "pong")])
      else Ok (dict_get_or d "result" (PDict []))
  | _ => Raise (Exn AttributeError "object has no attribute 'get'")
  end.
End Framing.

Module Uds.
Section Connection.
Context {RT : Runtime} {JC : JsonCodec}.

(** [UnityUdsConnection]: [sock] is [None] or a socket. *)
Record UnityUdsConnection := {
  project_hash : string;
  sock : option nat
}.

Definition socket_path (self : UnityUdsConnection) : string :=
  "/tmp/UnityMCP." ++ project_hash self ++ ".sock".

Definition set_sock (self : UnityUdsConnection) (s : option nat)
  : UnityUdsConnection :=
  {| project_hash := project_hash self; sock := s |}.

Definition connect (self : UnityUdsConnection) (ch : Channel)
  : bool * UnityUdsConnection * Channel :=
  match sock self with
  | Some _ => (true, self, ch)
  | None =>
      if negb (endpoint_exists ch) then (false, self, ch)
      else
        let (h, ch0) := new_handle ch in
        match pop_open ch0 with
        | (Some _, ch1) => (false, set_sock self None, ch1)
        | (None, ch1) =>
            match pop_read 64 ch1 with
            | (Ok _, ch2) => (true, set_sock self (Some h), ch2)
            | (Raise _, ch2) => (false, set_sock self None, ch2)
            end
        end
  end.

Definition disconnect (self : UnityUdsConnection) : UnityUdsConnection :=
  match sock self with
  | Some _ => set_sock self None
  | None => self
  end.

(** [_read_exact]: the loop ends when enough bytes have come, when a
    read comes back empty or when one raises. *)
Fixpoint read_loop (count : Z) (data : list Z)
    (rs : list (result (list Z))) : result (list Z) * list (result (list Z)) :=
  if count <=? Z.of_nat (List.length data) then (Ok data, rs)
  else
    match rs with
    | [] => (Raise (Exn ConnectionError "Connection closed during read"),
             [])
    | Raise e :: rest => (Raise e, rest)
    | Ok chunk :: rest =>
        match take (count - Z.of_nat (List.length data)) chunk with
        | [] => (Raise (Exn ConnectionError
                          "Connection closed during read"), rest)
        | got => read_loop count (data ++ got)%list rest
        end
    end.

Definition _read_exact (count : Z) (ch : Channel)
  : result (list Z) * Channel :=
  let (r, rs) := read_loop count [] (reads ch) in
  (r, with_reads ch rs).

(** The body of the [try] in [send_command]. *)
Definition exchange (command_type : string) (payload : list Z)
    (ch : Channel) : result pyval * Channel :=
  match pack_Q (Z.of_nat (List.length payload)) with
  | Raise e => (Raise e, ch)
  | Ok header =>
      match pop_write ch with
      | (Some e, ch1) => (Raise e, ch1)
      | (None, ch1) =>
          match pop_write ch1 with
          | (Some e, ch2) => (Raise e, ch2)
          | (None, ch2) =>
              match _read_exact 8 ch2 with
              | (Raise e, ch3) => (Raise e, ch3)
              | (Ok resp_header, ch3) =>
                  match unpack_Q resp_header with
                  | Raise e => (Raise e, ch3)
                  | Ok resp_len =>
                      match _read_exact resp_len ch3 with
                      | (Raise e, ch4) => (Raise e, ch4)
                      | (Ok resp_body, ch4) =>
                          (try! resp_json <- json_loads resp_body;
                           unwrap_response command_type resp_json, ch4)
                      end
                  end
              end
          end
      end
  end.

Definition send_command (self : UnityUdsConnection) (ch : Channel)
    (command_type : string) (params : option pyval)
  : result pyval * UnityUdsConnection * Channel :=
  let '(connected, self0, ch0) :=
    match sock self with
    | Some _ => (true, self, ch)
    | None => connect self ch
    end in
  if negb connected
  then (Raise (Exn ConnectionError "Not connected to Unity UDS"),
        self0, ch0)
  else
    let payload := encode_request command_type params in
    match exchange command_type payload ch0 with
    | (Ok v, ch1) => (Ok v, self0, ch1)
    | (Raise e, ch1) =>
        if is_instance e BrokenPipeError
           || is_instance e ConnectionResetError
        then (Raise (Exn ConnectionError
                       ("UDS broken: " ++ str_of_exn e)),
              disconnect self0, ch1)
        else (Raise e, disconnect self0, ch1)
    end.
End Connection.
End Uds.

Module Pipe.
Section Connection.
Context {RT : Runtime} {JC : JsonCodec}.
(** Whether the import of [win32file], [win32pipe] and [pywintypes]
    succeeded. *)
Variable _HAS_WIN32 : bool.

(** [UnityPipeConnection]: [pipe_handle] is [None] or a handle. *)
Record UnityPipeConnection := {
  project_hash : string;
  pipe_handle : option nat
}.

Definition pipe_name (self : UnityPipeConnection) : string :=
  "\\.\pipe\UnityMCP." ++ project_hash self.

Definition set_handle (self : UnityPipeConnection) (h : option nat)
  : UnityPipeConnection :=
  {| project_hash := project_hash self; pipe_handle := h |}.

(** [WaitNamedPipe] fails with error 2 when the pipe does not exist;
    any other failure of it, of [CreateFile] or of the first [ReadFile]
    is the next outcome of [opens] or [reads]. *)
Definition connect (self : UnityPipeConnection) (ch : Channel)
  : bool * UnityPipeConnection * Channel :=
  if negb _HAS_WIN32 then (false, self, ch)
  else
    match pipe_handle self with
    | Some _ => (true, self, ch)
    | None =>
        if negb (endpoint_exists ch) then (false, self, ch)
        else
          match pop_open ch with
          | (Some _, ch1) => (false, set_handle self None, ch1)
          | (None, ch1) =>
              let (h, ch2) := new_handle ch1 in
              match pop_read 64 ch2 with
              | (Ok _, ch3) => (true, set_handle self (Some h), ch3)
              | (Raise _, ch3) => (false, set_handle self None, ch3)
              end
          end
    end.

Definition disconnect (self : UnityPipeConnection) : UnityPipeConnection :=
  match pipe_handle self with
  | Some _ => set_handle self None
  | None => self
  end.

(** The body of the [try] in [send_command]. *)
Definition exchange (command_type : string) (payload : list Z)
    (ch : Channel) : result pyval * Channel :=
  match pack_Q (Z.of_nat (List.length payload)) with
  | Raise e => (Raise e, ch)
  | Ok header =>
      match pop_write ch with
      | (Some e, ch1) => (Raise e, ch1)
      | (None, ch1) =>
          match pop_write ch1 with
          | (Some e, ch2) => (Raise e, ch2)
          | (None, ch2) =>
              match pop_read 8 ch2 with
              | (Raise e, ch3) => (Raise e, ch3)
              | (Ok resp_header, ch3) =>
                  if (List.length resp_header <? 8)%nat
                  then (Raise (Exn ConnectionError
                                 "Pipe closed or incomplete header"),
                        ch3)
                  else
                    match unpack_Q resp_header with
                    | Raise e => (Raise e, ch3)
                    | Ok resp_len =>
                        match pop_read resp_len ch3 with
                        | (Raise e, ch4) => (Raise e, ch4)
                        | (Ok resp_body, ch4) =>
                            (try! resp_json <- json_loads resp_body;
                             unwrap_response command_type resp_json, ch4)
                        end
                    end
              end
          end
      end
  end.

Definition send_command (self : UnityPipeConnection) (ch : Channel)
    (command_type : string) (params : option pyval)
  : result pyval * UnityPipeConnection * Channel :=
  let '(connected, self0, ch0) :=
    match pipe_handle self with
    | Some _ => (true, self, ch)
    | None => connect self ch
    end in
  if negb connected
  then (Raise (Exn ConnectionError "Not connected to Unity Pipe"),
        self0, ch0)
  else if negb _HAS_WIN32
  then
    (* [win32file] is not defined, and neither is the
       [pywintypes.error] that the first handler names: the
       [NameError] raised while the handlers are matched leaves
       [send_command] at once. *)
    (Raise (Exn NameError "name 'pywintypes' is not defined"), self0, ch0)
  else
    let payload := encode_request command_type params in
    match exchange command_type payload ch0 with
    | (Ok v, ch1) => (Ok v, self0, ch1)
    | (Raise e, ch1) =>
        if is_instance e PyWinError
        then (Raise (Exn ConnectionError
                       ("Pipe broken: " ++ str_of_exn e)),
              disconnect self0, ch1)
        else (Raise e, disconnect self0, ch1)
    end.
End Connection.
End Pipe.

(* ===================================================================== *)
(** * Instances on which the programs can be run *)
(* ===================================================================== *)

Module Sample.

(** [str.lower] on the ASCII letters. *)
Definition ascii_lower (c : ascii) : ascii :=
  let n := nat_of_ascii c in
  if (65 <=? n)%nat && (n <=? 90)%nat then ascii_of_nat (n + 32) else c.

Fixpoint lower (s : string) : string :=
  match s with
  | EmptyString => EmptyString
  | String c rest => String (ascii_lower c) (lower rest)
  end.

(** Unsigned decimal integer literals. *)
Fixpoint digits (acc : Z) (s : string) : option Z :=
  match s with
  | EmptyString => Some acc
  | String c rest =>
      let n := nat_of_ascii c in
      if (48 <=? n)%nat && (n <=? 57)%nat
      then digits (10 * acc + Z.of_nat (n - 48)) rest
      else None
  end.

(** [float(s)] on ["nan"], ["inf"], ["-inf"] and the literals of
    [digits] with at most fifteen digits, which binary64 holds exactly. *)
Definition parse_float (s : string) : option pyfloat :=
  if String.eqb s "nan" then Some FNan
  else if String.eqb s "inf" then Some (FInf false)
  else if String.eqb s "-inf" then Some (FInf true)
  else if String.eqb s "" then None
  else if (15 <? String.length s)%nat then None
  else match digits 0 s with
       | Some n => Some (FFin (inject_Z n))
       | None => None
       end.

Definition str_of_Z (n : Z) : string :=
  NilEmpty.string_of_int (Z.to_int n).

(** [str(v)] on [None], booleans, integers and strings. *)
Definition show (v : pyval) : string :=
  match v with
  | PNone => "None"
  | PBool true => "True"
  | PBool false => "False"
  | PInt n => str_of_Z n
  | PStr s => s
  | PFloat _ => "<float>"
  | PList _ => "<list>"
  | PDict _ => "<dict>"
  end.

Definition runtime : Runtime :=
  {| str_lower := lower; float_of_str := parse_float; py_str := show |}.

(** Strict validation: every field must already have its declared type. *)
Definition opt_str (v : pyval) : option (option string) :=
  match v with
  | PNone => Some None
  | PStr s => Some (Some s)
  | _ => None
  end.

Definition response (s m e d : pyval) : option MCPResponse :=
  match s, opt_str m, opt_str e with
  | PBool b, Some m', Some e' =>
      Some {| success := b; message := m'; error := e'; data := d |}
  | _, _, _ => None
  end.

Definition parameter (n d t r v : pyval) : option ToolParameterModel :=
  match n, opt_str d, t, r, opt_str v with
  | PStr n', Some d', PStr t', PBool r', Some v' =>
      Some {| param_name := n'; param_description := d'; param_type := t';
              param_required := r'; param_default_value := v' |}
  | _, _, _, _, _ => None
  end.

Definition definition (n d s r a : pyval) (ps : list ToolParameterModel)
  : option ToolDefinitionModel :=
  match n, opt_str d, s, r, opt_str a with
  | PStr n', Some d', PBool s', PBool r', Some a' =>
      Some {| name := n'; description := d'; structured_output := s';
              requires_polling := r'; poll_action := a'; parameters := ps |}
  | _, _, _, _, _ => None
  end.

(** A tool definition read from a dict with no parameters. *)
Definition tool_of (v : pyval) : option ToolDefinitionModel :=
  match v with
  | PDict d =>
      definition (dict_get d "name") (dict_get d "description")
                 (dict_get_or d "structured_output" (PBool true))
                 (dict_get_or d "requires_polling" (PBool false))
                 (dict_get_or d "poll_action" (PStr "status")) []
  | _ => None
  end.

Fixpoint all_some {A} (l : list (option A)) : option (list A) :=
  match l with
  | [] => Some []
  | Some a :: rest =>
      match all_some rest with
      | Some l' => Some (a :: l')
      | None => None
      end
  | None :: _ => None
  end.

Definition payload (v : pyval) : option RegisterToolsPayload :=
  match v with
  | PDict d =>
      match dict_get d "project_id", opt_str (dict_get d "project_hash"),
            dict_get d "tools" with
      | PStr p, Some h, PList ts =>
          match all_some (map tool_of ts) with
          | Some ts' =>
              Some {| project_id := p; project_hash := h; tools := ts' |}
          | None => None
          end
      | _, _, _ => None
      end
  | _ => None
  end.

Lemma response_typed :
  forall b m e d,
    is_payload d = true ->
    response (PBool b) (of_opt_str m) (of_opt_str e) d
    = Some {| success := b; message := m; error := e; data := d |}.
Proof. intros b [m|] [e|] d _; reflexivity. Defined.

Definition pydantic : Pydantic :=
  {| new_MCPResponse := response;
     new_ToolParameterModel := parameter;
     new_ToolDefinitionModel := definition;
     model_validate := payload;
     model_str := fun r => "<MCPResponse>";
     new_MCPResponse_typed := response_typed |}.

(** A codec that knows the few messages of the examples: every request is
    written as [{}], and a body is understood when it is listed. *)
Definition body_ok : list Z := SHA256.bytes_of_string "ok".
Definition body_err : list Z := SHA256.bytes_of_string "err".

Definition loads (bs : list Z) : result pyval :=
  if list_eq_dec Z.eq_dec bs body_ok
  then Ok (PDict [("status", PStr "success");
                  ("result", PDict [("x", PInt 1)])])
  else if list_eq_dec Z.eq_dec bs body_err
  then Ok (PDict [("status", PStr "error"); ("error", PStr "boom")])
  else Raise (Exn JSONDecodeError "Expecting value").

Definition codec : JsonCodec :=
  {| json_dumps := fun _ => SHA256.bytes_of_string "{}";
     json_loads := loads |}.

End Sample.

(* ===================================================================== *)
(** * Properties of the status classifier and of normalization *)
(* ===================================================================== *)

Definition q0_1 : Q := 3602879701896397 # 36028797018963968.

Lemma flt_fin (x y : Q) : flt (FFin x) (FFin y) = true <-> (x < y)%Q.
Proof.
  unfold flt. rewrite negb_true_iff.
  split; intro H.
  - apply Qnot_le_lt. intro Hle. apply Qle_bool_iff in Hle. congruence.
  - destruct (Qle_bool y x) eqn:E; [|reflexivity].
    apply Qle_bool_iff in E. exfalso. apply (Qlt_not_le _ _ H E).
Qed.

Lemma flt_fin_false (x y : Q) : flt (FFin x) (FFin y) = false <-> (y <= x)%Q.
Proof.
  unfold flt. rewrite negb_false_iff. apply Qle_bool_iff.
Qed.

(** What [max(0.1, min(x, 5.0))] is: a finite value between the two bounds,
    and [x] itself when [x] already lies there. *)
Lemma clamp_in_range (f : pyfloat) :
  exists q, py_max f0_1 (py_min f f5_0) = FFin q /\ (q0_1 <= q <= 5)%Q.
Proof.
  destruct f as [|[|]|x].
  - exists q0_1. split; [reflexivity|]. unfold q0_1. split; lra.
  - exists q0_1. split; [reflexivity|]. unfold q0_1. split; lra.
  - exists 5%Q. split; [reflexivity|]. unfold q0_1. split; lra.
  - unfold py_min, f5_0.
    destruct (flt (FFin 5) (FFin x)) eqn:E5.
    + exists 5%Q. split; [reflexivity|]. unfold q0_1. split; lra.
    + apply flt_fin_false in E5. unfold py_max, f0_1.
      destruct (flt (FFin (3602879701896397 # 36028797018963968)) (FFin x))
        eqn:E1.
      * apply flt_fin in E1. exists x. split; [reflexivity|].
        unfold q0_1. split; [apply Qlt_le_weak; exact E1 | exact E5].
      * exists q0_1. split; [reflexivity|]. unfold q0_1. split; lra.
Qed.

Lemma clamp_inside (x : Q) :
  (q0_1 < x)%Q -> (x <= 5)%Q -> py_max f0_1 (py_min (FFin x) f5_0) = FFin x.
Proof.
  intros Hlo Hhi. unfold py_min, f5_0.
  replace (flt (FFin 5) (FFin x)) with false
    by (symmetry; apply flt_fin_false; exact Hhi).
  unfold py_max, f0_1.
  replace (flt (FFin (3602879701896397 # 36028797018963968)) (FFin x))
    with true by (symmetry; apply flt_fin; exact Hlo).
  reflexivity.
Qed.

Section StatusFacts.
Context {RT : Runtime} {PD : Pydantic}.

(** The interval hint of a pending response, as the classifier reads it:
    [float] of the field (or of the default), the default when that raises
    [TypeError] or [ValueError]. *)
Definition hint_of (d : list (string * pyval)) : result pyfloat :=
  match py_float (dict_get_or d "_mcp_poll_interval"
                              (PFloat _DEFAULT_POLL_INTERVAL)) with
  | Ok f => Ok f
  | Raise e =>
      if is_instance e TypeError || is_instance e ValueError
      then Ok _DEFAULT_POLL_INTERVAL else Raise e
  end.

Lemma interpret_status_empty :
  _interpret_status (Raw (PDict [])) = Ok (pending, _DEFAULT_POLL_INTERVAL).
Proof. reflexivity. Qed.

Lemma interpret_status_no_marker (d : list (string * pyval)) :
  d <> [] -> dict_get d "_mcp_status" = PNone ->
  _interpret_status (Raw (PDict d)) = Ok (final, _DEFAULT_POLL_INTERVAL).
Proof.
  intros Hne Hm. unfold _interpret_status. rewrite Hm.
  destruct d; [contradiction|reflexivity].
Qed.

Lemma interpret_status_pending (d : list (string * pyval)) :
  dict_get d "_mcp_status" = PStr "pending" ->
  _interpret_status (Raw (PDict d))
  = try! f <- hint_of d; Ok (pending, py_max f0_1 (py_min f f5_0)).
Proof.
  intros Hm. unfold _interpret_status, hint_of. rewrite Hm. reflexivity.
Qed.

Lemma interpret_status_marker (d : list (string * pyval)) (s : string) :
  dict_get d "_mcp_status" = PStr s -> s <> "pending" ->
  _interpret_status (Raw (PDict d))
  = Ok (if String.eqb s "complete" then complete
        else if String.eqb s "error" then error_status
        else final, _DEFAULT_POLL_INTERVAL).
Proof.
  intros Hm Hs. unfold _interpret_status. rewrite Hm. simpl.
  destruct (String.eqb s "pending") eqn:E.
  - apply String.eqb_eq in E. contradiction.
  - destruct (String.eqb s "complete"); [reflexivity|].
    destruct (String.eqb s "error"); reflexivity.
Qed.

Lemma interpret_status_other_marker (d : list (string * pyval)) (v : pyval) :
  dict_get d "_mcp_status" = v -> v <> PNone -> (forall s, v <> PStr s) ->
  _interpret_status (Raw (PDict d)) = Ok (final, _DEFAULT_POLL_INTERVAL).
Proof.
  intros Hm Hn Hs. unfold _interpret_status. rewrite Hm.
  destruct v; try reflexivity; try contradiction.
  exfalso. apply (Hs s). reflexivity.
Qed.

(** Whatever is classified comes with a finite interval within
    [0.1, 5.0]. *)
Lemma interval_in_range (r : raw_response) (s : poll_status) (i : pyfloat) :
  _interpret_status r = Ok (s, i) ->
  exists q, i = FFin q /\ (q0_1 <= q <= 5)%Q.
Proof.
  assert (Hd : exists q, _DEFAULT_POLL_INTERVAL = FFin q
                         /\ (q0_1 <= q <= 5)%Q).
  { exists 1%Q. split; [reflexivity|]. unfold q0_1. split; lra. }
  unfold _interpret_status.
  destruct r as [m|v]; [intros H; inversion H; subst; exact Hd|].
  destruct v; try (intros H; inversion H; subst; exact Hd).
  destruct (dict_get d "_mcp_status") eqn:Hm;
    try (intros H; inversion H; subst; exact Hd).
  - destruct d; intros H; inversion H; subst; exact Hd.
  - simpl. destruct (String.eqb s0 "pending").
    + destruct (py_float _) as [f|e].
      * simpl. intros H. inversion H; subst. apply clamp_in_range.
      * destruct (is_instance e TypeError || is_instance e ValueError);
          simpl; intros H; [|discriminate].
        inversion H; subst. apply clamp_in_range.
    + destruct (String.eqb s0 "complete");
        [intros H; inversion H; subst; exact Hd|].
      destruct (String.eqb s0 "error");
        intros H; inversion H; subst; exact Hd.
Qed.

(** The raised exception of the classifier, when there is one, is the
    [OverflowError] of [float] on an integer hint. *)
Lemma interpret_status_raises (r : raw_response) (e : exn) :
  _interpret_status r = Raise e ->
  exists d n,
    r = Raw (PDict d)
    /\ dict_get d "_mcp_status" = PStr "pending"
    /\ dict_get_or d "_mcp_poll_interval" (PFloat _DEFAULT_POLL_INTERVAL)
       = PInt n
    /\ float_of_int n = Raise e
    /\ exn_kind e = OverflowError.
Proof.
  unfold _interpret_status.
  destruct r as [m|v]; [discriminate|].
  destruct v; try discriminate.
  destruct (dict_get d "_mcp_status") eqn:Hm; try discriminate.
  - destruct d; discriminate.
  - simpl. destruct (String.eqb s "pending") eqn:Es.
    + apply String.eqb_eq in Es. subst s.
      destruct (dict_get_or d "_mcp_poll_interval" _) eqn:Hh; simpl;
        try discriminate.
      * destruct (float_of_int n) as [f|e'] eqn:Hf; [discriminate|].
        assert (Hk : exn_kind e' = OverflowError).
        { unfold float_of_int in Hf.
          destruct (_ <=? 53); [discriminate|].
          destruct (2 ^ 1024 <=? _); [|discriminate].
          inversion Hf. reflexivity. }
        unfold is_instance. rewrite Hk. simpl.
        intros H. inversion H; subst.
        exists d, n. repeat split; assumption.
      * destruct (float_of_str s); discriminate.
    + destruct (String.eqb s "complete"); [discriminate|].
      destruct (String.eqb s "error"); discriminate.
Qed.
End StatusFacts.

Section NormalizeFacts.
Context {RT : Runtime} {PD : Pydantic}.

(** The branch of [normalize_rest] that looks at [_mcp_status] would turn
    the marker ["error"] into [success = False] ... *)
Lemma normalize_rest_error_marker :
  normalize_rest (PDict [("_mcp_status", PStr "error")])
  = Ok {| success := false; message := None; error := None;
          data := PNone |}.
Proof.
  unfold normalize_rest. cbn.
  rewrite (new_MCPResponse_typed false None None PNone eq_refl).
  reflexivity.
Qed.

(** ... but no dict ever reaches it: [_normalize_response] answers a dict
    from its second early return. *)
Lemma normalize_response_dict (d : list (string * pyval)) :
  _normalize_response (Raw (PDict d))
  = validated
      (new_MCPResponse (dict_get_or d "success" (PBool true))
         (dict_get d "message") (dict_get d "error")
         (if dict_mem "data" d then dict_get d "data" else PDict d)).
Proof.
  unfold _normalize_response.
  destruct (dict_mem "data" d) eqn:E; [reflexivity|].
  cbn [negb]. unfold dict_get_or at 2. unfold dict_mem in E.
  destruct (dict_find "data" d); [discriminate|reflexivity].
Qed.

(** A dict with the marker ["error"], well-typed [message] and [error]
    fields and no [success] field is normalized to [success = True]. *)
Lemma normalize_response_marker_ignored
    (d : list (string * pyval)) (m e : option string) :
  dict_find "success" d = None ->
  dict_find "data" d = None ->
  dict_get d "message" = of_opt_str m ->
  dict_get d "error" = of_opt_str e ->
  _normalize_response (Raw (PDict d))
  = Ok {| success := true; message := m; error := e; data := PDict d |}.
Proof.
  intros Hs Hd Hm He. rewrite normalize_response_dict.
  unfold dict_get_or, dict_mem. rewrite Hs, Hd, Hm, He.
  rewrite (new_MCPResponse_typed true m e (PDict d) eq_refl).
  reflexivity.
Qed.
End NormalizeFacts.

(** C1 (the code departs from the claim).  The response
    [{"_mcp_status": "error"}], a dict that carries the status marker
    ["error"] and no [success] field, is normalized by [_normalize_response]
    to a Result whose [success] is [True]: the dict is answered by the early
    return, which reads [success] with the default [True] and never looks at
    the marker. *)
Theorem normalize_response_error_marker_success_true :
  forall (RT : Runtime) (PD : Pydantic),
    _normalize_response (Raw (PDict [("_mcp_status", PStr "error")]))
    = Ok {| success := true; message := None; error := None;
            data := PDict [("_mcp_status", PStr "error")] |}.
Proof.
  intros RT PD.
  apply (normalize_response_marker_ignored
           [("_mcp_status", PStr "error")] None None); reflexivity.
Qed.

(** C2 (the code departs from the claim).  On the pending response whose
    interval hint is the integer [10 ** 400], [_interpret_status] does not
    return the pending state with a clamped interval: [float] raises
    [OverflowError], which the handler for [TypeError] and [ValueError] lets
    through. *)
Theorem interpret_status_overflow_raises :
  forall (RT : Runtime),
    _interpret_status
      (Raw (PDict [("_mcp_status", PStr "pending");
                   ("_mcp_poll_interval", PInt (10 ^ 400))]))
    = Raise (Exn OverflowError "int too large to convert to float").
Proof. intros RT. vm_compute. reflexivity. Qed.

Section PollFacts.
Context {RT : Runtime} {PD : Pydantic}.
Variable env : Env.

(** A terminal classification ends the loop at once. *)
Lemma poll_loop_terminal (fuel : nat) (tool_name : string)
    (unity_instance : option string) (poll_params : pyval) (deadline : Q)
    (r : raw_response) (w : World) (s : poll_status) (i : pyfloat) :
  _interpret_status r = Ok (s, i) -> is_terminal s = true ->
  poll_loop env (S fuel) tool_name unity_instance poll_params deadline r w
  = Some (_normalize_response r, w).
Proof.
  intros Hc Ht. cbn [poll_loop]. rewrite Hc, Ht. reflexivity.
Qed.
End PollFacts.

(** C10.  [_interpret_status] classifies [None] as pending with the default
    interval of one second, and every response that is neither [None] nor a
    dict as final with the default interval; the poll loop returns on such a
    response at once, with its normalization. *)
Theorem interpret_status_none_and_non_dict :
  forall (RT : Runtime) (PD : Pydantic) (env : Env) (r : raw_response),
    (r = Raw PNone ->
     _interpret_status r = Ok (pending, FFin 1))
    /\ (r <> Raw PNone -> (forall d, r <> Raw (PDict d)) ->
        _interpret_status r = Ok (final, FFin 1)
        /\ forall fuel tool_name unity_instance poll_params deadline w,
            poll_loop env (S fuel) tool_name unity_instance poll_params
                      deadline r w
            = Some (_normalize_response r, w)).
Proof.
  intros RT PD env r. split.
  - intros ->. reflexivity.
  - intros Hn Hd.
    assert (Hc : _interpret_status r = Ok (final, FFin 1)).
    { destruct r as [m|v]; [reflexivity|].
      destruct v; try reflexivity.
      - contradiction.
      - exfalso. apply (Hd d). reflexivity. }
    split; [exact Hc|].
    intros. apply (poll_loop_terminal env _ _ _ _ _ _ _ Hc). reflexivity.
Qed.

Lemma interpret_status_none_and_non_dict_witness :
  @_interpret_status Sample.runtime (Raw (PStr "done")) = Ok (final, FFin 1).
Proof.
  apply (proj2 (interpret_status_none_and_non_dict
                  Sample.runtime Sample.pydantic
                  {| _is_http_transport := false;
                     discover_all_instances := fun _ => Ok [];
                     async_send_command_with_retry :=
                       fun _ _ _ _ =>
                         {| latency := 0; outcome := Ok (Raw PNone) |};
                     hub_send_command_for_instance :=
                       fun _ _ _ _ =>
                         {| latency := 0; outcome := Ok (Raw PNone) |};
                     hub_get_tools_for_project := fun _ => Ok [];
                     hub_get_tool_definition := fun _ _ => Ok None |}
                  (Raw (PStr "done")))).
  - discriminate.
  - intros d. discriminate.
Defined.

(* ===================================================================== *)
(** * Properties of [compute_project_id] *)
(* ===================================================================== *)

(** The implementation of SHA-256 above agrees with the published test
    vectors. *)
Example sha256_abc :
  SHA256.hexdigest "abc"
  = "ba7816bf8f01cfea414140de5dae2223b00361a396177a9cb410ff61f20015ad".
Proof. vm_compute. reflexivity. Qed.

Example sha256_empty :
  SHA256.hexdigest ""
  = "e3b0c44298fc1c149afbf4c8996fb92427ae41e4649b934ca495991b7852b855".
Proof. vm_compute. reflexivity. Qed.

(** A message of 56 bytes, the shortest whose padding spills into a second
    block. *)
Example sha256_two_blocks :
  SHA256.hexdigest "aaaaaaaaaaaaaaaaaaaaaaaaaaaaaaaaaaaaaaaaaaaaaaaaaaaaaaaa"
  = "b35439a4ac6f0948b6d6f9e3c6af0f5f590ce20f1bde7090ef7970686ec6738a".
Proof. vm_compute. reflexivity. Qed.

Example compute_project_id_MyGame :
  compute_project_id "MyGame" "/home/u/MyGame" = "5084285B5FF8BBD2".
Proof. vm_compute. reflexivity. Qed.

Definition is_upper_hex (c : ascii) : bool :=
  existsb (Ascii.eqb c) (list_ascii_of_string "0123456789ABCDEF").

Fixpoint string_forall (p : ascii -> bool) (s : string) : bool :=
  match s with
  | EmptyString => true
  | String c rest => p c && string_forall p rest
  end.

Lemma be_bytes_length (width : nat) (x : Z) :
  List.length (SHA256.be_bytes width x) = width.
Proof.
  unfold SHA256.be_bytes.
  rewrite length_map, length_rev, length_seq. reflexivity.
Qed.

Lemma digest_length (msg : list Z) : List.length (SHA256.digest msg) = 32%nat.
Proof.
  unfold SHA256.digest. cbn [flat_map].
  repeat rewrite length_app. repeat rewrite be_bytes_length. reflexivity.
Qed.

Lemma hex_of_bytes_length (bs : list Z) :
  String.length (SHA256.hex_of_bytes bs) = (2 * List.length bs)%nat.
Proof.
  induction bs as [|b bs IH]; [reflexivity|].
  cbn [SHA256.hex_of_bytes String.length List.length]. rewrite IH. lia.
Qed.

Lemma hex_digit_upper (d : Z) :
  is_upper_hex (ascii_upper (SHA256.hex_digit d)) = true.
Proof.
  unfold SHA256.hex_digit.
  assert (H : (Z.to_nat (Z.land d 15) < 16)%nat).
  { change 15 with (Z.ones 4). rewrite Z.land_ones by lia.
    pose proof (Z.mod_pos_bound d (2 ^ 4) ltac:(lia)). lia. }
  change 0xf with 15.
  destruct (Z.to_nat (Z.land d 15)) as [|n]; [reflexivity|].
  do 15 (destruct n as [|n]; [reflexivity|]). lia.
Qed.

Lemma upper_hex_of_bytes (bs : list Z) :
  string_forall is_upper_hex (upper (SHA256.hex_of_bytes bs)) = true.
Proof.
  induction bs as [|b bs IH]; [reflexivity|].
  cbn [SHA256.hex_of_bytes upper string_forall].
  rewrite !hex_digit_upper, IH. reflexivity.
Qed.

Lemma upper_length (s : string) : String.length (upper s) = String.length s.
Proof. induction s as [|c s IH]; [reflexivity|]. cbn. rewrite IH. reflexivity. Qed.

Lemma substring_prefix_length (n : nat) (s : string) :
  (n <= String.length s)%nat -> String.length (substring 0 n s) = n.
Proof.
  revert s. induction n as [|n IH]; intros s H.
  - destruct s; reflexivity.
  - destruct s as [|c s]; [cbn in H; lia|].
    cbn [substring String.length]. rewrite IH; [reflexivity|].
    cbn in H. lia.
Qed.

Lemma substring_prefix_forall (p : ascii -> bool) (n : nat) (s : string) :
  string_forall p s = true -> string_forall p (substring 0 n s) = true.
Proof.
  revert s. induction n as [|n IH]; intros s H.
  - destruct s; reflexivity.
  - destruct s as [|c s]; [reflexivity|].
    cbn [substring string_forall] in *.
    apply andb_true_iff in H. destruct H as [Hc Hs].
    rewrite Hc, (IH _ Hs). reflexivity.
Qed.

(** C8.  [compute_project_id] is the first 16 characters of the uppercased
    hexadecimal SHA-256 digest of [name + ":" + path]; the result always has
    16 characters, each an uppercase hexadecimal digit; and equal pairs give
    equal identifiers. *)
Theorem compute_project_id_shape :
  forall (project_name project_path : string),
    compute_project_id project_name project_path
    = substring 0 16
        (upper (SHA256.hexdigest (project_name ++ ":" ++ project_path)))
    /\ String.length (compute_project_id project_name project_path) = 16%nat
    /\ string_forall is_upper_hex
         (compute_project_id project_name project_path) = true
    /\ (forall name' path',
          project_name = name' -> project_path = path' ->
          compute_project_id project_name project_path
          = compute_project_id name' path').
Proof.
  intros project_name project_path. unfold compute_project_id.
  split; [reflexivity|]. split; [|split].
  - apply substring_prefix_length.
    rewrite upper_length. unfold SHA256.hexdigest.
    rewrite hex_of_bytes_length, digest_length. lia.
  - apply substring_prefix_forall. unfold SHA256.hexdigest.
    apply upper_hex_of_bytes.
  - intros name' path' -> ->. reflexivity.
Qed.

Lemma compute_project_id_shape_witness :
  compute_project_id "MyGame" "/home/u/MyGame"
  = compute_project_id "MyGame" "/home/u/MyGame".
Proof.
  apply (proj2 (proj2 (proj2
           (compute_project_id_shape "MyGame" "/home/u/MyGame"))));
    reflexivity.
Defined.

(* ===================================================================== *)
(** * Properties of the registry *)
(* ===================================================================== *)

Lemma alist_find_set_same {V} (k : string) (v : V) (d : list (string * V)) :
  alist_find k (alist_set k v d) = Some v.
Proof.
  induction d as [|[k' v'] d IH]; cbn.
  - rewrite String.eqb_refl. reflexivity.
  - destruct (String.eqb k k') eqn:E; cbn; rewrite E; [reflexivity|exact IH].
Qed.

Lemma alist_find_set_other {V} (k k0 : string) (v : V)
    (d : list (string * V)) :
  k0 <> k -> alist_find k0 (alist_set k v d) = alist_find k0 d.
Proof.
  intros Hne. induction d as [|[k' v'] d IH]; cbn.
  - destruct (String.eqb k0 k) eqn:E; [|reflexivity].
    apply String.eqb_eq in E. contradiction.
  - destruct (String.eqb k k') eqn:E; cbn.
    + apply String.eqb_eq in E. subst k'.
      destruct (String.eqb k0 k) eqn:E0; [|reflexivity].
      apply String.eqb_eq in E0. contradiction.
    + rewrite IH. reflexivity.
Qed.

Lemma find_over_app {A} (p : A -> bool) (l1 l2 : list A) :
  find p (l1 ++ l2)
  = match find p l1 with
    | Some a => Some a
    | None => find p l2
    end.
Proof.
  induction l1 as [|a l1 IH]; [reflexivity|].
  cbn. destruct (p a); [reflexivity|exact IH].
Qed.

(** The definition that a batch leaves under a name: the last one of the
    batch that bears it. *)
Definition last_named (n : string) (ts : list ToolDefinitionModel)
  : option ToolDefinitionModel :=
  find (fun t => String.eqb n (name t)) (rev ts).

Section RegistryFacts.
Context {RT : Runtime}.

Lemma project_dict_register (self : CustomToolService) (p : string)
    (t : ToolDefinitionModel) :
  project_dict (_register_tool self p t) p
  = alist_set (name t) t (project_dict self p).
Proof.
  unfold project_dict at 1, _register_tool. cbn.
  rewrite alist_find_set_same. reflexivity.
Qed.

Lemma project_dict_register_other (self : CustomToolService) (p p0 : string)
    (t : ToolDefinitionModel) :
  p0 <> p -> project_dict (_register_tool self p t) p0 = project_dict self p0.
Proof.
  intros Hne. unfold project_dict, _register_tool. cbn.
  rewrite alist_find_set_other by exact Hne. reflexivity.
Qed.

Lemma find_rev_snoc (n : string) (ts : list ToolDefinitionModel)
    (t : ToolDefinitionModel) :
  last_named n (t :: ts)
  = match last_named n ts with
    | Some t' => Some t'
    | None => if String.eqb n (name t) then Some t else None
    end.
Proof.
  unfold last_named. cbn [rev]. rewrite find_over_app.
  destruct (find _ (rev ts)); [reflexivity|]. cbn.
  destruct (String.eqb n (name t)); reflexivity.
Qed.

Lemma register_each_spec (p : string) (ts : list ToolDefinitionModel) :
  forall (self : CustomToolService) (reg rep : list string),
    let '(self', reg', rep') := register_each p ts self reg rep in
    reg' = (reg ++ map name ts)%list
    /\ _hash_to_project self' = _hash_to_project self
    /\ _last_sync_time self' = _last_sync_time self
    /\ (forall n,
          alist_find n (project_dict self' p)
          = match last_named n ts with
            | Some t => Some t
            | None => alist_find n (project_dict self p)
            end)
    /\ (forall p0, p0 <> p -> project_dict self' p0 = project_dict self p0).
Proof.
  induction ts as [|t ts IH]; intros self reg rep.
  - cbn. rewrite app_nil_r. repeat split; reflexivity.
  - cbn [register_each].
    specialize (IH (_register_tool self p t) (reg ++ [name t])%list
                   (if _is_registered self p (name t)
                    then (rep ++ [name t])%list else rep)).
    destruct (register_each p ts _ _ _) as [[self' reg'] rep'].
    destruct IH as (Hreg & Hh & Hs & Hfind & Hother).
    split; [|split; [|split; [|split]]].
    + rewrite Hreg, <- app_assoc. reflexivity.
    + rewrite Hh. reflexivity.
    + rewrite Hs. reflexivity.
    + intros n. rewrite Hfind, find_rev_snoc.
      destruct (last_named n ts); [reflexivity|].
      rewrite project_dict_register.
      destruct (String.eqb n (name t)) eqn:E.
      * apply String.eqb_eq in E. subst n. apply alist_find_set_same.
      * apply alist_find_set_other. intro Heq. subst n.
        rewrite String.eqb_refl in E. discriminate.
    + intros p0 Hne. rewrite (Hother p0 Hne).
      apply project_dict_register_other. exact Hne.
Qed.

(** The hash table after a batch. *)
Definition hash_table_after (self : CustomToolService)
    (payload : RegisterToolsPayload) : list (string * string) :=
  match project_hash payload with
  | Some h =>
      if String.eqb h "" then _hash_to_project self
      else alist_set (str_lower h) (project_id payload)
                     (_hash_to_project self)
  | None => _hash_to_project self
  end.

Lemma register_payload_spec (self : CustomToolService)
    (payload : RegisterToolsPayload) :
  registered (fst (register_payload self payload)) = map name (tools payload)
  /\ reg_success (fst (register_payload self payload)) = true
  /\ _hash_to_project (snd (register_payload self payload))
     = hash_table_after self payload
  /\ (forall n,
        alist_find n (project_dict (snd (register_payload self payload))
                                   (project_id payload))
        = match last_named n (tools payload) with
          | Some t => Some t
          | None => alist_find n (project_dict self (project_id payload))
          end).
Proof.
  unfold register_payload.
  pose proof (register_each_spec (project_id payload) (tools payload)
                                 self [] []) as H.
  destruct (register_each _ _ _ _ _) as [[self1 reg] rep].
  destruct H as (Hreg & Hh & _ & Hfind & _).
  unfold hash_table_after.
  destruct (project_hash payload) as [h|].
  - destruct (String.eqb h ""); cbn;
      (split; [exact Hreg|split; [reflexivity|split]]);
      try (rewrite Hh; reflexivity); exact Hfind.
  - cbn. split; [exact Hreg|split; [reflexivity|split]];
      [exact Hh|exact Hfind].
Qed.

(** One tool on its own: how it is classified and what the message says. *)
Lemma register_payload_single (self : CustomToolService) (p : string)
    (h : option string) (t : ToolDefinitionModel) :
  let response :=
    fst (register_payload self {| project_id := p; project_hash := h;
                                  tools := [t] |}) in
  registered response = [name t]
  /\ replaced response
     = (if _is_registered self p (name t) then [name t] else [])
  /\ reg_message response
     = (if _is_registered self p (name t)
        then "Registered 1 tool(s) (replaced: " ++ name t ++ ")"
        else "Registered 1 tool(s)").
Proof.
  unfold register_payload. cbn [tools project_id register_each app].
  destruct (_is_registered self p (name t)); cbn.
  - destruct h as [h|]; [destruct (String.eqb h "")|]; cbn;
      repeat split; rewrite append_empty_r; reflexivity.
  - destruct h as [h|]; [destruct (String.eqb h "")|]; cbn;
      repeat split; reflexivity.
Qed.
End RegistryFacts.

Lemma last_named_of_member (ts : list ToolDefinitionModel)
    (t : ToolDefinitionModel) :
  In t ts ->
  exists t', last_named (name t) ts = Some t' /\ name t' = name t.
Proof.
  intros Hin. unfold last_named.
  destruct (find _ (rev ts)) as [t'|] eqn:E.
  - exists t'. split; [reflexivity|].
    apply find_some in E. destruct E as [_ E].
    apply String.eqb_eq in E. symmetry. exact E.
  - exfalso.
    pose proof (find_none _ _ E t (proj1 (in_rev ts t) Hin)) as Hn.
    cbn in Hn. rewrite String.eqb_refl in Hn. discriminate.
Qed.

Definition empty_service : CustomToolService :=
  {| _project_tools := []; _hash_to_project := []; _last_sync_time := 0 |}.

Definition move_tool : ToolDefinitionModel :=
  {| name := "move"; description := Some "Moves an object";
     structured_output := true; requires_polling := false;
     poll_action := Some "status"; parameters := [] |}.

(** C7 (as stated it fails).  A batch that supplies the empty string as
    [project_hash] records nothing in the hash table. *)
Lemma register_tools_empty_hash_not_recorded :
  alist_find (@str_lower Sample.runtime "")
    (_hash_to_project
       (snd (@register_payload Sample.runtime empty_service
               {| project_id := "P"; project_hash := Some "";
                  tools := [move_tool] |})))
  <> Some "P".
Proof. vm_compute. discriminate. Qed.

(** C7 (amended).  Registering a tool named ["move"] for project [P] twice,
    starting where [P] has no such tool, answers [registered = ["move"]],
    [replaced = []] the first time and [registered = ["move"]],
    [replaced = ["move"]] the second time, with a message that contains
    ["replaced: move"].  For every batch, each incoming definition is stored
    under its name whatever its classification (the last one of the batch
    wins), and a supplied project hash that is not the empty string is
    recorded in lower case in the hash table, over any earlier entry. *)
Theorem register_tools_batch :
  forall (RT : Runtime),
    (forall (self : CustomToolService) (P : string) (h : option string)
            (d1 d2 : ToolDefinitionModel),
        name d1 = "move" -> name d2 = "move" ->
        _is_registered self P "move" = false ->
        let first :=
          register_payload self {| project_id := P; project_hash := h;
                                   tools := [d1] |} in
        let second :=
          register_payload (snd first) {| project_id := P; project_hash := h;
                                          tools := [d2] |} in
        registered (fst first) = ["move"]
        /\ replaced (fst first) = []
        /\ registered (fst second) = ["move"]
        /\ replaced (fst second) = ["move"]
        /\ str_contains "replaced: move" (reg_message (fst second)) = true
        /\ alist_find "move" (project_dict (snd first) P) = Some d1
        /\ alist_find "move" (project_dict (snd second) P) = Some d2)
    /\ (forall (self : CustomToolService) (payload : RegisterToolsPayload),
          let self' := snd (register_payload self payload) in
          (forall t, In t (tools payload) ->
             alist_find (name t) (project_dict self' (project_id payload))
             = last_named (name t) (tools payload)
             /\ _is_registered self' (project_id payload) (name t) = true)
          /\ (forall h, project_hash payload = Some h -> h <> "" ->
                alist_find (str_lower h) (_hash_to_project self')
                = Some (project_id payload))).
Proof.
  intros RT. split.
  - intros self P h d1 d2 Hn1 Hn2 Hfresh. cbv zeta.
    pose proof (register_payload_single self P h d1) as S1.
    pose proof (register_payload_spec self
                  {| project_id := P; project_hash := h; tools := [d1] |})
      as G1.
    cbv zeta in S1. cbn [project_id tools] in G1.
    set (first := register_payload self _) in *. clearbody first.
    destruct first as [r1 self1]. cbn [fst snd] in *.
    rewrite Hn1, Hfresh in S1.
    destruct S1 as (Sreg & Srep & _).
    destruct G1 as (_ & _ & _ & Gfind).
    assert (Hfind1 : alist_find "move" (project_dict self1 P) = Some d1).
    { rewrite Gfind. unfold last_named. cbn. rewrite Hn1. reflexivity. }
    assert (Hreg1 : _is_registered self1 P "move" = true).
    { unfold _is_registered. rewrite Hfind1. reflexivity. }
    pose proof (register_payload_single self1 P h d2) as S2.
    pose proof (register_payload_spec self1
                  {| project_id := P; project_hash := h; tools := [d2] |})
      as G2.
    cbv zeta in S2. cbn [project_id tools] in G2.
    set (second := register_payload self1 _) in *. clearbody second.
    destruct second as [r2 self2]. cbn [fst snd] in *.
    rewrite Hn2, Hreg1 in S2.
    destruct S2 as (Sreg2 & Srep2 & Smsg2).
    destruct G2 as (_ & _ & _ & Gfind2).
    repeat split; try assumption.
    + rewrite Smsg2. reflexivity.
    + rewrite Gfind2. unfold last_named. cbn. rewrite Hn2. reflexivity.
  - intros self payload. cbv zeta.
    pose proof (register_payload_spec self payload) as G.
    set (done := register_payload self payload) in *. clearbody done.
    destruct done as [r self1]. cbn [fst snd] in *.
    destruct G as (_ & _ & Ghash & Gfind). split.
    + intros t Hin.
      destruct (last_named_of_member _ _ Hin) as (t' & Hl & _).
      assert (Hf : alist_find (name t)
                     (project_dict self1 (project_id payload))
                   = last_named (name t) (tools payload)).
      { rewrite Gfind, Hl. reflexivity. }
      split; [exact Hf|].
      unfold _is_registered. rewrite Hf, Hl. reflexivity.
    + intros h Hh Hne. rewrite Ghash. unfold hash_table_after. rewrite Hh.
      destruct (String.eqb h "") eqn:E.
      * apply String.eqb_eq in E. contradiction.
      * apply alist_find_set_same.
Qed.

Lemma register_tools_batch_witness :
  registered
    (fst (@register_payload Sample.runtime empty_service
            {| project_id := "P"; project_hash := Some "AB12";
               tools := [move_tool] |}))
  = ["move"]
  /\ alist_find "ab12"
       (_hash_to_project
          (snd (@register_payload Sample.runtime empty_service
                  {| project_id := "P"; project_hash := Some "AB12";
                     tools := [move_tool] |})))
     = Some "P".
Proof.
  split.
  - apply (proj1 (register_tools_batch Sample.runtime)
             empty_service "P" (Some "AB12") move_tool move_tool
             eq_refl eq_refl eq_refl).
  - apply (proj2 (proj2 (register_tools_batch Sample.runtime)
                    empty_service
                    {| project_id := "P"; project_hash := Some "AB12";
                       tools := [move_tool] |})
             "AB12" eq_refl).
    discriminate.
Defined.

(* ===================================================================== *)
(** * Properties of [resolve_project_id_for_unity_instance] *)
(* ===================================================================== *)

(** The hash portion of a token: what follows its first ["@"], or the whole
    token when it has none. *)
Definition hash_portion (token : string) : string :=
  match partition_at token with
  | Some (_, suffix) => suffix
  | None => token
  end.

(** Whether a discovered instance answers to a token: by exact name and hash
    prefix for the composite form, by exact id or hash prefix for the bare
    form. *)
Definition answers_to (token : string) (inst : Instance) : bool :=
  match partition_at token with
  | Some (name_part, hash_hint) =>
      String.eqb (inst_name inst) name_part
      && String.prefix hash_hint (inst_hash inst)
  | None =>
      String.eqb (inst_id inst) token
      || String.prefix token (inst_hash inst)
  end.

Section ResolveFacts.
Context {RT : Runtime} {PD : Pydantic}.
Variable env : Env.

(** Step 1 of the resolution: the first discovered instance that answers to
    the token, none when discovery fails. *)
Definition local_match (w : World) (token : string) : option Instance :=
  match discover_all_instances env (ticks w) with
  | Ok instances => find (answers_to token) instances
  | Raise _ => None
  end.

(** Step 2 of the resolution, for a hash portion that is not empty: the
    project the service has on record for the lowered hash, when there is a
    service and the record is not the empty string, else the lowered hash
    itself. *)
Definition hub_resolution (instance : option CustomToolService)
    (h : string) : string :=
  let lowered := str_lower h in
  match instance with
  | Some service =>
      match get_project_id_for_hash service (Some lowered) with
      | Some m => if String.eqb m "" then lowered else m
      | None => lowered
      end
  | None => lowered
  end.

(** The resolution as the amended claim words it. *)
Definition resolution (instance : option CustomToolService)
    (unity_instance : option string) (w : World) : option string :=
  match unity_instance with
  | None => None
  | Some token =>
      match local_match w token with
      | Some t => Some (compute_project_id (inst_name t) (inst_path t))
      | None =>
          if String.eqb (hash_portion token) "" then None
          else Some (hub_resolution instance (hash_portion token))
      end
  end.

Lemma find_answers_to (token : string) (instances : list Instance) :
  find (answers_to token) instances
  = match partition_at token with
    | Some (name_part, hash_hint) =>
        find (fun inst => String.eqb (inst_name inst) name_part
                          && String.prefix hash_hint (inst_hash inst))
             instances
    | None =>
        find (fun inst => String.eqb (inst_id inst) token
                          || String.prefix token (inst_hash inst))
             instances
    end.
Proof.
  unfold answers_to.
  destruct (partition_at token) as [[name_part hash_hint]|]; reflexivity.
Qed.

Lemma resolve_refines (instance : option CustomToolService)
    (unity_instance : option string) (w : World) :
  fst (resolve_project_id_for_unity_instance env instance unity_instance w)
  = resolution instance unity_instance w.
Proof.
  unfold resolve_project_id_for_unity_instance, resolution, local_match.
  destruct unity_instance as [token|]; [|reflexivity].
  destruct (discover_all_instances env (ticks w)) as [instances|e].
  - rewrite <- find_answers_to.
    destruct (find (answers_to token) instances) as [t|]; [reflexivity|].
    unfold hash_portion, hub_resolution.
    destruct (partition_at token) as [[name_part suffix]|].
    + destruct (String.eqb suffix "") eqn:E; [reflexivity|]. rewrite E.
      destruct instance as [service|]; [|reflexivity].
      destruct (get_project_id_for_hash service _) as [m|]; [|reflexivity].
      destruct (String.eqb m ""); reflexivity.
    + destruct (String.eqb token "") eqn:E; [reflexivity|].
      destruct instance as [service|]; [|reflexivity].
      destruct (get_project_id_for_hash service _) as [m|]; [|reflexivity].
      destruct (String.eqb m ""); reflexivity.
  - unfold hash_portion, hub_resolution.
    destruct (partition_at token) as [[name_part suffix]|].
    + destruct (String.eqb suffix "") eqn:E; [reflexivity|]. rewrite E.
      destruct instance as [service|]; [|reflexivity].
      destruct (get_project_id_for_hash service _) as [m|]; [|reflexivity].
      destruct (String.eqb m ""); reflexivity.
    + destruct (String.eqb token "") eqn:E; [reflexivity|].
      destruct instance as [service|]; [|reflexivity].
      destruct (get_project_id_for_hash service _) as [m|]; [|reflexivity].
      destruct (String.eqb m ""); reflexivity.
Qed.
End ResolveFacts.

(** No instance is discovered, any command is answered by [None], and the
    hub knows no tool. *)
Definition quiet_env : Env :=
  {| _is_http_transport := false;
     discover_all_instances := fun _ => Ok [];
     async_send_command_with_retry :=
       fun _ _ _ _ => {| latency := 0; outcome := Ok (Raw PNone) |};
     hub_send_command_for_instance :=
       fun _ _ _ _ => {| latency := 0; outcome := Ok (Raw PNone) |};
     hub_get_tools_for_project := fun _ => Ok [];
     hub_get_tool_definition := fun _ _ => Ok None |}.

Definition world0 : World := {| now := 0; ticks := 0 |}.

(** C5 (as stated it fails).  With no instance discovered, the token
    ["MyGame@"], which is not null, resolves to null: its hash portion is
    empty. *)
Lemma resolve_empty_hash_portion_is_null :
  fst (@resolve_project_id_for_unity_instance Sample.runtime quiet_env
         (Some empty_service) (Some "MyGame@") world0)
  = None.
Proof. vm_compute. reflexivity. Qed.

(** C5 (amended).  [resolve_project_id_for_unity_instance] returns null for
    the null token.  For a token that is not null it returns the computed
    project id of the first discovered instance that answers to it (exact
    name and hash prefix for ["name@hashPrefix"], exact id or hash prefix
    for the bare form); when there is none and the hash portion is not
    empty, the project the service has on record for the lowered hash
    portion when that record exists and is not empty, else the lowered hash
    portion itself.  It returns null exactly when the token is null, or no
    instance answers and the hash portion is empty. *)
Theorem resolve_project_id_cases :
  forall (RT : Runtime) (env : Env) (instance : option CustomToolService)
         (unity_instance : option string) (w : World),
    fst (resolve_project_id_for_unity_instance env instance unity_instance w)
    = resolution env instance unity_instance w
    /\ (fst (resolve_project_id_for_unity_instance env instance
               unity_instance w) = None
        <-> unity_instance = None
            \/ exists token,
                 unity_instance = Some token
                 /\ local_match env w token = None
                 /\ hash_portion token = "").
Proof.
  intros RT env instance unity_instance w.
  split; [apply resolve_refines|].
  rewrite resolve_refines. unfold resolution.
  destruct unity_instance as [token|].
  - destruct (local_match env w token) as [t|] eqn:El.
    + split; [discriminate|].
      intros [H|(token' & Ht & H & _)]; [discriminate|].
      inversion Ht; subst token'. rewrite H in El. discriminate.
    + destruct (String.eqb (hash_portion token) "") eqn:E.
      * apply String.eqb_eq in E. split; [|reflexivity].
        intros _. right. exists token. repeat split; assumption.
      * split; [discriminate|].
        intros [H|(token' & Ht & _ & H)]; [discriminate|].
        inversion Ht; subst token'. rewrite H in E. discriminate.
  - split; [|reflexivity]. intros _. left. reflexivity.
Qed.

Example resolve_composite_token :
  let inst := {| inst_id := "MyGame@ab12cd34"; inst_name := "MyGame";
                 inst_path := "/home/u/MyGame"; inst_hash := "ab12cd34" |} in
  let env := {| _is_http_transport := false;
                discover_all_instances := fun _ => Ok [inst];
                async_send_command_with_retry :=
                  async_send_command_with_retry quiet_env;
                hub_send_command_for_instance :=
                  hub_send_command_for_instance quiet_env;
                hub_get_tools_for_project := fun _ => Ok [];
                hub_get_tool_definition := fun _ _ => Ok None |} in
  fst (@resolve_project_id_for_unity_instance Sample.runtime env
         (Some empty_service) (Some "MyGame@ab12") world0)
  = Some "5084285B5FF8BBD2"
  /\ fst (@resolve_project_id_for_unity_instance Sample.runtime env
            (Some empty_service) (Some "Other@AB12") world0)
     = Some "ab12".
Proof. vm_compute. split; reflexivity. Qed.

(* ===================================================================== *)
(** * Properties of [list_registered_tools] *)
(* ===================================================================== *)

Lemma Qltb_true (x y : Q) : Qltb x y = true <-> (x < y)%Q.
Proof.
  unfold Qltb. rewrite negb_true_iff. split; intro H.
  - apply Qnot_le_lt. intro Hle. apply Qle_bool_iff in Hle. congruence.
  - destruct (Qle_bool y x) eqn:E; [|reflexivity].
    apply Qle_bool_iff in E. exfalso. apply (Qlt_not_le _ _ H E).
Qed.

Lemma Qltb_false (x y : Q) : Qltb x y = false <-> (y <= x)%Q.
Proof. unfold Qltb. rewrite negb_false_iff. apply Qle_bool_iff. Qed.

Section ListingFacts.
Context {RT : Runtime} {PD : Pydantic}.
Variable env : Env.

(** What the claim words: a forced sync, then the two lists one after the
    other. *)
Definition forced_listing (self : CustomToolService) (w : World)
    (project : string)
  : result (list ToolDefinitionModel) * CustomToolService * World :=
  let (self', w') := _sync_all_unity_tools env true self w in
  match hub_get_tools_for_project env project with
  | Ok hub_tools =>
      (Ok (map snd (project_dict self' project) ++ hub_tools)%list, self', w')
  | Raise e => (Raise e, self', w')
  end.

Lemma sync_throttled (self : CustomToolService) (w : World) :
  (now w - _last_sync_time self < 5)%Q ->
  _sync_all_unity_tools env false self w = (self, w).
Proof.
  intros H. unfold _sync_all_unity_tools. cbn [negb andb].
  replace (Qltb (now w - _last_sync_time self) _sync_interval) with true
    by (symmetry; apply Qltb_true; exact H).
  reflexivity.
Qed.

Lemma sync_due (self : CustomToolService) (w : World) :
  (5 <= now w - _last_sync_time self)%Q ->
  _sync_all_unity_tools env false self w
  = _sync_all_unity_tools env true self w.
Proof.
  intros H. unfold _sync_all_unity_tools. cbn [negb andb].
  replace (Qltb (now w - _last_sync_time self) _sync_interval) with false
    by (symmetry; apply Qltb_false; exact H).
  reflexivity.
Qed.
End ListingFacts.

Definition jump_instance : Instance :=
  {| inst_id := "MyGame@ab12cd34"; inst_name := "MyGame";
     inst_path := "/home/u/MyGame"; inst_hash := "ab12cd34" |}.

(** One live instance, which reports the tool ["jump"]. *)
Definition live_env : Env :=
  {| _is_http_transport := false;
     discover_all_instances := fun _ => Ok [jump_instance];
     async_send_command_with_retry :=
       fun _ command_type _ _ =>
         {| latency := 0;
            outcome :=
              if String.eqb command_type "list_csharp_tools"
              then Ok (Raw (PDict [("tools",
                                    PList [PDict [("name", PStr "jump")]])]))
              else Ok (Raw PNone) |};
     hub_send_command_for_instance :=
       fun _ _ _ _ => {| latency := 0; outcome := Ok (Raw PNone) |};
     hub_get_tools_for_project := fun _ => Ok [];
     hub_get_tool_definition := fun _ _ => Ok None |}.

Definition jump_tool : ToolDefinitionModel :=
  {| name := "jump"; description := None; structured_output := true;
     requires_polling := false; poll_action := Some "status";
     parameters := [] |}.

(** C6 (as stated it fails).  One second after the last sync,
    [list_registered_tools] does not sync and lists nothing, where a forced
    sync would have found the tool of the live instance. *)
Lemma list_registered_tools_within_interval_skips_sync :
  fst (fst (list_registered_tools (PD := Sample.pydantic) live_env
              {| _project_tools := []; _hash_to_project := [];
                 _last_sync_time := 2 |}
              {| now := 3; ticks := 0 |} "5084285B5FF8BBD2"))
  = Ok []
  /\ fst (fst (forced_listing (PD := Sample.pydantic) live_env
                 {| _project_tools := []; _hash_to_project := [];
                    _last_sync_time := 2 |}
                 {| now := 3; ticks := 0 |} "5084285B5FF8BBD2"))
     = Ok [jump_tool].
Proof. vm_compute. split; reflexivity. Qed.

(** C6 (amended).  Every call to [list_registered_tools] runs the throttled,
    unforced sync, which does nothing within five seconds of the last sync
    and is the forced sync otherwise, and then, when the hub answers,
    returns the tools registered locally for the project followed by those
    of the hub, all of them, duplicates included; an exception of the hub is
    passed on. *)
Theorem list_registered_tools_throttled_sync_then_concat :
  forall (PD : Pydantic) (env : Env)
         (self : CustomToolService) (w : World) (project : string),
    let synced := _sync_all_unity_tools env false self w in
    list_registered_tools env self w project
    = (match hub_get_tools_for_project env project with
       | Ok hub_tools =>
           Ok (map snd (project_dict (fst synced) project) ++ hub_tools)%list
       | Raise e => Raise e
       end, fst synced, snd synced)
    /\ ((now w - _last_sync_time self < 5)%Q -> synced = (self, w))
    /\ ((5 <= now w - _last_sync_time self)%Q ->
        synced = _sync_all_unity_tools env true self w
        /\ list_registered_tools env self w project
           = forced_listing env self w project).
Proof.
  intros PD env self w project synced. subst synced.
  split; [|split].
  - unfold list_registered_tools.
    destruct (_sync_all_unity_tools env false self w) as [self' w'].
    cbn [fst snd].
    destruct (hub_get_tools_for_project env project); reflexivity.
  - apply sync_throttled.
  - intros H. split; [apply sync_due; exact H|].
    unfold list_registered_tools, forced_listing.
    rewrite (sync_due env self w H). reflexivity.
Qed.

Lemma list_registered_tools_throttled_sync_then_concat_witness :
  _sync_all_unity_tools (PD := Sample.pydantic) live_env false
    {| _project_tools := []; _hash_to_project := []; _last_sync_time := 2 |}
    {| now := 3; ticks := 0 |}
  = ({| _project_tools := []; _hash_to_project := [];
        _last_sync_time := 2 |}, {| now := 3; ticks := 0 |})
  /\ fst (fst (list_registered_tools (PD := Sample.pydantic) live_env
                 empty_service {| now := 10; ticks := 0 |}
                 "5084285B5FF8BBD2"))
     = fst (fst (forced_listing (PD := Sample.pydantic) live_env
                   empty_service {| now := 10; ticks := 0 |}
                   "5084285B5FF8BBD2")).
Proof.
  split.
  - apply (proj1 (proj2 (list_registered_tools_throttled_sync_then_concat
                           Sample.pydantic live_env
                           {| _project_tools := []; _hash_to_project := [];
                              _last_sync_time := 2 |}
                           {| now := 3; ticks := 0 |} "5084285B5FF8BBD2"))).
    vm_compute. reflexivity.
  - rewrite (proj2 (proj2 (proj2
               (list_registered_tools_throttled_sync_then_concat
                  Sample.pydantic live_env empty_service
                  {| now := 10; ticks := 0 |} "5084285B5FF8BBD2"))
               ltac:(vm_compute; discriminate))).
    reflexivity.
Defined.

(* ===================================================================== *)
(** * Properties of the connections *)
(* ===================================================================== *)

Section UdsFacts.
Context {RT : Runtime} {JC : JsonCodec}.

(** A connection object as the constructor leaves it. *)
Definition uds_fresh (hash : string) : Uds.UnityUdsConnection :=
  {| Uds.project_hash := hash; Uds.sock := None |}.

Lemma uds_disconnect_fresh (self : Uds.UnityUdsConnection) :
  Uds.disconnect self = uds_fresh (Uds.project_hash self).
Proof.
  unfold Uds.disconnect, uds_fresh, Uds.set_sock.
  destruct self as [h [s|]]; reflexivity.
Qed.

(** [connect] on a closed connection: it answers [True] with a socket in
    place, or [False] with none. *)
Lemma uds_connect_closed (self : Uds.UnityUdsConnection) (ch : Channel) :
  Uds.sock self = None ->
  let '(connected, self', _) := Uds.connect self ch in
  Uds.project_hash self' = Uds.project_hash self
  /\ (connected = true -> Uds.sock self' <> None)
  /\ (connected = false -> Uds.sock self' = None).
Proof.
  intros Hs. unfold Uds.connect. rewrite Hs.
  destruct (endpoint_exists ch); cbn [negb].
  - destruct (new_handle ch) as [h ch0].
    destruct (pop_open ch0) as [[e|] ch1].
    + cbn. repeat split; try discriminate; reflexivity.
    + destruct (pop_read 64 ch1) as [[bs|e] ch2]; cbn;
        repeat split; try discriminate; reflexivity.
  - repeat split; try discriminate. intros _; exact Hs.
Qed.


(** A closed connection begins its next [send_command] with [connect]. *)
Lemma uds_send_command_closed (hash : string) (ch : Channel)
    (command_type : string) (params : option pyval) :
  endpoint_exists ch = false ->
  Uds.send_command (uds_fresh hash) ch command_type params
  = (Raise (Exn ConnectionError "Not connected to Unity UDS"),
     uds_fresh hash, ch).
Proof.
  intros H. unfold Uds.send_command, Uds.connect. cbn. rewrite H. reflexivity.
Qed.
End UdsFacts.

Section PipeFacts.
Context {RT : Runtime} {JC : JsonCodec}.
Variable has_win32 : bool.

Definition pipe_fresh (hash : string) : Pipe.UnityPipeConnection :=
  {| Pipe.project_hash := hash; Pipe.pipe_handle := None |}.

(** What holds of every connection object that started closed: a handle is
    only ever held when the win32 modules are there. *)
Definition pipe_consistent (self : Pipe.UnityPipeConnection) : Prop :=
  has_win32 = true \/ Pipe.pipe_handle self = None.

Lemma pipe_disconnect_fresh (self : Pipe.UnityPipeConnection) :
  Pipe.disconnect self = pipe_fresh (Pipe.project_hash self).
Proof.
  unfold Pipe.disconnect, pipe_fresh, Pipe.set_handle.
  destruct self as [h [s|]]; reflexivity.
Qed.

Lemma pipe_connect_closed (self : Pipe.UnityPipeConnection) (ch : Channel) :
  Pipe.pipe_handle self = None ->
  let '(connected, self', _) := Pipe.connect has_win32 self ch in
  Pipe.project_hash self' = Pipe.project_hash self
  /\ (connected = true -> Pipe.pipe_handle self' <> None /\ has_win32 = true)
  /\ (connected = false -> Pipe.pipe_handle self' = None).
Proof.
  intros Hs. unfold Pipe.connect. rewrite Hs.
  destruct has_win32; cbn [negb].
  - destruct (endpoint_exists ch); cbn [negb].
    + destruct (pop_open ch) as [[e|] ch1].
      * cbn. repeat split; try discriminate; reflexivity.
      * destruct (new_handle ch1) as [h ch2].
        destruct (pop_read 64 ch2) as [[bs|e] ch3]; cbn;
          repeat split; try discriminate; reflexivity.
    + repeat split; try discriminate. intros _; exact Hs.
  - repeat split; try discriminate. intros _; exact Hs.
Qed.

Lemma pipe_send_command_raise (self : Pipe.UnityPipeConnection)
    (ch : Channel) (command_type : string) (params : option pyval)
    (e : exn) :
  pipe_consistent self ->
  fst (fst (Pipe.send_command has_win32 self ch command_type params))
  = Raise e ->
  snd (fst (Pipe.send_command has_win32 self ch command_type params))
  = pipe_fresh (Pipe.project_hash self).
Proof.
  intros Hinv. unfold Pipe.send_command.
  destruct (Pipe.pipe_handle self) as [s|] eqn:Hs.
  - destruct Hinv as [Hw|Hn]; [|congruence]. rewrite Hw. cbn [negb].
    destruct (Pipe.exchange command_type _ ch) as [[v|e'] ch1].
    + discriminate.
    + intros _. destruct (is_instance e' PyWinError);
        cbn [fst snd]; apply pipe_disconnect_fresh.
  - pose proof (pipe_connect_closed self ch Hs) as Hc.
    destruct (Pipe.connect has_win32 self ch) as [[connected self0] ch0].
    destruct Hc as (Hh & Hopen & Hclosed).
    destruct connected; cbn [negb].
    + destruct (Hopen eq_refl) as [_ Hw]. rewrite Hw. cbn [negb].
      destruct (Pipe.exchange command_type _ ch0) as [[v|e'] ch1].
      * discriminate.
      * intros _. destruct (is_instance e' PyWinError);
          cbn [fst snd]; rewrite pipe_disconnect_fresh, Hh; reflexivity.
    + intros _. cbn [fst snd].
      specialize (Hclosed eq_refl).
      destruct self0 as [h0 s0]. cbn in *. subst. reflexivity.
Qed.

(** [pipe_consistent] holds of a new object and is kept by every method. *)
Lemma pipe_consistent_fresh (hash : string) :
  pipe_consistent (pipe_fresh hash).
Proof. right. reflexivity. Qed.

Lemma pipe_consistent_disconnect (self : Pipe.UnityPipeConnection) :
  pipe_consistent (Pipe.disconnect self).
Proof. rewrite pipe_disconnect_fresh. apply pipe_consistent_fresh. Qed.

Lemma pipe_consistent_connect (self : Pipe.UnityPipeConnection)
    (ch : Channel) :
  pipe_consistent self ->
  pipe_consistent (snd (fst (Pipe.connect has_win32 self ch))).
Proof.
  intros Hinv. destruct (Pipe.pipe_handle self) as [s|] eqn:Hs.
  - destruct Hinv as [Hw|Hn]; [left; exact Hw|].
    rewrite Hn in Hs. discriminate.
  - pose proof (pipe_connect_closed self ch Hs) as Hc.
    destruct (Pipe.connect has_win32 self ch) as [[connected self0] ch0].
    destruct Hc as (_ & Hopen & Hclosed). cbn [fst snd].
    destruct connected.
    + left. apply (Hopen eq_refl).
    + right. apply (Hclosed eq_refl).
Qed.

Lemma pipe_consistent_send_command (self : Pipe.UnityPipeConnection)
    (ch : Channel) (command_type : string) (params : option pyval) :
  pipe_consistent self ->
  pipe_consistent
    (snd (fst (Pipe.send_command has_win32 self ch command_type params))).
Proof.
  intros Hinv.
  destruct (fst (fst (Pipe.send_command has_win32 self ch command_type
                                        params))) as [v|e] eqn:E.
  - unfold Pipe.send_command in *.
    destruct (Pipe.pipe_handle self) as [s|] eqn:Hs.
    + destruct Hinv as [Hw|Hn]; [left; exact Hw|congruence].
    + pose proof (pipe_connect_closed self ch Hs) as Hc.
      destruct (Pipe.connect has_win32 self ch) as [[connected self0] ch0].
      destruct Hc as (_ & Hopen & _).
      destruct connected; cbn [negb] in *; [|discriminate].
      left. apply (Hopen eq_refl).
  - rewrite (@pipe_send_command_raise self ch command_type params e Hinv E).
    apply pipe_consistent_fresh.
Qed.
End PipeFacts.

(** The endpoint is there and accepts the connection; what is written and
    read afterwards is given. *)
Definition channel_with (ws : list (option exn))
    (rs : list (result (list Z))) : Channel :=
  {| endpoint_exists := true; opens := []; writes := ws;
     reads := Ok (SHA256.bytes_of_string "WELCOME UNITY-MCP 1 FRAMING=1") :: rs;
     opened := 0 |}.

(** A write that fails with [BrokenPipeError] surfaces as
    [ConnectionError] and closes the socket. *)
Example uds_broken_pipe :
  let '(r, self', _) :=
    Uds.send_command (RT := Sample.runtime) (JC := Sample.codec)
      (uds_fresh "ab12")
      (channel_with [Some (Exn BrokenPipeError "Broken pipe")] [])
      "ping" None in
  r = Raise (Exn ConnectionError "UDS broken: Broken pipe")
  /\ Uds.sock self' = None.
Proof. vm_compute. split; reflexivity. Qed.

(** A response header cut short by the end of the stream. *)
Example uds_short_read :
  let '(r, self', _) :=
    Uds.send_command (RT := Sample.runtime) (JC := Sample.codec)
      (uds_fresh "ab12") (channel_with [] [Ok [0; 0; 0]]) "ping" None in
  r = Raise (Exn ConnectionError "Connection closed during read")
  /\ Uds.sock self' = None.
Proof. vm_compute. split; reflexivity. Qed.

(** A response whose status is ["error"], its header split over two
    reads. *)
Example uds_host_error :
  let '(r, self', _) :=
    Uds.send_command (RT := Sample.runtime) (JC := Sample.codec)
      (uds_fresh "ab12")
      (channel_with [] [Ok [0; 0; 0; 0; 0]; Ok [0; 0; 3]; Ok Sample.body_err])
      "get_state" None in
  r = Raise (Exn PlainException "boom") /\ Uds.sock self' = None.
Proof. vm_compute. split; reflexivity. Qed.

(** A successful exchange keeps the socket. *)
Example uds_success :
  let '(r, self', _) :=
    Uds.send_command (RT := Sample.runtime) (JC := Sample.codec)
      (uds_fresh "ab12")
      (channel_with [] [Ok [0; 0; 0; 0; 0; 0; 0; 2]; Ok Sample.body_ok])
      "get_state" None in
  r = Ok (PDict [("x", PInt 1)]) /\ Uds.sock self' = Some 0%nat.
Proof. vm_compute. split; reflexivity. Qed.

Example pipe_host_error :
  let '(r, self', _) :=
    Pipe.send_command (RT := Sample.runtime) (JC := Sample.codec) true
      (pipe_fresh "ab12")
      (channel_with [] [Ok [0; 0; 0; 0; 0; 0; 0; 3]; Ok Sample.body_err])
      "get_state" None in
  r = Raise (Exn PlainException "boom") /\ Pipe.pipe_handle self' = None.
Proof. vm_compute. split; reflexivity. Qed.



(* ===================================================================== *)
(** * Properties of the poll loop *)
(* ===================================================================== *)

Section LoopFacts.
Context {RT : Runtime} {PD : Pydantic}.
Variable env : Env.
Variable tool_name : string.
Variable unity_instance : option string.
Variable poll_params : list (string * pyval).
Variable deadline : Q.

(** The transport never takes a negative time, and whatever it hands back
    for this tool is classified as pending; it may also raise. *)
Definition keeps_pending : Prop :=
  forall (w : World),
    (now w <= now (snd (send_with_unity_instance env unity_instance
                          tool_name (PDict poll_params) w)))%Q
    /\ match fst (send_with_unity_instance env unity_instance tool_name
                    (PDict poll_params) w) with
       | Ok r => exists i, _interpret_status r = Ok (pending, i)
       | Raise _ => True
       end.

(** Where the response held by the loop comes from: it is the one the loop
    started with, or the latest answer of the transport, or what stands in
    for the latest poll when that one raised. *)
Definition held_after (r0 : raw_response) (w0 : World)
    (last : raw_response) (w' : World) : Prop :=
  (last = r0 /\ w' = w0)
  \/ (exists w1,
        send_with_unity_instance env unity_instance tool_name
                                 (PDict poll_params) w1 = (Ok last, w'))
  \/ (exists w1 p exc,
        send_with_unity_instance env unity_instance tool_name
                                 (PDict poll_params) w1 = (Raise exc, w')
        /\ last = transient_response p exc).

Lemma sleep_in_range (q : Q) (w : World) :
  (q0_1 <= q)%Q ->
  asyncio_sleep (FFin q) w = Some {| now := now w + q; ticks := ticks w |}.
Proof.
  intros H. unfold asyncio_sleep.
  destruct (Qle_bool q 0) eqn:E; [|reflexivity].
  apply Qle_bool_iff in E. unfold q0_1 in H. exfalso. lra.
Qed.

(** The widened interval [min(max(p * 2, 1.0), 5.0)] lies between one and
    five seconds. *)
Lemma backoff_in_range (q : Q) :
  exists x,
    py_min (py_max (FFin (q * 2)) _DEFAULT_POLL_INTERVAL) f5_0 = FFin x
    /\ (1 <= x <= 5)%Q.
Proof.
  unfold py_max, _DEFAULT_POLL_INTERVAL.
  destruct (flt (FFin (q * 2)) (FFin 1)) eqn:E1.
  - exists 1%Q. split; [reflexivity|]. split; lra.
  - apply flt_fin_false in E1. unfold py_min, f5_0.
    destruct (flt (FFin 5) (FFin (q * 2))) eqn:E5.
    + exists 5%Q. split; [reflexivity|]. split; lra.
    + apply flt_fin_false in E5. exists (q * 2)%Q.
      split; [reflexivity|]. split; assumption.
Qed.

(** The interval carried by the stand-in response is read back as it was
    written. *)
Lemma interpret_transient (p : pyfloat) (exc : exn) :
  (exists q, p = FFin q) ->
  _interpret_status (transient_response p exc)
  = Ok (pending,
        py_min (py_max (fdouble p) _DEFAULT_POLL_INTERVAL) f5_0).
Proof.
  intros (q & ->).
  destruct (backoff_in_range q) as (x & Hx & Hlo & Hhi).
  unfold transient_response. cbn [fdouble]. rewrite Hx.
  unfold _interpret_status. cbn.
  rewrite clamp_inside; [reflexivity| |exact Hhi].
  unfold q0_1. lra.
Qed.

(** One turn of the loop on a pending response before the deadline. *)
Lemma poll_loop_turn (fuel : nat) (r : raw_response) (w : World)
    (p : pyfloat) :
  _interpret_status r = Ok (pending, p) ->
  Qltb deadline (now w) = false ->
  exists q,
    p = FFin q /\ (q0_1 <= q <= 5)%Q
    /\ poll_loop env (S fuel) tool_name unity_instance (PDict poll_params)
                 deadline r w
       = let w1 := {| now := now w + q; ticks := ticks w |} in
         let sent := send_with_unity_instance env unity_instance tool_name
                       (PDict poll_params) w1 in
         poll_loop env fuel tool_name unity_instance (PDict poll_params)
                   deadline
                   match fst sent with
                   | Ok resp => resp
                   | Raise exc => transient_response p exc
                   end
                   (snd sent).
Proof.
  intros Hc Hd.
  destruct (interval_in_range _ Hc) as (q & -> & Hlo & Hhi).
  exists q. split; [reflexivity|]. split; [split; assumption|].
  cbn [poll_loop]. rewrite Hc. cbn [is_terminal]. rewrite Hd.
  rewrite (sleep_in_range w Hlo). cbv zeta.
  destruct (send_with_unity_instance _ _ _ _ _) as [res w2].
  reflexivity.
Qed.

Lemma timeout_response_ok (last : raw_response) :
  timeout_response tool_name last
  = Ok {| success := false;
          message := Some ("Timeout waiting for " ++ tool_name
                           ++ " to complete");
          error := None;
          data := _safe_response last |}.
Proof.
  unfold timeout_response.
  rewrite (new_MCPResponse_typed false
             (Some ("Timeout waiting for " ++ tool_name ++ " to complete"))
             None (_safe_response last)).
  - reflexivity.
  - destruct last as [m|v]; [reflexivity|]. destruct v; reflexivity.
Qed.

(** As long as nothing but pending answers and exceptions come, the loop
    runs into the deadline and returns the timeout Result. *)
Lemma poll_loop_runs_out :
  keeps_pending ->
  forall (n fuel : nat) (r : raw_response) (w : World) (p : pyfloat),
    _interpret_status r = Ok (pending, p) ->
    (deadline - now w < inject_Z (Z.of_nat n) * q0_1)%Q ->
    (n < fuel)%nat ->
    exists last w',
      poll_loop env fuel tool_name unity_instance (PDict poll_params)
                deadline r w
      = Some (timeout_response tool_name last, w')
      /\ (deadline < now w')%Q
      /\ (exists p', _interpret_status last = Ok (pending, p'))
      /\ held_after r w last w'.
Proof.
  intros Hkeep. induction n as [|n IH]; intros fuel r w p Hc Hn Hf.
  - destruct fuel as [|fuel]; [lia|].
    assert (Hd : Qltb deadline (now w) = true).
    { apply Qltb_true. change (inject_Z (Z.of_nat 0)) with 0%Q in Hn.
      unfold q0_1 in Hn. lra. }
    exists r, w. cbn [poll_loop]. rewrite Hc. cbn [is_terminal]. rewrite Hd.
    split; [reflexivity|]. split; [apply Qltb_true; exact Hd|].
    split; [exists p; reflexivity|]. left. split; reflexivity.
  - destruct fuel as [|fuel]; [lia|].
    destruct (Qltb deadline (now w)) eqn:Hd.
    + exists r, w. cbn [poll_loop]. rewrite Hc. cbn [is_terminal].
      rewrite Hd.
      split; [reflexivity|]. split; [apply Qltb_true; exact Hd|].
      split; [exists p; reflexivity|]. left. split; reflexivity.
    + destruct (poll_loop_turn fuel r w Hc Hd) as (q & Hp & [Hlo Hhi] & Hturn).
      rewrite Hturn. cbv zeta.
      set (w1 := {| now := now w + q; ticks := ticks w |}) in *.
      destruct (Hkeep w1) as [Htime Hans].
      destruct (send_with_unity_instance env unity_instance tool_name
                  (PDict poll_params) w1) as [res w2] eqn:Es.
      cbn [fst snd] in *.
      assert (Hnext : exists p', _interpret_status
                                   match res with
                                   | Ok resp => resp
                                   | Raise exc => transient_response p exc
                                   end = Ok (pending, p')).
      { destruct res as [resp|exc]; [exact Hans|].
        eexists. apply interpret_transient. exists q. exact Hp. }
      destruct Hnext as (p' & Hc').
      assert (Hn' : (deadline - now w2 < inject_Z (Z.of_nat n) * q0_1)%Q).
      { rewrite Nat2Z.inj_succ in Hn. unfold Z.succ in Hn.
        rewrite inject_Z_plus in Hn.
        change (now w1) with (now w + q)%Q in Htime.
        change (inject_Z 1) with 1%Q in Hn. unfold q0_1 in *. lra. }
      destruct (IH fuel _ w2 p' Hc' Hn' ltac:(lia))
        as (last & w' & Hrun & Hlate & Hpend & Hheld).
      exists last, w'. split; [exact Hrun|]. split; [exact Hlate|].
      split; [exact Hpend|].
      destruct Hheld as [[Hl Hw]|Hheld]; [|right; exact Hheld].
      subst last w'. right. destruct res as [resp|exc].
      * left. exists w1. exact Es.
      * right. exists w1, p, exc. split; [exact Es|reflexivity].
Qed.
End LoopFacts.

Lemma pending_shape {RT : Runtime} (r : raw_response) (p : pyfloat) :
  _interpret_status r = Ok (pending, p) ->
  r = Raw PNone \/ exists d, r = Raw (PDict d).
Proof.
  destruct r as [m|v]; [discriminate|].
  destruct v; try discriminate.
  - intros _. left. reflexivity.
  - intros _. right. exists d. reflexivity.
Qed.

(** Whatever is asked of this tool, the transport answers, in no negative
    time, with a response that is classified as pending. *)
Definition always_pending {RT : Runtime} (env : Env) (tool_name : string)
    (unity_instance : option string) : Prop :=
  forall (params : list (string * pyval)) (w : World),
    (now w <= now (snd (send_with_unity_instance env unity_instance
                          tool_name (PDict params) w)))%Q
    /\ exists r p,
         fst (send_with_unity_instance env unity_instance tool_name
                (PDict params) w) = Ok r
         /\ _interpret_status r = Ok (pending, p).

(** C3.  When the definition of the tool is found and asks for polling, and
    every answer of the transport for the tool is classified as pending,
    [execute_tool] returns, for any bound of at least 6001 turns on the
    loop, and what it returns is not an exception but a Result with
    [success = False], the message ["Timeout waiting for <tool> to
    complete"], and as data the last response received from the transport.
    By then more than 600 seconds have passed since the loop started. *)
Theorem execute_tool_times_out :
  forall (RT : Runtime) (PD : Pydantic) (env : Env)
         (self self1 : CustomToolService) (w w1 : World)
         (project tool_name : string) (unity_instance : option string)
         (params : option (list (string * pyval)))
         (definition : ToolDefinitionModel),
    get_tool_definition env self w project tool_name
    = (Ok (Some definition), self1, w1) ->
    requires_polling definition = true ->
    always_pending env tool_name unity_instance ->
    forall fuel, 6001 <= Z.of_nat fuel ->
    exists (res : MCPResponse) (last : raw_response) (w' w0 : World)
           (sent : list (string * pyval)),
      execute_tool env fuel self w project tool_name unity_instance params
      = Some (Ok res, self1, w')
      /\ success res = false
      /\ message res
         = Some ("Timeout waiting for " ++ tool_name ++ " to complete")
      /\ send_with_unity_instance env unity_instance tool_name
                                  (PDict sent) w0 = (Ok last, w')
      /\ Raw (data res) = last
      /\ (now (snd (send_with_unity_instance env unity_instance tool_name
                      (PDict match params with
                             | Some d => d
                             | None => []
                             end) w1))
          + 600 < now w')%Q.
Proof.
  intros RT PD env self self1 w w1 project tool_name unity_instance params
         definition Hdef Hpoll Hpend fuel Hfuel.
  unfold execute_tool. rewrite Hdef.
  set (params0 := match params with Some d => d | None => [] end).
  destruct (Hpend params0 w1) as (_ & r0 & p0 & Hr0 & Hc0).
  destruct (send_with_unity_instance env unity_instance tool_name
              (PDict params0) w1) as [sent0 w3] eqn:Es0.
  cbn [fst snd] in *. subst sent0. rewrite Hpoll. cbn [negb].
  unfold _poll_until_complete.
  set (action := match poll_action definition with
                 | Some a => or_status a
                 | None => "status"
                 end).
  set (poll_params := alist_set "action" (PStr (or_status action)) params0).
  assert (Hkeep : keeps_pending env tool_name unity_instance poll_params).
  { intros w2. destruct (Hpend poll_params w2) as (Ht & r & p & Hr & Hc).
    split; [exact Ht|]. rewrite Hr. exists p. exact Hc. }
  assert (Hn : (now w3 + _MAX_POLL_SECONDS - now w3
                < inject_Z (Z.of_nat (Z.to_nat 6000)) * q0_1)%Q).
  { rewrite Z2Nat.id by lia. change (inject_Z 6000) with 6000%Q.
    unfold _MAX_POLL_SECONDS, q0_1. lra. }
  destruct (@poll_loop_runs_out RT PD env tool_name unity_instance
              poll_params (now w3 + _MAX_POLL_SECONDS)%Q Hkeep
              (Z.to_nat 6000) fuel r0 w3 p0 Hc0 Hn ltac:(lia))
    as (last & w' & Hrun & Hlate & (p' & Hlast) & Hheld).
  rewrite Hrun, timeout_response_ok.
  assert (Hdata : Raw (_safe_response last) = last).
  { destruct (pending_shape _ Hlast) as [->|(d & ->)]; reflexivity. }
  destruct Hheld as [[Hl Hw]|[(w2 & Hs)|(w2 & p & exc & Hs & _)]].
  - subst last w'.
    exists {| success := false;
              message := Some ("Timeout waiting for " ++ tool_name
                               ++ " to complete");
              error := None; data := _safe_response r0 |},
           r0, w3, w1, params0.
    repeat split; try reflexivity; try assumption.
  - exists {| success := false;
              message := Some ("Timeout waiting for " ++ tool_name
                               ++ " to complete");
              error := None; data := _safe_response last |},
           last, w', w2, poll_params.
    repeat split; try reflexivity; try assumption.
  - exfalso. destruct (Hpend poll_params w2) as (_ & r & p1 & Hr & _).
    rewrite Hs in Hr. discriminate.
Qed.

Section LoopTermination.
Context {RT : Runtime} {PD : Pydantic}.
Variable env : Env.
Variable tool_name : string.
Variable unity_instance : option string.
Variable poll_params : list (string * pyval).
Variable deadline : Q.

(** The transport never takes a negative time. *)
Definition time_moves_on : Prop :=
  forall (w : World),
    (now w <= now (snd (send_with_unity_instance env unity_instance
                          tool_name (PDict poll_params) w)))%Q.

(** The three ways out of the loop, on the response [last] it holds in the
    world [w']: the response is terminal and is normalized; it is pending
    past the deadline and the timeout Result is built; it cannot be
    classified and the exception of the classifier goes up. *)
Definition loop_exit (last : raw_response) (w' : World)
    (out : result MCPResponse) : Prop :=
  (exists s p, _interpret_status last = Ok (s, p)
               /\ is_terminal s = true
               /\ out = _normalize_response last)
  \/ (exists p, _interpret_status last = Ok (pending, p)
                /\ (deadline < now w')%Q
                /\ out = timeout_response tool_name last)
  \/ (exists e, _interpret_status last = Raise e /\ out = Raise e).

(** The loop always returns, by one of its three exits, on a response that
    is the initial one, an answer of the transport, or the stand-in for a
    poll that raised: no exception of the transport leaves the loop. *)
Lemma poll_loop_returns :
  time_moves_on ->
  forall (n fuel : nat) (r : raw_response) (w : World),
    (deadline - now w < inject_Z (Z.of_nat n) * q0_1)%Q ->
    (n < fuel)%nat ->
    exists last w' out,
      poll_loop env fuel tool_name unity_instance (PDict poll_params)
                deadline r w
      = Some (out, w')
      /\ held_after env tool_name unity_instance poll_params r w last w'
      /\ loop_exit last w' out.
Proof.
  intros Htime. induction n as [|n IH]; intros fuel r w Hn Hf;
    (destruct fuel as [|fuel]; [lia|]);
    destruct (_interpret_status r) as [[s p]|e] eqn:Hc.
  - destruct (is_terminal s) eqn:Ht.
    + exists r, w, (_normalize_response r).
      cbn [poll_loop]. rewrite Hc, Ht.
      split; [reflexivity|]. split; [left; split; reflexivity|].
      left. exists s, p. repeat split; assumption.
    + destruct s; try discriminate.
      assert (Hd : Qltb deadline (now w) = true).
      { apply Qltb_true. change (inject_Z (Z.of_nat 0)) with 0%Q in Hn.
        unfold q0_1 in Hn. lra. }
      exists r, w, (timeout_response tool_name r).
      cbn [poll_loop]. rewrite Hc. cbn [is_terminal]. rewrite Hd.
      split; [reflexivity|]. split; [left; split; reflexivity|].
      right. left. exists p.
      split; [exact Hc|]. split; [apply Qltb_true; exact Hd|reflexivity].
  - exists r, w, (Raise e). cbn [poll_loop]. rewrite Hc.
    split; [reflexivity|]. split; [left; split; reflexivity|].
    right. right. exists e. split; [exact Hc|reflexivity].
  - destruct (is_terminal s) eqn:Ht.
    + exists r, w, (_normalize_response r).
      cbn [poll_loop]. rewrite Hc, Ht.
      split; [reflexivity|]. split; [left; split; reflexivity|].
      left. exists s, p. repeat split; assumption.
    + destruct s; try discriminate.
      destruct (Qltb deadline (now w)) eqn:Hd.
      * exists r, w, (timeout_response tool_name r).
        cbn [poll_loop]. rewrite Hc. cbn [is_terminal]. rewrite Hd.
        split; [reflexivity|]. split; [left; split; reflexivity|].
        right. left. exists p.
        split; [exact Hc|]. split; [apply Qltb_true; exact Hd|reflexivity].
      * destruct (@poll_loop_turn RT PD env tool_name unity_instance
                    poll_params deadline fuel r w p Hc Hd)
          as (q & Hp & [Hlo Hhi] & Hturn).
        rewrite Hturn. cbv zeta.
        set (w1 := {| now := now w + q; ticks := ticks w |}) in *.
        pose proof (Htime w1) as Hmove.
        destruct (send_with_unity_instance env unity_instance tool_name
                    (PDict poll_params) w1) as [res w2] eqn:Es.
        cbn [fst snd] in *.
        assert (Hn' : (deadline - now w2 < inject_Z (Z.of_nat n) * q0_1)%Q).
        { rewrite Nat2Z.inj_succ in Hn. unfold Z.succ in Hn.
          rewrite inject_Z_plus in Hn.
          change (now w1) with (now w + q)%Q in Hmove.
          change (inject_Z 1) with 1%Q in Hn. unfold q0_1 in *. lra. }
        destruct (IH fuel
                     match res with
                     | Ok resp => resp
                     | Raise exc => transient_response p exc
                     end w2 Hn' ltac:(lia))
          as (last & w' & out & Hrun & Hheld & Hexit).
        exists last, w', out. split; [exact Hrun|]. split; [|exact Hexit].
        destruct Hheld as [[Hl Hw]|Hheld]; [|right; exact Hheld].
        subst last w'. right. destruct res as [resp|exc].
        -- left. exists w1. exact Es.
        -- right. exists w1, p, exc. split; [exact Es|reflexivity].
  - exists r, w, (Raise e). cbn [poll_loop]. rewrite Hc.
    split; [reflexivity|]. split; [left; split; reflexivity|].
    right. right. exists e. split; [exact Hc|reflexivity].
Qed.
End LoopTermination.

(** The widened interval is the rational [min(max(q * 2, 1), 5)]. *)
Lemma backoff_value (q : Q) :
  exists x,
    py_min (py_max (FFin (q * 2)) _DEFAULT_POLL_INTERVAL) f5_0 = FFin x
    /\ (x == Qmin (Qmax (q * 2) 1) 5)%Q.
Proof.
  unfold py_max, _DEFAULT_POLL_INTERVAL.
  destruct (flt (FFin (q * 2)) (FFin 1)) eqn:E1.
  - apply flt_fin in E1. exists 1%Q. split; [reflexivity|].
    rewrite (Q.max_r (q * 2) 1) by (apply Qlt_le_weak; exact E1).
    rewrite Q.min_l by lra. reflexivity.
  - apply flt_fin_false in E1. unfold py_min, f5_0.
    destruct (flt (FFin 5) (FFin (q * 2))) eqn:E5.
    + apply flt_fin in E5. exists 5%Q. split; [reflexivity|].
      rewrite (Q.max_l (q * 2) 1) by exact E1.
      rewrite Q.min_r by (apply Qlt_le_weak; exact E5). reflexivity.
    + apply flt_fin_false in E5. exists (q * 2)%Q.
      split; [reflexivity|].
      rewrite (Q.max_l (q * 2) 1) by exact E1.
      rewrite Q.min_l by exact E5. reflexivity.
Qed.

(** Enough turns to outlast [x] seconds at a tenth of a second each. *)
Definition turns_for (x : Q) : nat := Z.to_nat (Qceiling (x / q0_1) + 1).

Lemma turns_for_enough (x : Q) :
  (x < inject_Z (Z.of_nat (turns_for x)) * q0_1)%Q.
Proof.
  unfold turns_for.
  pose proof (Qle_ceiling (x / q0_1)) as Hc.
  assert (Hpos : (0 < q0_1)%Q) by (unfold q0_1; lra).
  assert (Hx : (x == x / q0_1 * q0_1)%Q).
  { field. intro H. rewrite H in Hpos. lra. }
  assert (Hle : (inject_Z (Qceiling (x / q0_1) + 1)
                 <= inject_Z (Z.of_nat (Z.to_nat (Qceiling (x / q0_1) + 1))))%Q).
  { rewrite <- Zle_Qle. lia. }
  rewrite inject_Z_plus in Hle. change (inject_Z 1) with 1%Q in Hle.
  rewrite Hx at 1.
  apply Qmult_lt_compat_r; [exact Hpos|]. lra.
Qed.

(** C4.  When the loop holds a pending response with interval [q], the
    deadline is not past, and the poll sent after the sleep raises [exc],
    then no exception leaves the loop: the turn goes on with a stand-in
    response that is classified as pending with the interval
    [min(max(q * 2, 1.0), 5.0)].  From there, as from anywhere, the loop
    returns, given enough turns and a transport that takes no negative
    time, by one of its three exits: a terminal response normalized, the
    timeout Result past the deadline, or an exception of the classifier;
    never by the exception of the transport. *)
Theorem poll_transport_failure_is_swallowed :
  forall (RT : Runtime) (PD : Pydantic) (env : Env) (tool_name : string)
         (unity_instance : option string)
         (poll_params : list (string * pyval)) (deadline : Q)
         (r : raw_response) (w w2 : World) (q : Q) (exc : exn) (fuel : nat),
    _interpret_status r = Ok (pending, FFin q) ->
    Qltb deadline (now w) = false ->
    send_with_unity_instance env unity_instance tool_name (PDict poll_params)
      {| now := now w + q; ticks := ticks w |}
    = (Raise exc, w2) ->
    poll_loop env (S fuel) tool_name unity_instance (PDict poll_params)
              deadline r w
    = poll_loop env fuel tool_name unity_instance (PDict poll_params)
                deadline (transient_response (FFin q) exc) w2
    /\ (exists x,
          _interpret_status (transient_response (FFin q) exc)
          = Ok (pending, FFin x)
          /\ (x == Qmin (Qmax (q * 2) 1) 5)%Q)
    /\ (time_moves_on env tool_name unity_instance poll_params ->
        forall fuel',
          (turns_for (deadline - now w) < fuel')%nat ->
          exists last w' out,
            poll_loop env fuel' tool_name unity_instance (PDict poll_params)
                      deadline r w
            = Some (out, w')
            /\ held_after env tool_name unity_instance poll_params
                          r w last w'
            /\ loop_exit tool_name deadline last w' out).
Proof.
  intros RT PD env tool_name unity_instance poll_params deadline r w w2 q
         exc fuel Hc Hd Hs.
  split; [|split].
  - destruct (@poll_loop_turn RT PD env tool_name unity_instance poll_params
                deadline fuel r w (FFin q) Hc Hd)
      as (q' & Hq & _ & Hturn).
    inversion Hq; subst q'. rewrite Hturn. cbv zeta. rewrite Hs.
    reflexivity.
  - destruct (backoff_value q) as (x & Hx & Hv).
    exists x. split; [|exact Hv].
    rewrite interpret_transient by (exists q; reflexivity).
    cbn [fdouble]. rewrite Hx. reflexivity.
  - intros Htime fuel' Hf.
    apply (@poll_loop_returns RT PD env tool_name unity_instance poll_params
             deadline Htime (turns_for (deadline - now w)) fuel' r w).
    + apply turns_for_enough.
    + exact Hf.
Qed.

(* --- Runs of the loop -------------------------------------------------- *)

Definition build_tool : ToolDefinitionModel :=
  {| name := "build"; description := None; structured_output := true;
     requires_polling := true; poll_action := Some "status";
     parameters := [] |}.

Definition build_service : CustomToolService :=
  {| _project_tools := [("P", [("build", build_tool)])];
     _hash_to_project := []; _last_sync_time := 0 |}.

Definition pending_with (interval : pyval) : raw_response :=
  Raw (PDict [("_mcp_status", PStr "pending");
              ("_mcp_poll_interval", interval)]).

(** A host that is never done: every answer is pending, five seconds. *)
Definition slow_env : Env :=
  {| _is_http_transport := false;
     discover_all_instances := fun _ => Ok [];
     async_send_command_with_retry :=
       fun _ _ _ _ =>
         {| latency := 0; outcome := Ok (pending_with (PFloat (FFin 5))) |};
     hub_send_command_for_instance :=
       fun _ _ _ _ => {| latency := 0; outcome := Ok (Raw PNone) |};
     hub_get_tools_for_project := fun _ => Ok [];
     hub_get_tool_definition := fun _ _ => Ok None |}.

(** A host whose second answer is lost: pending with two seconds, then a
    broken connection, then the completed result. *)
Definition flaky_env : Env :=
  {| _is_http_transport := false;
     discover_all_instances := fun _ => Ok [];
     async_send_command_with_retry :=
       fun n _ _ _ =>
         {| latency := 0;
            outcome :=
              match n with
              | O => Ok (pending_with (PInt 2))
              | S O => Raise (Exn ConnectionError "Connection closed")
              | _ => Ok (Raw (PDict [("_mcp_status", PStr "complete");
                                     ("data", PDict [("x", PInt 1)])]))
              end |};
     hub_send_command_for_instance :=
       fun _ _ _ _ => {| latency := 0; outcome := Ok (Raw PNone) |};
     hub_get_tools_for_project := fun _ => Ok [];
     hub_get_tool_definition := fun _ _ => Ok None |}.

(** The deadline property of the spec, run: polls every five seconds from
    time 0 are still within the deadline at 600 and time out at 605. *)
Example execute_tool_slow_host :
  execute_tool (RT := Sample.runtime) (PD := Sample.pydantic) slow_env 200
               build_service world0 "P" "build" None None
  = Some (Ok {| success := false;
                message := Some "Timeout waiting for build to complete";
                error := None;
                data := PDict [("_mcp_status", PStr "pending");
                               ("_mcp_poll_interval", PFloat (FFin 5))] |},
          build_service, {| now := 605; ticks := 122 |}).
Proof. vm_compute. reflexivity. Qed.

(** The recovery property of the spec, run: the lost answer costs one
    widened interval, four seconds after two, and the result is the
    completed one. *)
Example execute_tool_flaky_host :
  execute_tool (RT := Sample.runtime) (PD := Sample.pydantic) flaky_env 10
               build_service world0 "P" "build" None None
  = Some (Ok {| success := true; message := None; error := None;
                data := PDict [("x", PInt 1)] |},
          build_service, {| now := 6; ticks := 3 |}).
Proof. vm_compute. reflexivity. Qed.

Lemma slow_env_always_pending :
  always_pending (RT := Sample.runtime) slow_env "build" None.
Proof.
  intros params w. split.
  - cbn. lra.
  - exists (pending_with (PFloat (FFin 5))), (FFin 5).
    split; reflexivity.
Defined.

Lemma execute_tool_times_out_witness :
  exists (res : MCPResponse) (last : raw_response) (w' w0 : World)
         (sent : list (string * pyval)),
    execute_tool (RT := Sample.runtime) (PD := Sample.pydantic) slow_env
                 (Z.to_nat 6001) build_service world0 "P" "build" None None
    = Some (Ok res, build_service, w')
    /\ success res = false
    /\ message res = Some "Timeout waiting for build to complete"
    /\ send_with_unity_instance slow_env None "build" (PDict sent) w0
       = (Ok last, w')
    /\ Raw (data res) = last
    /\ (now (snd (send_with_unity_instance slow_env None "build"
                    (PDict []) world0)) + 600 < now w')%Q.
Proof.
  apply (@execute_tool_times_out Sample.runtime Sample.pydantic slow_env
           build_service build_service world0 world0 "P" "build" None None
           build_tool eq_refl eq_refl slow_env_always_pending
           (Z.to_nat 6001)).
  rewrite Z2Nat.id; lia.
Defined.

Lemma poll_transport_failure_is_swallowed_witness :
  poll_loop (RT := Sample.runtime) (PD := Sample.pydantic) flaky_env 10
            "build" None (PDict [("action", PStr "status")]) 600
            (pending_with (PInt 2)) {| now := 0; ticks := 1 |}
  = poll_loop (RT := Sample.runtime) (PD := Sample.pydantic) flaky_env 9
              "build" None (PDict [("action", PStr "status")]) 600
              (transient_response (FFin 2)
                 (Exn ConnectionError "Connection closed"))
              {| now := 2; ticks := 2 |}.
Proof.
  apply (proj1 (@poll_transport_failure_is_swallowed
                  Sample.runtime Sample.pydantic flaky_env "build" None
                  [("action", PStr "status")] 600
                  (pending_with (PInt 2)) {| now := 0; ticks := 1 |}
                  {| now := 2; ticks := 2 |} 2
                  (Exn ConnectionError "Connection closed") 9%nat
                  eq_refl eq_refl eq_refl)).
Defined.

(* ===================================================================== *)
(** * Further properties of the registry *)
(* ===================================================================== *)

Lemma register_tool_find_same (self : CustomToolService) (p : string)
    (d : ToolDefinitionModel) :
  alist_find (name d) (project_dict (_register_tool self p d) p) = Some d.
Proof. rewrite project_dict_register. apply alist_find_set_same. Qed.

Lemma register_tool_registered_other (self : CustomToolService) (p : string)
    (d : ToolDefinitionModel) (p0 n : string) :
  p0 <> p \/ n <> name d ->
  _is_registered (_register_tool self p d) p0 n = _is_registered self p0 n.
Proof.
  intros Hdiff. unfold _is_registered.
  destruct (String.eqb p0 p) eqn:Ep.
  - apply String.eqb_eq in Ep. subst p0.
    destruct Hdiff as [Hp|Hn]; [contradiction|].
    rewrite project_dict_register, alist_find_set_other by exact Hn.
    reflexivity.
  - rewrite project_dict_register_other; [reflexivity|].
    intro H. subst p0. rewrite String.eqb_refl in Ep. discriminate.
Qed.

Lemma register_tool_keeps (self : CustomToolService) (p : string)
    (d : ToolDefinitionModel) (p0 n : string) :
  _is_registered self p0 n = true ->
  _is_registered (_register_tool self p d) p0 n = true.
Proof.
  intros H.
  destruct (String.eqb p0 p) eqn:Ep; [destruct (String.eqb n (name d)) eqn:En|].
  - apply String.eqb_eq in Ep, En. subst.
    unfold _is_registered. rewrite register_tool_find_same. reflexivity.
  - apply String.eqb_eq in Ep. subst p0.
    rewrite register_tool_registered_other; [exact H|].
    right. intro Hn. subst n. rewrite String.eqb_refl in En. discriminate.
  - rewrite register_tool_registered_other; [exact H|].
    left. intro Hp. subst p0. rewrite String.eqb_refl in Ep. discriminate.
Qed.

(** X1.  [_register_tool] followed by a lookup: the tool is registered
    under its name in its project and is the definition found there; the
    answer of [_is_registered] for any other project or name is what it
    was, and the hash table and the time of the last sync are untouched. *)
Theorem register_tool_then_lookup :
  forall (self : CustomToolService) (p : string) (d : ToolDefinitionModel),
    _is_registered (_register_tool self p d) p (name d) = true
    /\ alist_find (name d) (project_dict (_register_tool self p d) p) = Some d
    /\ (forall p0 n,
          p0 <> p \/ n <> name d ->
          _is_registered (_register_tool self p d) p0 n
          = _is_registered self p0 n)
    /\ _hash_to_project (_register_tool self p d) = _hash_to_project self
    /\ _last_sync_time (_register_tool self p d) = _last_sync_time self.
Proof.
  intros self p d.
  split; [unfold _is_registered; rewrite register_tool_find_same;
          reflexivity|].
  split; [apply register_tool_find_same|]. split; [|split; reflexivity].
  intros p0 n. apply register_tool_registered_other.
Qed.

Lemma register_tool_then_lookup_witness :
  _is_registered (_register_tool build_service "P" move_tool) "P" "build"
  = _is_registered build_service "P" "build".
Proof.
  apply (proj1 (proj2 (proj2
           (register_tool_then_lookup build_service "P" move_tool)))).
  right. discriminate.
Defined.

(** What registration and sync keep of a service: the hash table, the time
    of the last sync, and every registration. *)
Definition keeps_registry (self self' : CustomToolService) : Prop :=
  _hash_to_project self' = _hash_to_project self
  /\ _last_sync_time self' = _last_sync_time self
  /\ (forall p n, _is_registered self p n = true ->
                  _is_registered self' p n = true).

Lemma keeps_registry_refl (self : CustomToolService) :
  keeps_registry self self.
Proof. repeat split. intros p n H. exact H. Qed.

Lemma keeps_registry_trans (a b c : CustomToolService) :
  keeps_registry a b -> keeps_registry b c -> keeps_registry a c.
Proof.
  intros (Hh1 & Hs1 & Hr1) (Hh2 & Hs2 & Hr2). split; [|split].
  - rewrite Hh2. exact Hh1.
  - rewrite Hs2. exact Hs1.
  - intros p n H. apply Hr2, Hr1, H.
Qed.

Lemma keeps_registry_register (self : CustomToolService) (p : string)
    (d : ToolDefinitionModel) :
  keeps_registry self (_register_tool self p d).
Proof.
  split; [reflexivity|]. split; [reflexivity|].
  intros p0 n. apply register_tool_keeps.
Qed.

Lemma register_each_keeps (p : string) (ts : list ToolDefinitionModel) :
  forall (self : CustomToolService) (reg rep : list string),
    keeps_registry self (fst (fst (register_each p ts self reg rep))).
Proof.
  induction ts as [|t ts IH]; intros self reg rep.
  - apply keeps_registry_refl.
  - cbn [register_each].
    eapply keeps_registry_trans; [apply keeps_registry_register|apply IH].
Qed.

(** X2.  A batch for one project leaves the rest of the service alone: the
    tools of every other project and the time of the last sync are what
    they were, no registration is lost, and the hash table changes only
    when a hash is supplied. *)
Theorem register_payload_keeps_the_rest :
  forall (RT : Runtime) (self : CustomToolService)
         (payload : RegisterToolsPayload),
    let self' := snd (register_payload self payload) in
    (forall p0, p0 <> project_id payload ->
                project_dict self' p0 = project_dict self p0)
    /\ (forall p n, _is_registered self p n = true ->
                    _is_registered self' p n = true)
    /\ _last_sync_time self' = _last_sync_time self
    /\ (project_hash payload = None ->
        _hash_to_project self' = _hash_to_project self).
Proof.
  intros RT self payload. cbv zeta. unfold register_payload.
  pose proof (register_each_spec (project_id payload) (tools payload)
                                 self [] []) as H.
  pose proof (register_each_keeps (project_id payload) (tools payload)
                                  self [] []) as K.
  destruct (register_each _ _ _ _ _) as [[self1 reg] rep].
  cbn [fst] in K. destruct H as (_ & _ & _ & _ & Hother).
  destruct K as (Kh & Ks & Kr).
  destruct (project_hash payload) as [h|];
    [destruct (String.eqb h "")|]; cbn [snd];
    (split; [exact Hother|]); (split; [exact Kr|]);
    (split; [exact Ks|]); intros Hn; try discriminate; exact Kh.
Qed.

Lemma register_payload_keeps_the_rest_witness :
  _is_registered
    (snd (register_payload (RT := Sample.runtime) build_service
            {| project_id := "Q"; project_hash := Some "AB12";
               tools := [move_tool] |})) "P" "build"
  = true.
Proof.
  apply (proj1 (proj2 (register_payload_keeps_the_rest Sample.runtime
                         build_service
                         {| project_id := "Q"; project_hash := Some "AB12";
                            tools := [move_tool] |}))).
  reflexivity.
Defined.

(** X3.  A hash recorded by a batch is found again by
    [get_project_id_for_hash] under the spelling it was supplied with; no
    hash and the empty hash are never found. *)
Theorem registered_hash_is_found :
  forall (RT : Runtime) (self : CustomToolService)
         (payload : RegisterToolsPayload) (h : string),
    (project_hash payload = Some h -> h <> "" ->
     get_project_id_for_hash (snd (register_payload self payload)) (Some h)
     = Some (project_id payload))
    /\ get_project_id_for_hash self None = None
    /\ get_project_id_for_hash self (Some "") = None.
Proof.
  intros RT self payload h. split; [|split; reflexivity].
  intros Hh Hne.
  pose proof (register_payload_spec self payload) as (_ & _ & Hash & _).
  unfold get_project_id_for_hash.
  destruct (String.eqb h "") eqn:E.
  - apply String.eqb_eq in E. contradiction.
  - rewrite Hash. unfold hash_table_after. rewrite Hh, E.
    apply alist_find_set_same.
Qed.

Lemma registered_hash_is_found_witness :
  get_project_id_for_hash (RT := Sample.runtime)
    (snd (register_payload (RT := Sample.runtime) empty_service
            {| project_id := "P"; project_hash := Some "AB12";
               tools := [] |})) (Some "AB12")
  = Some "P".
Proof.
  apply (proj1 (registered_hash_is_found Sample.runtime empty_service
                  {| project_id := "P"; project_hash := Some "AB12";
                     tools := [] |} "AB12")).
  - reflexivity.
  - discriminate.
Defined.

(** X4.  Registration and resolution compose: once a batch has recorded a
    project under a hash, a bare token equal to that hash, which no
    discovered instance answers to, resolves to the project.  The token
    holds no ["@"], its lowered form is not empty and is left as it is by
    a second lowering, and the project id is not empty. *)
Theorem registered_hash_resolves :
  forall (RT : Runtime) (env : Env) (self : CustomToolService)
         (payload : RegisterToolsPayload) (h : string) (w : World),
    project_hash payload = Some h ->
    h <> "" ->
    partition_at h = None ->
    str_lower h <> "" ->
    str_lower (str_lower h) = str_lower h ->
    project_id payload <> "" ->
    local_match env w h = None ->
    fst (resolve_project_id_for_unity_instance env
           (Some (snd (register_payload self payload))) (Some h) w)
    = Some (project_id payload).
Proof.
  intros RT env self payload h w Hh Hne Hat Hlow Hidem Hp Hlocal.
  rewrite resolve_refines. unfold resolution. rewrite Hlocal.
  unfold hash_portion. rewrite Hat.
  destruct (String.eqb h "") eqn:E;
    [apply String.eqb_eq in E; contradiction|].
  unfold hub_resolution, get_project_id_for_hash.
  destruct (String.eqb (str_lower h) "") eqn:El;
    [apply String.eqb_eq in El; contradiction|].
  pose proof (register_payload_spec self payload) as (_ & _ & Hash & _).
  rewrite Hidem, Hash. unfold hash_table_after. rewrite Hh, E.
  rewrite alist_find_set_same.
  destruct (String.eqb (project_id payload) "") eqn:Ep;
    [apply String.eqb_eq in Ep; contradiction|reflexivity].
Qed.

Lemma registered_hash_resolves_witness :
  fst (resolve_project_id_for_unity_instance (RT := Sample.runtime) quiet_env
         (Some (snd (register_payload (RT := Sample.runtime) empty_service
                       {| project_id := "P"; project_hash := Some "AB12";
                          tools := [] |})))
         (Some "AB12") world0)
  = Some "P".
Proof.
  apply (@registered_hash_resolves Sample.runtime quiet_env empty_service
           {| project_id := "P"; project_hash := Some "AB12"; tools := [] |}
           "AB12" world0);
    try reflexivity; discriminate.
Defined.

(* ===================================================================== *)
(** * Further properties of the sync *)
(* ===================================================================== *)

Section SyncFacts.
Context {PD : Pydantic}.
Variable env : Env.

(** A descriptor either changes nothing or registers one definition in the
    project of its instance. *)
Lemma sync_tool_result (pid : string) (tool_data : pyval)
    (self self' : CustomToolService) :
  sync_tool pid tool_data self = Ok self' ->
  self' = self \/ exists d, self' = _register_tool self pid d.
Proof.
  unfold sync_tool.
  destruct (py_contains "name" tool_data) as [b|e]; cbn [rbind];
    [|discriminate].
  destruct b; cbn [negb]; [|intros H; inversion H; left; reflexivity].
  repeat (match goal with
          | |- context [rbind ?c _] => destruct c; cbn [rbind]
          | |- context [if is_instance ?e ?k then _ else _] =>
              destruct (is_instance e k)
          | |- context [if truthy ?v then _ else _] => destruct (truthy v)
          end);
    intros H; inversion H; subst; eauto.
Qed.

Lemma sync_tools_keeps (pid : string) (items : list pyval) :
  forall self, keeps_registry self (sync_tools pid items self).
Proof.
  induction items as [|t items IH]; intros self; cbn [sync_tools].
  - apply keeps_registry_refl.
  - destruct (sync_tool pid t self) as [self'|e] eqn:E;
      [|apply keeps_registry_refl].
    apply sync_tool_result in E. destruct E as [->|(d & ->)].
    + apply IH.
    + eapply keeps_registry_trans; [apply keeps_registry_register|apply IH].
Qed.

Lemma sync_instance_keeps (inst : Instance) (self : CustomToolService)
    (w : World) :
  keeps_registry self (fst (sync_instance env inst (self, w)))
  /\ ticks (snd (sync_instance env inst (self, w))) = S (ticks w)
  /\ (now (snd (sync_instance env inst (self, w)))
      = now w + latency (async_send_command_with_retry env (ticks w)
                           "list_csharp_tools" (PDict [])
                           (Some (inst_id inst))))%Q.
Proof.
  unfold sync_instance.
  destruct (outcome _) as [[m|v]|e];
    try (split; [apply keeps_registry_refl|split; reflexivity]).
  destruct v;
    try (split; [apply keeps_registry_refl|split; reflexivity]).
  destruct (negb (dict_mem "tools" d));
    [split; [apply keeps_registry_refl|split; reflexivity]|].
  destruct (py_iter (dict_get d "tools")) as [items|e];
    [|split; [apply keeps_registry_refl|split; reflexivity]].
  split; [apply sync_tools_keeps|split; reflexivity].
Qed.

Lemma sync_instances_keep (instances : list Instance) :
  forall (self : CustomToolService) (w : World),
    keeps_registry self
      (fst (fold_left (fun sw inst => sync_instance env inst sw)
                      instances (self, w)))
    /\ ticks (snd (fold_left (fun sw inst => sync_instance env inst sw)
                             instances (self, w)))
       = (ticks w + List.length instances)%nat.
Proof.
  induction instances as [|inst instances IH]; intros self w.
  - cbn. split; [apply keeps_registry_refl|lia].
  - cbn [fold_left List.length].
    destruct (sync_instance_keeps inst self w) as (K & T & _).
    destruct (sync_instance env inst (self, w)) as [self1 w1].
    cbn [fst snd] in *.
    destruct (IH self1 w1) as (K' & T').
    split; [eapply keeps_registry_trans; eassumption|].
    rewrite T', T. lia.
Qed.
End SyncFacts.

Lemma sync_effect (PD : Pydantic) (env : Env) (force : bool)
    (self : CustomToolService) (w : World) :
  _hash_to_project (fst (_sync_all_unity_tools env force self w))
  = _hash_to_project self
  /\ (forall p n,
        _is_registered self p n = true ->
        _is_registered (fst (_sync_all_unity_tools env force self w)) p n
        = true)
  /\ (_last_sync_time (fst (_sync_all_unity_tools env force self w))
      = _last_sync_time self
      \/ _last_sync_time (fst (_sync_all_unity_tools env force self w))
         = now w)
  /\ (force = true ->
      _last_sync_time (fst (_sync_all_unity_tools env force self w))
      = now w).
Proof.
  unfold _sync_all_unity_tools.
  destruct (negb force && Qltb (now w - _last_sync_time self) _sync_interval)
    eqn:Eg.
  - cbn [fst]. repeat split; auto.
    intros ->. discriminate.
  - set (self1 := {| _project_tools := _project_tools self;
                     _hash_to_project := _hash_to_project self;
                     _last_sync_time := now w |}).
    assert (Hr : forall p n, _is_registered self1 p n
                             = _is_registered self p n) by reflexivity.
    destruct (discover_all_instances env (ticks w)) as [instances|e].
    + destruct (sync_instances_keep env instances self1 (tick w))
        as ((Kh & Ks & Kr) & _).
      split; [rewrite Kh; reflexivity|].
      split; [intros p n H; apply Kr; rewrite Hr; exact H|].
      split; [right; rewrite Ks; reflexivity|].
      intros _. rewrite Ks. reflexivity.
    + cbn [fst]. split; [reflexivity|].
      split; [intros p n H; rewrite Hr; exact H|].
      split; [right; reflexivity|intros _; reflexivity].
Qed.

(** X5.  A sync, forced or not, loses nothing: the hash table is what it
    was and whatever was registered still is.  The time of the last sync is
    what it was or the time the sync started, and after a forced sync it is
    the time the sync started. *)
Theorem sync_keeps_registrations :
  forall (PD : Pydantic) (env : Env) (force : bool)
         (self : CustomToolService) (w : World),
    let self' := fst (_sync_all_unity_tools env force self w) in
    _hash_to_project self' = _hash_to_project self
    /\ (forall p n, _is_registered self p n = true ->
                    _is_registered self' p n = true)
    /\ (_last_sync_time self' = _last_sync_time self
        \/ _last_sync_time self' = now w)
    /\ (force = true -> _last_sync_time self' = now w).
Proof. intros PD env force self w. apply sync_effect. Qed.

Lemma sync_keeps_registrations_witness :
  _is_registered
    (fst (_sync_all_unity_tools (PD := Sample.pydantic) live_env true
            build_service world0)) "P" "build"
  = true
  /\ _last_sync_time
       (fst (_sync_all_unity_tools (PD := Sample.pydantic) live_env true
               build_service world0))
     = now world0.
Proof.
  split.
  - apply (proj1 (proj2 (sync_keeps_registrations Sample.pydantic live_env
                           true build_service world0))).
    reflexivity.
  - apply (proj2 (proj2 (proj2 (sync_keeps_registrations Sample.pydantic
                                  live_env true build_service world0)))).
    reflexivity.
Defined.

(** X6.  The throttle, across two calls: when a sync has run, forced or
    because it was due, an unforced sync asked for less than five seconds
    after the first one started does nothing at all, whatever the first one
    found. *)
Theorem sync_then_unforced_sync_is_skipped :
  forall (PD : Pydantic) (env : Env) (force : bool)
         (self : CustomToolService) (w w' : World),
    (force = true \/ (5 <= now w - _last_sync_time self)%Q) ->
    (now w' - now w < 5)%Q ->
    let self1 := fst (_sync_all_unity_tools env force self w) in
    _sync_all_unity_tools env false self1 w' = (self1, w').
Proof.
  intros PD env force self w w' Hran Hsoon. cbv zeta.
  assert (Ht : _last_sync_time (fst (_sync_all_unity_tools env force self w))
               = now w).
  { destruct Hran as [->|Hdue].
    - apply (sync_effect PD env true self w). reflexivity.
    - destruct force.
      + apply (sync_effect PD env true self w). reflexivity.
      + rewrite (sync_due env self w Hdue).
        apply (sync_effect PD env true self w). reflexivity. }
  apply sync_throttled. rewrite Ht. exact Hsoon.
Qed.

Lemma sync_then_unforced_sync_is_skipped_witness :
  _sync_all_unity_tools (PD := Sample.pydantic) live_env false
    (fst (_sync_all_unity_tools (PD := Sample.pydantic) live_env true
            build_service world0))
    {| now := 3; ticks := 2 |}
  = (fst (_sync_all_unity_tools (PD := Sample.pydantic) live_env true
            build_service world0),
     {| now := 3; ticks := 2 |}).
Proof.
  apply (@sync_then_unforced_sync_is_skipped Sample.pydantic live_env true
           build_service world0 {| now := 3; ticks := 2 |}).
  - left. reflexivity.
  - vm_compute. reflexivity.
Defined.

(** X7.  A sync that runs asks the pool once and then each discovered
    instance exactly once, whatever the instances answer; when discovery
    itself fails, the failure is swallowed and nothing but the time of the
    last sync changes. *)
Theorem sync_asks_each_instance_once :
  forall (PD : Pydantic) (env : Env) (self : CustomToolService) (w : World),
    (forall instances,
        discover_all_instances env (ticks w) = Ok instances ->
        ticks (snd (_sync_all_unity_tools env true self w))
        = (ticks w + 1 + List.length instances)%nat)
    /\ (forall e,
          discover_all_instances env (ticks w) = Raise e ->
          _sync_all_unity_tools env true self w
          = ({| _project_tools := _project_tools self;
                _hash_to_project := _hash_to_project self;
                _last_sync_time := now w |}, tick w)).
Proof.
  intros PD env self w. unfold _sync_all_unity_tools. cbn [negb andb].
  split.
  - intros instances Hd. rewrite Hd.
    rewrite (proj2 (sync_instances_keep env instances _ (tick w))).
    cbn [tick ticks]. lia.
  - intros e Hd. rewrite Hd. reflexivity.
Qed.

Lemma sync_asks_each_instance_once_witness :
  ticks (snd (_sync_all_unity_tools (PD := Sample.pydantic) live_env true
                build_service world0))
  = 2%nat.
Proof.
  apply (proj1 (sync_asks_each_instance_once Sample.pydantic live_env
                  build_service world0) [jump_instance]).
  reflexivity.
Defined.

(* ===================================================================== *)
(** * Further properties of dispatch and execution *)
(* ===================================================================== *)

(** A command with dict parameters is one call, over either transport. *)
Lemma send_dict_calls_once (env : Env) (unity_instance : option string)
    (command_type : string) (d : list (string * pyval)) (w : World) :
  ticks (snd (send_with_unity_instance env unity_instance command_type
                                       (PDict d) w))
  = S (ticks w).
Proof.
  unfold send_with_unity_instance.
  destruct (_is_http_transport env); reflexivity.
Qed.

(** X8.  [send_with_unity_instance].  Over HTTP, parameters that are
    neither [None] nor a dict are refused with [TypeError] before anything
    is sent, and [None] is sent as the empty dict.  Over stdio an empty
    instance token is passed on as no instance at all.  In every case but
    the refusal exactly one call goes out. *)
Theorem send_with_unity_instance_dispatch :
  forall (env : Env) (unity_instance : option string) (command_type : string)
         (params : pyval) (w : World),
    (_is_http_transport env = true ->
     params <> PNone -> (forall d, params <> PDict d) ->
     send_with_unity_instance env unity_instance command_type params w
     = (Raise (Exn TypeError
                 "Command parameters must be a dict for HTTP transport"), w))
    /\ (_is_http_transport env = true ->
        send_with_unity_instance env unity_instance command_type PNone w
        = send_with_unity_instance env unity_instance command_type
                                   (PDict []) w)
    /\ (_is_http_transport env = false ->
        send_with_unity_instance env (Some "") command_type params w
        = send_with_unity_instance env None command_type params w)
    /\ (_is_http_transport env = false \/ params = PNone
        \/ (exists d, params = PDict d) ->
        ticks (snd (send_with_unity_instance env unity_instance command_type
                                             params w))
        = S (ticks w)).
Proof.
  intros env unity_instance command_type params w.
  unfold send_with_unity_instance.
  split; [|split; [|split]].
  - intros -> Hn Hd. destruct params; try reflexivity.
    + contradiction.
    + exfalso. apply (Hd d). reflexivity.
  - intros ->. reflexivity.
  - intros ->. reflexivity.
  - intros H. destruct (_is_http_transport env); [|reflexivity].
    destruct H as [H|[->|(d & ->)]]; [discriminate|reflexivity|reflexivity].
Qed.

(** The hub transport: every command is answered by [None]. *)
Definition hub_env : Env :=
  {| _is_http_transport := true;
     discover_all_instances := fun _ => Ok [];
     async_send_command_with_retry :=
       fun _ _ _ _ => {| latency := 0; outcome := Ok (Raw PNone) |};
     hub_send_command_for_instance :=
       fun _ _ _ _ => {| latency := 0; outcome := Ok (Raw PNone) |};
     hub_get_tools_for_project := fun _ => Ok [];
     hub_get_tool_definition := fun _ _ => Ok None |}.

Lemma send_with_unity_instance_dispatch_witness :
  send_with_unity_instance hub_env None "build" (PList []) world0
  = (Raise (Exn TypeError
              "Command parameters must be a dict for HTTP transport"),
     world0)
  /\ ticks (snd (send_with_unity_instance quiet_env None "build" (PList [])
                                          world0))
     = 1%nat.
Proof.
  split.
  - apply (proj1 (send_with_unity_instance_dispatch hub_env None "build"
                    (PList []) world0)).
    + reflexivity.
    + discriminate.
    + intros d. discriminate.
  - apply (proj2 (proj2 (proj2 (send_with_unity_instance_dispatch quiet_env
                                  None "build" (PList []) world0)))).
    left. reflexivity.
Defined.

(** [params or {}] as [execute_tool] reads its argument. *)
Definition params_or_empty (params : option (list (string * pyval)))
  : list (string * pyval) :=
  match params with
  | Some d => d
  | None => []
  end.

(** X9.  An exception of the first dispatch is not caught: when the
    definition of the tool is found and the transport raises on the initial
    command, [execute_tool] raises that exception, for a polling tool as
    for any other, where the same exception on a later poll would have been
    absorbed. *)
Theorem execute_tool_first_dispatch_raises :
  forall (RT : Runtime) (PD : Pydantic) (env : Env)
         (self self1 : CustomToolService) (w w1 w2 : World)
         (project tool_name : string) (unity_instance : option string)
         (params : option (list (string * pyval)))
         (definition : ToolDefinitionModel) (exc : exn) (fuel : nat),
    get_tool_definition env self w project tool_name
    = (Ok (Some definition), self1, w1) ->
    send_with_unity_instance env unity_instance tool_name
                             (PDict (params_or_empty params)) w1
    = (Raise exc, w2) ->
    execute_tool env fuel self w project tool_name unity_instance params
    = Some (Raise exc, self1, w2).
Proof.
  intros RT PD env self self1 w w1 w2 project tool_name unity_instance
         params definition exc fuel Hdef Hsend.
  unfold execute_tool. rewrite Hdef.
  unfold params_or_empty in Hsend. rewrite Hsend. reflexivity.
Qed.

(** A transport that is down. *)
Definition down_env : Env :=
  {| _is_http_transport := false;
     discover_all_instances := fun _ => Ok [];
     async_send_command_with_retry :=
       fun _ _ _ _ =>
         {| latency := 0;
            outcome := Raise (Exn ConnectionError "Connection refused") |};
     hub_send_command_for_instance :=
       fun _ _ _ _ => {| latency := 0; outcome := Ok (Raw PNone) |};
     hub_get_tools_for_project := fun _ => Ok [];
     hub_get_tool_definition := fun _ _ => Ok None |}.

Lemma execute_tool_first_dispatch_raises_witness :
  execute_tool (RT := Sample.runtime) (PD := Sample.pydantic) down_env 10
               build_service world0 "P" "build" None None
  = Some (Raise (Exn ConnectionError "Connection refused"), build_service,
          {| now := 0 + 0; ticks := 1 |}).
Proof.
  apply (@execute_tool_first_dispatch_raises Sample.runtime Sample.pydantic
           down_env build_service build_service world0 world0
           {| now := 0 + 0; ticks := 1 |} "P" "build" None None build_tool
           (Exn ConnectionError "Connection refused") 10%nat);
    reflexivity.
Defined.

(** X10.  A tool that is found neither before nor after the forced sync is
    reported by a Result, not by an exception: [success] is [False], the
    message names the tool and the project, and no command is sent for the
    tool. *)
Theorem execute_tool_not_found :
  forall (RT : Runtime) (PD : Pydantic) (env : Env)
         (self self1 self3 : CustomToolService) (w w1 w3 : World)
         (project tool_name : string) (unity_instance : option string)
         (params : option (list (string * pyval))) (fuel : nat),
    get_tool_definition env self w project tool_name = (Ok None, self1, w1) ->
    get_tool_definition env
      (fst (_sync_all_unity_tools env true self1 w1))
      (snd (_sync_all_unity_tools env true self1 w1)) project tool_name
    = (Ok None, self3, w3) ->
    execute_tool env fuel self w project tool_name unity_instance params
    = Some (Ok {| success := false;
                  message := Some ("Tool '" ++ tool_name
                                   ++ "' not found for project " ++ project);
                  error := None; data := PNone |},
            self3, w3).
Proof.
  intros RT PD env self self1 self3 w w1 w3 project tool_name unity_instance
         params fuel H1 H2.
  unfold execute_tool. rewrite H1.
  destruct (_sync_all_unity_tools env true self1 w1) as [self2 w2].
  cbn [fst snd] in H2. rewrite H2.
  unfold not_found_response.
  rewrite (new_MCPResponse_typed false
             (Some ("Tool '" ++ tool_name ++ "' not found for project "
                    ++ project)) None PNone eq_refl).
  reflexivity.
Qed.

Lemma execute_tool_not_found_witness :
  execute_tool (RT := Sample.runtime) (PD := Sample.pydantic) quiet_env 0
               empty_service {| now := 10; ticks := 0 |} "P" "jump" None None
  = Some (Ok {| success := false;
                message := Some "Tool 'jump' not found for project P";
                error := None; data := PNone |},
          {| _project_tools := []; _hash_to_project := [];
             _last_sync_time := 10 |},
          {| now := 10; ticks := 2 |}).
Proof.
  apply (@execute_tool_not_found Sample.runtime Sample.pydantic quiet_env
           empty_service
           {| _project_tools := []; _hash_to_project := [];
              _last_sync_time := 10 |}
           {| _project_tools := []; _hash_to_project := [];
              _last_sync_time := 10 |}
           {| now := 10; ticks := 0 |} {| now := 10; ticks := 1 |}
           {| now := 10; ticks := 2 |} "P" "jump" None None 0%nat);
    reflexivity.
Defined.

(** X11.  A tool that is in the registry and does not ask for polling
    costs one call: no sync runs, the registry is left as it is, the loop
    is never entered (any bound on its turns will do, zero included), and
    the answer is the normalization of the one response. *)
Theorem execute_tool_cached_immediate :
  forall (RT : Runtime) (PD : Pydantic) (env : Env)
         (self : CustomToolService) (w w2 : World)
         (project tool_name : string) (unity_instance : option string)
         (params : option (list (string * pyval)))
         (definition : ToolDefinitionModel) (response : raw_response)
         (fuel : nat),
    alist_find tool_name (project_dict self project) = Some definition ->
    requires_polling definition = false ->
    send_with_unity_instance env unity_instance tool_name
                             (PDict (params_or_empty params)) w
    = (Ok response, w2) ->
    execute_tool env fuel self w project tool_name unity_instance params
    = Some (_normalize_response response, self, w2)
    /\ ticks w2 = S (ticks w).
Proof.
  intros RT PD env self w w2 project tool_name unity_instance params
         definition response fuel Hfind Hpoll Hsend.
  split.
  - unfold execute_tool, get_tool_definition. rewrite Hfind.
    unfold params_or_empty in Hsend. rewrite Hsend, Hpoll. reflexivity.
  - pose proof (send_dict_calls_once env unity_instance tool_name
                  (params_or_empty params) w) as Ht.
    rewrite Hsend in Ht. exact Ht.
Qed.

Lemma execute_tool_cached_immediate_witness :
  execute_tool (RT := Sample.runtime) (PD := Sample.pydantic) slow_env 0
               {| _project_tools := [("P", [("move", move_tool)])];
                  _hash_to_project := []; _last_sync_time := 0 |}
               world0 "P" "move" None None
  = Some (_normalize_response (RT := Sample.runtime) (PD := Sample.pydantic)
            (pending_with (PFloat (FFin 5))),
          {| _project_tools := [("P", [("move", move_tool)])];
             _hash_to_project := []; _last_sync_time := 0 |},
          {| now := 0 + 0; ticks := 1 |}).
Proof.
  apply (proj1 (@execute_tool_cached_immediate Sample.runtime Sample.pydantic
                  slow_env
                  {| _project_tools := [("P", [("move", move_tool)])];
                     _hash_to_project := []; _last_sync_time := 0 |}
                  world0 {| now := 0 + 0; ticks := 1 |} "P" "move" None None
                  move_tool (pending_with (PFloat (FFin 5))) 0%nat
                  eq_refl eq_refl eq_refl)).
Defined.

(** X12.  Normalization of what is not a dict: an [MCPResponse] passes
    through as it is, and any other value, [None] included, becomes a
    failure whose message is its string form, with no error text and no
    data; no exception is raised on either. *)
Theorem normalize_response_non_dict :
  forall (RT : Runtime) (PD : Pydantic),
    (forall r, _normalize_response (Normalized r) = Ok r)
    /\ (forall v,
          (forall d, v <> PDict d) ->
          _normalize_response (Raw v)
          = Ok {| success := false; message := Some (py_str v);
                  error := None; data := PNone |}).
Proof.
  intros RT PD. split; [reflexivity|].
  intros v Hd.
  assert (H : normalize_rest v
              = Ok {| success := false; message := Some (py_str v);
                      error := None; data := PNone |}).
  { unfold normalize_rest.
    destruct v as [| | | | | |d'];
      try (match goal with
           | |- context [py_str ?x] =>
               pose proof (new_MCPResponse_typed false (Some (py_str x))
                             None PNone eq_refl) as L;
               cbn [of_opt_str] in L; rewrite L
           end; reflexivity).
    exfalso. apply (Hd d'). reflexivity. }
  destruct v as [| | | | | |d']; try exact H.
  exfalso. apply (Hd d'). reflexivity.
Qed.

Lemma normalize_response_non_dict_witness :
  _normalize_response (RT := Sample.runtime) (PD := Sample.pydantic)
                      (Raw PNone)
  = Ok {| success := false; message := Some "None"; error := None;
          data := PNone |}.
Proof.
  apply (proj2 (normalize_response_non_dict Sample.runtime Sample.pydantic)
           PNone).
  intros d. discriminate.
Defined.

(** Every status but pending comes with the default interval. *)
Lemma terminal_interval_default {RT : Runtime} (r : raw_response)
    (s : poll_status) (i : pyfloat) :
  _interpret_status r = Ok (s, i) -> s <> pending ->
  i = _DEFAULT_POLL_INTERVAL.
Proof.
  unfold _interpret_status.
  destruct r as [m|v]; [intros H; inversion H; reflexivity|].
  destruct v as [| | | | | |d]; try (intros H; inversion H; reflexivity).
  destruct (dict_get d "_mcp_status") as [| | | |s0| |] eqn:Hm;
    try (intros H; inversion H; reflexivity).
  - destruct d; intros H Hs; inversion H; subst;
      [congruence|reflexivity].
  - cbn [eq_str]. destruct (String.eqb s0 "pending").
    + destruct (match py_float _ with Ok f => _ | Raise e => _ end);
        cbn [rbind]; intros H Hs; inversion H; subst. congruence.
    + destruct (String.eqb s0 "complete");
        [intros H; inversion H; reflexivity|].
      destruct (String.eqb s0 "error"); intros H; inversion H; reflexivity.
Qed.

(** X13.  The classifier on any response at all: either it returns a
    status with a finite interval between 0.1 and 5 seconds, which is the
    default of one second for every status but pending, or it raises, and
    then what it raises is the [OverflowError] of [float] on the integer
    hint of a pending response. *)
Theorem interpret_status_range_or_overflow :
  forall (RT : Runtime) (r : raw_response),
    (exists s q,
        _interpret_status r = Ok (s, FFin q)
        /\ (q0_1 <= q <= 5)%Q
        /\ (s <> pending -> FFin q = _DEFAULT_POLL_INTERVAL))
    \/ (exists e d n,
          _interpret_status r = Raise e
          /\ exn_kind e = OverflowError
          /\ r = Raw (PDict d)
          /\ dict_get d "_mcp_status" = PStr "pending"
          /\ dict_get d "_mcp_poll_interval" = PInt n).
Proof.
  intros RT r. destruct (_interpret_status r) as [[s i]|e] eqn:E.
  - left. destruct (interval_in_range _ E) as (q & -> & Hr).
    exists s, q. split; [reflexivity|]. split; [exact Hr|].
    intros Hs. apply (terminal_interval_default _ E Hs).
  - right. destruct (interpret_status_raises _ E)
      as (d & n & -> & Hm & Hh & _ & Hk).
    exists e, d, n. repeat split; try assumption.
    unfold dict_get. unfold dict_get_or in *.
    destruct (dict_find "_mcp_poll_interval" d); [exact Hh|discriminate].
Qed.

(* ===================================================================== *)
(** * Further properties of the poll loop *)
(* ===================================================================== *)

Section LoopRate.
Context {RT : Runtime} {PD : Pydantic}.
Variable env : Env.
Variable tool_name : string.
Variable unity_instance : option string.
Variable poll_params : list (string * pyval).
Variable deadline : Q.

(** Each poll is preceded by a sleep of a tenth of a second at least. *)
Lemma poll_loop_rate :
  time_moves_on env tool_name unity_instance poll_params ->
  forall (fuel : nat) (r : raw_response) (w w' : World)
         (out : result MCPResponse),
    poll_loop env fuel tool_name unity_instance (PDict poll_params)
              deadline r w = Some (out, w') ->
    (ticks w <= ticks w')%nat
    /\ (inject_Z (Z.of_nat (ticks w') - Z.of_nat (ticks w)) * q0_1
        <= now w' - now w)%Q.
Proof.
  intros Htime. induction fuel as [|fuel IH]; intros r w w' out Hrun.
  - discriminate.
  - assert (Hstay : forall o, Some (o, w) = Some (out, w') ->
              (ticks w <= ticks w')%nat
              /\ (inject_Z (Z.of_nat (ticks w') - Z.of_nat (ticks w)) * q0_1
                  <= now w' - now w)%Q).
    { intros o H. inversion H; subst. split; [lia|].
      rewrite Z.sub_diag. change (inject_Z 0) with 0%Q. lra. }
    destruct (_interpret_status r) as [[s p]|e] eqn:Hc.
    + destruct (is_terminal s) eqn:Ht.
      * cbn [poll_loop] in Hrun. rewrite Hc, Ht in Hrun.
        apply (Hstay _ Hrun).
      * destruct s; try discriminate.
        destruct (Qltb deadline (now w)) eqn:Hd.
        -- cbn [poll_loop] in Hrun. rewrite Hc in Hrun.
           cbn [is_terminal] in Hrun. rewrite Hd in Hrun.
           apply (Hstay _ Hrun).
        -- destruct (@poll_loop_turn RT PD env tool_name unity_instance
                       poll_params deadline fuel r w p Hc Hd)
             as (q & Hp & [Hlo Hhi] & Hturn).
           rewrite Hturn in Hrun. cbv zeta in Hrun.
           set (w1 := {| now := now w + q; ticks := ticks w |}) in *.
           pose proof (Htime w1) as Hmove.
           pose proof (send_dict_calls_once env unity_instance tool_name
                         poll_params w1) as Hone.
           destruct (send_with_unity_instance env unity_instance tool_name
                       (PDict poll_params) w1) as [res w2].
           cbn [fst snd] in *.
           destruct (IH _ _ _ _ Hrun) as (Hle & Hrate).
           change (ticks w1) with (ticks w) in Hone.
           change (now w1) with (now w + q)%Q in Hmove.
           split; [lia|].
           replace (Z.of_nat (ticks w') - Z.of_nat (ticks w))
             with ((Z.of_nat (ticks w') - Z.of_nat (ticks w2)) + 1) by lia.
           rewrite inject_Z_plus. change (inject_Z 1) with 1%Q.
           unfold q0_1 in *. lra.
    + cbn [poll_loop] in Hrun. rewrite Hc in Hrun. apply (Hstay _ Hrun).
Qed.
End LoopRate.

(** X14.  The loop never polls faster than ten times a second: when it
    returns, a tenth of a second (the binary64 [0.1]) has passed for each
    poll it sent, given a transport that takes no negative time.  Within
    its 600 seconds it therefore sends at most 6000 polls before the
    deadline check that ends it. *)
Theorem poll_loop_rate_bounded :
  forall (RT : Runtime) (PD : Pydantic) (env : Env) (tool_name : string)
         (unity_instance : option string)
         (poll_params : list (string * pyval)) (deadline : Q) (fuel : nat)
         (r : raw_response) (w w' : World) (out : result MCPResponse),
    time_moves_on env tool_name unity_instance poll_params ->
    poll_loop env fuel tool_name unity_instance (PDict poll_params)
              deadline r w = Some (out, w') ->
    (ticks w <= ticks w')%nat
    /\ (inject_Z (Z.of_nat (ticks w') - Z.of_nat (ticks w)) * q0_1
        <= now w' - now w)%Q.
Proof.
  intros RT PD env tool_name unity_instance poll_params deadline fuel r w w'
         out Htime Hrun.
  apply (@poll_loop_rate RT PD env tool_name unity_instance poll_params
           deadline Htime fuel r w w' out Hrun).
Qed.

Lemma slow_env_time_moves_on (params : list (string * pyval)) :
  time_moves_on slow_env "build" None params.
Proof. intros w. cbn. lra. Defined.

Lemma poll_loop_rate_bounded_witness :
  (0 <= 121)%nat
  /\ (inject_Z (Z.of_nat 121 - Z.of_nat 0) * q0_1 <= 605 - 0)%Q.
Proof.
  apply (@poll_loop_rate_bounded Sample.runtime Sample.pydantic slow_env
           "build" None [("action", PStr "status")] 600 200%nat
           (pending_with (PFloat (FFin 5))) world0
           {| now := 605; ticks := 121 |}
           (timeout_response (RT := Sample.runtime) (PD := Sample.pydantic)
              "build" (pending_with (PFloat (FFin 5))))
           (slow_env_time_moves_on _)).
  vm_compute. reflexivity.
Defined.

(** Doubling within bounds: [min(max(p * 2, 1.0), 5.0)]. *)
Definition widened (p : pyfloat) : pyfloat :=
  py_min (py_max (fdouble p) _DEFAULT_POLL_INTERVAL) f5_0.

Lemma widened_grows (q : Q) :
  exists x, widened (FFin q) = FFin x
            /\ (1 <= x <= 5)%Q
            /\ ((5 < q * 2)%Q -> FFin x = f5_0)
            /\ ((q * 2 <= 5)%Q -> (q * 2 <= x)%Q).
Proof.
  unfold widened. cbn [fdouble]. unfold py_max, _DEFAULT_POLL_INTERVAL.
  destruct (flt (FFin (q * 2)) (FFin 1)) eqn:E1.
  - apply flt_fin in E1. exists 1%Q. split; [reflexivity|].
    split; [split; lra|]. split; intros H; [exfalso; lra|lra].
  - apply flt_fin_false in E1. unfold py_min, f5_0.
    destruct (flt (FFin 5) (FFin (q * 2))) eqn:E5.
    + apply flt_fin in E5. exists 5%Q. split; [reflexivity|].
      split; [split; lra|]. split; intros H; [reflexivity|lra].
    + apply flt_fin_false in E5. exists (q * 2)%Q. split; [reflexivity|].
      split; [split; assumption|].
      split; intros H; [exfalso; lra|lra].
Qed.

(** X15.  The widening of the interval saturates: whatever the interval
    was, after four polls in a row that raise, the stand-in response is
    read with an interval of exactly five seconds, every stand-in on the
    way being classified as pending. *)
Theorem backoff_saturates_after_four_failures :
  forall (RT : Runtime) (q : Q) (e1 e2 e3 e4 : exn),
    exists p1 p2 p3,
      _interpret_status (transient_response (FFin q) e1) = Ok (pending, p1)
      /\ _interpret_status (transient_response p1 e2) = Ok (pending, p2)
      /\ _interpret_status (transient_response p2 e3) = Ok (pending, p3)
      /\ _interpret_status (transient_response p3 e4) = Ok (pending, f5_0).
Proof.
  intros RT q e1 e2 e3 e4.
  destruct (widened_grows q) as (x1 & H1 & [L1 U1] & _ & _).
  destruct (widened_grows x1) as (x2 & H2 & [L2 U2] & S2 & G2).
  destruct (widened_grows x2) as (x3 & H3 & [L3 U3] & S3 & G3).
  destruct (widened_grows x3) as (x4 & H4 & [L4 U4] & S4 & G4).
  assert (B2 : (2 <= x2)%Q).
  { destruct (Qlt_le_dec 5 (x1 * 2)) as [Hb|Hs].
    - specialize (S2 Hb). inversion S2. lra.
    - specialize (G2 Hs). lra. }
  assert (B3 : (4 <= x3)%Q).
  { destruct (Qlt_le_dec 5 (x2 * 2)) as [Hb|Hs].
    - specialize (S3 Hb). inversion S3. lra.
    - specialize (G3 Hs). lra. }
  assert (B4 : FFin x4 = f5_0) by (apply S4; lra).
  exists (FFin x1), (FFin x2), (FFin x3).
  repeat split;
    (rewrite interpret_transient by (eexists; reflexivity));
    fold (widened (FFin q)); fold (widened (FFin x1));
    fold (widened (FFin x2)); fold (widened (FFin x3));
    congruence.
Qed.

(* ===================================================================== *)
(** * Further properties of the framed connections *)
(* ===================================================================== *)

Lemma be_bytes_succ (width : nat) (x : Z) :
  SHA256.be_bytes (S width) x
  = Z.land (Z.shiftr x (8 * Z.of_nat width)) 0xff :: SHA256.be_bytes width x.
Proof.
  unfold SHA256.be_bytes. rewrite seq_S, rev_app_distr. reflexivity.
Qed.

(** The bytes of [be_bytes], read back most significant first, are the low
    bits of the number. *)
Lemma be_word_be_bytes (width : nat) (x : Z) :
  SHA256.be_word (SHA256.be_bytes width x)
  = Z.land x (Z.ones (8 * Z.of_nat width)).
Proof.
  induction width as [|width IH].
  - cbn. rewrite Z.land_0_r. reflexivity.
  - rewrite be_bytes_succ. cbn [SHA256.be_word].
    rewrite be_bytes_length, IH.
    apply Z.bits_inj'. intros n Hn.
    rewrite Z.lor_spec, !Z.land_spec.
    rewrite !Z.testbit_ones_nonneg by lia.
    destruct (Z.ltb_spec n (8 * Z.of_nat width)) as [Hlow|Hhigh].
    + rewrite Z.shiftl_spec_low by lia.
      replace (n <? 8 * Z.of_nat (S width)) with true
        by (symmetry; apply Z.ltb_lt; lia).
      reflexivity.
    + rewrite Z.shiftl_spec by lia.
      rewrite Z.land_spec, Z.shiftr_spec by lia.
      change 0xff with (Z.ones 8).
      rewrite Z.testbit_ones_nonneg by lia.
      replace (n - 8 * Z.of_nat width + 8 * Z.of_nat width) with n by lia.
      rewrite andb_false_r, orb_false_r.
      destruct (Z.ltb_spec (n - 8 * Z.of_nat width) 8);
        destruct (Z.ltb_spec n (8 * Z.of_nat (S width)));
        try reflexivity; lia.
Qed.

(** X16.  The length prefix round-trips: a length that fits 64 bits is
    packed into exactly eight bytes, and unpacking those bytes gives the
    length back; a length that does not fit is refused by [pack], and a
    header that is not eight bytes long by [unpack]. *)
Theorem length_prefix_round_trip :
  forall (n : Z),
    (0 <= n < 2 ^ 64 ->
     exists header,
       pack_Q n = Ok header
       /\ List.length header = 8%nat
       /\ unpack_Q header = Ok n)
    /\ (n < 0 \/ 2 ^ 64 <= n ->
        exists e, pack_Q n = Raise e /\ exn_kind e = StructError)
    /\ (forall bs, List.length bs <> 8%nat ->
                   exists e, unpack_Q bs = Raise e
                             /\ exn_kind e = StructError).
Proof.
  intros n. split; [|split].
  - intros [Hlo Hhi]. exists (SHA256.be_bytes 8 n).
    unfold pack_Q, unpack_Q.
    replace (0 <=? n) with true by (symmetry; apply Z.leb_le; lia).
    replace (n <? 2 ^ 64) with true by (symmetry; apply Z.ltb_lt; lia).
    split; [reflexivity|]. rewrite be_bytes_length.
    split; [reflexivity|]. cbn [Z.of_nat Z.eqb Pos.of_succ_nat Pos.succ
                                 Pos.eqb].
    rewrite be_word_be_bytes.
    change (8 * Z.of_nat 8) with 64. rewrite Z.land_ones by lia.
    rewrite Z.mod_small by lia. reflexivity.
  - intros H. unfold pack_Q.
    destruct (Z.leb_spec 0 n); destruct (Z.ltb_spec n (2 ^ 64));
      cbn [andb]; try (eexists; split; reflexivity); lia.
  - intros bs Hbs. unfold unpack_Q.
    destruct (Z.eqb_spec (Z.of_nat (List.length bs)) 8) as [E|E];
      [|eexists; split; reflexivity].
    exfalso. apply Hbs. lia.
Qed.

Lemma length_prefix_round_trip_witness :
  exists header,
    pack_Q 513 = Ok header
    /\ List.length header = 8%nat
    /\ unpack_Q header = Ok 513.
Proof.
  apply (proj1 (length_prefix_round_trip 513)). lia.
Defined.

Lemma take_all (n : Z) (l : list Z) :
  Z.of_nat (List.length l) <= n -> take n l = l.
Proof.
  revert n. induction l as [|x l IH]; intros n H; [reflexivity|].
  cbn [take]. cbn [List.length] in H.
  replace (n <=? 0) with false by (symmetry; apply Z.leb_gt; lia).
  rewrite IH by lia. reflexivity.
Qed.

Lemma take_length (n : Z) (l : list Z) :
  0 <= n -> Z.of_nat (List.length (take n l)) <= n.
Proof.
  revert n. induction l as [|x l IH]; intros n H; [cbn; lia|].
  cbn [take]. destruct (Z.leb_spec n 0); [cbn; lia|].
  cbn [List.length]. specialize (IH (n - 1) ltac:(lia)). lia.
Qed.

Lemma read_loop_done (count : Z) (data : list Z)
    (rs : list (result (list Z))) :
  count <= Z.of_nat (List.length data) ->
  Uds.read_loop count data rs = (Ok data, rs).
Proof.
  intros H. destruct rs; cbn [Uds.read_loop];
    replace (count <=? Z.of_nat (List.length data)) with true
      by (symmetry; apply Z.leb_le; exact H);
    reflexivity.
Qed.

Lemma read_loop_more (count : Z) (data : list Z)
    (rs : list (result (list Z))) :
  Z.of_nat (List.length data) < count ->
  Uds.read_loop count data rs
  = match rs with
    | [] => (Raise (Exn ConnectionError "Connection closed during read"), [])
    | Raise e :: rest => (Raise e, rest)
    | Ok chunk :: rest =>
        match take (count - Z.of_nat (List.length data)) chunk with
        | [] => (Raise (Exn ConnectionError "Connection closed during read"),
                 rest)
        | got => Uds.read_loop count (data ++ got)%list rest
        end
    end.
Proof.
  intros H. destruct rs; cbn [Uds.read_loop];
    replace (count <=? Z.of_nat (List.length data)) with false
      by (symmetry; apply Z.leb_gt; exact H);
    reflexivity.
Qed.

(** What comes out of the loop is what it held, followed by what it read,
    and is [count] bytes long. *)
Lemma read_loop_exact (rs : list (result (list Z))) :
  forall (count : Z) (data out : list Z) (rs' : list (result (list Z))),
    Z.of_nat (List.length data) <= count ->
    Uds.read_loop count data rs = (Ok out, rs') ->
    Z.of_nat (List.length out) = count
    /\ exists more, out = (data ++ more)%list.
Proof.
  induction rs as [|r rs IH]; intros count data out rs' Hle Hrun.
  - destruct (Z.eq_dec (Z.of_nat (List.length data)) count) as [E|E].
    + rewrite read_loop_done in Hrun by lia. inversion Hrun; subst.
      split; [reflexivity|]. exists []. rewrite app_nil_r. reflexivity.
    + rewrite read_loop_more in Hrun by lia. discriminate.
  - destruct (Z.eq_dec (Z.of_nat (List.length data)) count) as [E|E].
    + rewrite read_loop_done in Hrun by lia. inversion Hrun; subst.
      split; [reflexivity|]. exists []. rewrite app_nil_r. reflexivity.
    + rewrite read_loop_more in Hrun by lia.
      destruct r as [chunk|e]; [|discriminate].
      pose proof (@take_length (count - Z.of_nat (List.length data)) chunk
                    ltac:(lia)) as Ht.
      destruct (take (count - Z.of_nat (List.length data)) chunk)
        as [|b got] eqn:Et; [discriminate|].
      apply IH in Hrun.
      * destruct Hrun as (Hlen & more & Hout). split; [exact Hlen|].
        exists ((b :: got) ++ more)%list. rewrite Hout, app_assoc.
        reflexivity.
      * rewrite length_app, Nat2Z.inj_add. lia.
Qed.

(** A message that arrives in pieces is put together again. *)
Lemma read_loop_reassembles (chunks : list (list Z)) :
  forall (data : list Z) (rest : list (result (list Z))),
    Forall (fun c => c <> []) chunks ->
    Uds.read_loop (Z.of_nat (List.length data + List.length (List.concat chunks)))
                  data (map Ok chunks ++ rest)%list
    = (Ok (data ++ List.concat chunks)%list, rest).
Proof.
  induction chunks as [|c chunks IH]; intros data rest Hne.
  - cbn [List.concat map app List.length]. rewrite app_nil_r.
    apply read_loop_done. lia.
  - inversion Hne as [|c' cs' Hc Hcs]; subst.
    cbn [List.concat map app]. rewrite length_app.
    assert (Hpos : (0 < List.length c)%nat)
      by (destruct c; [contradiction|cbn; lia]).
    rewrite read_loop_more by lia.
    rewrite take_all by lia.
    destruct c as [|b c]; [contradiction|].
    specialize (IH (data ++ b :: c)%list rest Hcs).
    rewrite length_app in IH.
    replace (List.length data + (List.length (b :: c)
                                 + List.length (List.concat chunks)))%nat
      with (List.length data + List.length (b :: c)
            + List.length (List.concat chunks))%nat by lia.
    rewrite IH, <- app_assoc. reflexivity.
Qed.

(** X17.  [_read_exact] is exact: what it returns has the length asked
    for.  A message cut into any non-empty pieces is returned whole, with
    the reads that follow left unread; and the end of the stream before the
    count is reached raises [ConnectionError]. *)
Theorem read_exact_is_exact :
  forall (ch : Channel),
    (forall count out ch',
        0 <= count ->
        Uds._read_exact count ch = (Ok out, ch') ->
        Z.of_nat (List.length out) = count)
    /\ (forall chunks rest,
          reads ch = (map Ok chunks ++ rest)%list ->
          Forall (fun c => c <> []) chunks ->
          Uds._read_exact (Z.of_nat (List.length (List.concat chunks))) ch
          = (Ok (List.concat chunks), with_reads ch rest))
    /\ (forall count,
          0 < count -> reads ch = [] ->
          fst (Uds._read_exact count ch)
          = Raise (Exn ConnectionError "Connection closed during read")).
Proof.
  intros ch. unfold Uds._read_exact. split; [|split].
  - intros count out ch' Hc Hrun.
    destruct (Uds.read_loop count [] (reads ch)) as [r rs] eqn:E.
    inversion Hrun; subst.
    assert (Hle : Z.of_nat (List.length (@nil Z)) <= count) by (cbn; lia).
    apply (proj1 (@read_loop_exact (reads ch) count [] out rs Hle E)).
  - intros chunks rest Hr Hne. rewrite Hr.
    pose proof (@read_loop_reassembles chunks [] rest Hne) as R.
    cbn [List.length Nat.add app] in R. rewrite R. reflexivity.
  - intros count Hc Hr. rewrite Hr.
    rewrite read_loop_more by (cbn; lia). reflexivity.
Qed.

(** A channel that is open, with these reads to come. *)
Definition stream_of (rs : list (result (list Z))) : Channel :=
  {| endpoint_exists := true; opens := []; writes := []; reads := rs;
     opened := 1 |}.

Lemma read_exact_is_exact_witness :
  Uds._read_exact (Z.of_nat (List.length (List.concat [[2; 3]; [4]; [5; 6]])))
                  (stream_of [Ok [2; 3]; Ok [4]; Ok [5; 6]; Ok [7]])
  = (Ok (List.concat [[2; 3]; [4]; [5; 6]]),
     with_reads (stream_of [Ok [2; 3]; Ok [4]; Ok [5; 6]; Ok [7]])
                [Ok [7]]).
Proof.
  apply (proj1 (proj2 (read_exact_is_exact
                         (stream_of [Ok [2; 3]; Ok [4]; Ok [5; 6];
                                     Ok [7]])))
           [[2; 3]; [4]; [5; 6]] [Ok [7]]).
  - reflexivity.
  - repeat constructor; discriminate.
Defined.

(** What an exchange leaves of a channel: whether the endpoint exists, the
    openings still to come and the number of handles handed out. *)
Definition same_endpoint (ch ch' : Channel) : Prop :=
  endpoint_exists ch' = endpoint_exists ch
  /\ opens ch' = opens ch
  /\ opened ch' = opened ch.

Lemma same_endpoint_refl (ch : Channel) : same_endpoint ch ch.
Proof. repeat split. Qed.

Lemma same_endpoint_trans (a b c : Channel) :
  same_endpoint a b -> same_endpoint b c -> same_endpoint a c.
Proof.
  intros (E1 & O1 & N1) (E2 & O2 & N2).
  repeat split; congruence.
Qed.

Lemma pop_write_same (ch : Channel) : same_endpoint ch (snd (pop_write ch)).
Proof.
  unfold pop_write. destruct (writes ch); repeat split.
Qed.

Lemma pop_read_same (n : Z) (ch : Channel) :
  same_endpoint ch (snd (pop_read n ch)).
Proof.
  unfold pop_read. destruct (reads ch) as [|[c|e] rest]; repeat split.
Qed.

Lemma read_exact_same (count : Z) (ch : Channel) :
  same_endpoint ch (snd (Uds._read_exact count ch)).
Proof.
  unfold Uds._read_exact.
  destruct (Uds.read_loop count [] (reads ch)). repeat split.
Qed.

Section ExchangeFacts.
Context {RT : Runtime} {JC : JsonCodec}.

Lemma uds_exchange_frame (command_type : string) (payload : list Z)
    (ch : Channel) :
  same_endpoint ch (snd (Uds.exchange command_type payload ch))
  /\ (forall v,
        fst (Uds.exchange command_type payload ch) = Ok v ->
        exists resp_json, unwrap_response command_type resp_json = Ok v).
Proof.
  unfold Uds.exchange.
  destruct (pack_Q _) as [header|e];
    [|split; [apply same_endpoint_refl|discriminate]].
  pose proof (pop_write_same ch) as S1.
  destruct (pop_write ch) as [[e|] ch1]; cbn [snd] in S1;
    [split; [exact S1|discriminate]|].
  pose proof (pop_write_same ch1) as S2.
  destruct (pop_write ch1) as [[e|] ch2]; cbn [snd] in S2;
    [split; [eapply same_endpoint_trans; eassumption|discriminate]|].
  pose proof (read_exact_same 8 ch2) as S3.
  destruct (Uds._read_exact 8 ch2) as [[resp_header|e] ch3]; cbn [snd] in S3;
    [|split; [repeat (eapply same_endpoint_trans; [eassumption|]);
              apply same_endpoint_refl|discriminate]].
  destruct (unpack_Q resp_header) as [resp_len|e];
    [|split; [repeat (eapply same_endpoint_trans; [eassumption|]);
              apply same_endpoint_refl|discriminate]].
  pose proof (read_exact_same resp_len ch3) as S4.
  destruct (Uds._read_exact resp_len ch3) as [[resp_body|e] ch4];
    cbn [snd] in S4;
    (split; [repeat (eapply same_endpoint_trans; [eassumption|]);
             apply same_endpoint_refl|]); [|discriminate].
  cbn [fst]. intros v Hv.
  destruct (json_loads resp_body) as [resp_json|e]; [|discriminate].
  exists resp_json. exact Hv.
Qed.

Lemma pipe_exchange_frame (command_type : string) (payload : list Z)
    (ch : Channel) :
  same_endpoint ch (snd (Pipe.exchange command_type payload ch))
  /\ (forall v,
        fst (Pipe.exchange command_type payload ch) = Ok v ->
        exists resp_json, unwrap_response command_type resp_json = Ok v).
Proof.
  unfold Pipe.exchange.
  destruct (pack_Q _) as [header|e];
    [|split; [apply same_endpoint_refl|discriminate]].
  pose proof (pop_write_same ch) as S1.
  destruct (pop_write ch) as [[e|] ch1]; cbn [snd] in S1;
    [split; [exact S1|discriminate]|].
  pose proof (pop_write_same ch1) as S2.
  destruct (pop_write ch1) as [[e|] ch2]; cbn [snd] in S2;
    [split; [eapply same_endpoint_trans; eassumption|discriminate]|].
  pose proof (pop_read_same 8 ch2) as S3.
  destruct (pop_read 8 ch2) as [[resp_header|e] ch3]; cbn [snd] in S3;
    [|split; [repeat (eapply same_endpoint_trans; [eassumption|]);
              apply same_endpoint_refl|discriminate]].
  destruct (List.length resp_header <? 8)%nat;
    [split; [repeat (eapply same_endpoint_trans; [eassumption|]);
             apply same_endpoint_refl|discriminate]|].
  destruct (unpack_Q resp_header) as [resp_len|e];
    [|split; [repeat (eapply same_endpoint_trans; [eassumption|]);
              apply same_endpoint_refl|discriminate]].
  pose proof (pop_read_same resp_len ch3) as S4.
  destruct (pop_read resp_len ch3) as [[resp_body|e] ch4];
    cbn [snd] in S4;
    (split; [repeat (eapply same_endpoint_trans; [eassumption|]);
             apply same_endpoint_refl|]); [|discriminate].
  cbn [fst]. intros v Hv.
  destruct (json_loads resp_body) as [resp_json|e]; [|discriminate].
  exists resp_json. exact Hv.
Qed.
End ExchangeFacts.

(** X18.  [connect] and [disconnect] are idempotent, for both
    connections.  On an object that holds a socket or handle, [connect]
    answers [True] without touching the object or the channel; on a closed
    one whose endpoint does not exist it answers [False], again without
    touching anything; once [connect] has answered [True], connecting again
    changes nothing.  [disconnect] always leaves the object closed, and a
    second [disconnect] changes nothing.  Without the win32 modules the
    pipe connection never connects. *)
Theorem connect_disconnect_idempotent :
  (forall (self : Uds.UnityUdsConnection) (ch : Channel),
      (Uds.sock self <> None -> Uds.connect self ch = (true, self, ch))
      /\ (Uds.sock self = None -> endpoint_exists ch = false ->
          Uds.connect self ch = (false, self, ch))
      /\ (fst (fst (Uds.connect self ch)) = true ->
          forall ch2,
            Uds.connect (snd (fst (Uds.connect self ch))) ch2
            = (true, snd (fst (Uds.connect self ch)), ch2))
      /\ Uds.sock (Uds.disconnect self) = None
      /\ Uds.disconnect (Uds.disconnect self) = Uds.disconnect self)
  /\ (forall (has_win32 : bool) (self : Pipe.UnityPipeConnection)
             (ch : Channel),
        (has_win32 = true -> Pipe.pipe_handle self <> None ->
         Pipe.connect has_win32 self ch = (true, self, ch))
        /\ (Pipe.pipe_handle self = None -> endpoint_exists ch = false ->
            Pipe.connect has_win32 self ch = (false, self, ch))
        /\ (has_win32 = false ->
            Pipe.connect has_win32 self ch = (false, self, ch))
        /\ (fst (fst (Pipe.connect has_win32 self ch)) = true ->
            forall ch2,
              Pipe.connect has_win32
                           (snd (fst (Pipe.connect has_win32 self ch))) ch2
              = (true, snd (fst (Pipe.connect has_win32 self ch)), ch2))
        /\ Pipe.pipe_handle (Pipe.disconnect self) = None
        /\ Pipe.disconnect (Pipe.disconnect self) = Pipe.disconnect self).
Proof.
  split.
  - intros self ch.
    assert (Hopen : forall s c, Uds.sock s <> None ->
                                Uds.connect s c = (true, s, c)).
    { intros s c Hs. unfold Uds.connect.
      destruct (Uds.sock s); [reflexivity|contradiction]. }
    split; [apply Hopen|]. split; [|split; [|split]].
    + intros Hs He. unfold Uds.connect. rewrite Hs, He. reflexivity.
    + intros Ht ch2. apply Hopen.
      destruct (Uds.sock self) as [h|] eqn:Hs.
      * rewrite (Hopen self ch) by congruence. cbn. congruence.
      * pose proof (uds_connect_closed self ch Hs) as Hc.
        destruct (Uds.connect self ch) as [[b s1] c1]. cbn [fst snd] in *.
        apply Hc. exact Ht.
    + rewrite uds_disconnect_fresh. reflexivity.
    + rewrite !uds_disconnect_fresh. reflexivity.
  - intros has_win32 self ch.
    assert (Hopen : forall s c, has_win32 = true ->
                                Pipe.pipe_handle s <> None ->
                                Pipe.connect has_win32 s c = (true, s, c)).
    { intros s c Hw Hs. unfold Pipe.connect. rewrite Hw. cbn [negb].
      destruct (Pipe.pipe_handle s); [reflexivity|contradiction]. }
    split; [apply Hopen|]. split; [|split; [|split; [|split]]].
    + intros Hs He. unfold Pipe.connect.
      destruct has_win32; cbn [negb]; [|reflexivity].
      rewrite Hs, He. reflexivity.
    + intros ->. reflexivity.
    + intros Ht ch2.
      destruct has_win32; [|discriminate Ht].
      apply Hopen; [reflexivity|].
      destruct (Pipe.pipe_handle self) as [h|] eqn:Hs.
      * rewrite (Hopen self ch) by congruence. cbn. congruence.
      * pose proof (pipe_connect_closed true self ch Hs) as Hc.
        destruct (Pipe.connect true self ch) as [[b s1] c1].
        cbn [fst snd] in *. apply Hc. exact Ht.
    + rewrite pipe_disconnect_fresh. reflexivity.
    + rewrite !pipe_disconnect_fresh. reflexivity.
Qed.

Lemma connect_disconnect_idempotent_witness :
  Uds.connect (uds_fresh "ab12")
              {| endpoint_exists := false; opens := []; writes := [];
                 reads := []; opened := 0 |}
  = (false, uds_fresh "ab12",
     {| endpoint_exists := false; opens := []; writes := [];
        reads := []; opened := 0 |})
  /\ Uds.connect (snd (fst (Uds.connect (uds_fresh "ab12")
                                        (channel_with [] []))))
                 (channel_with [] [])
     = (true, snd (fst (Uds.connect (uds_fresh "ab12")
                                    (channel_with [] []))),
        channel_with [] []).
Proof.
  split.
  - apply (proj1 (proj2 (proj1 connect_disconnect_idempotent
                           (uds_fresh "ab12")
                           {| endpoint_exists := false; opens := [];
                              writes := []; reads := []; opened := 0 |})));
      reflexivity.
  - apply (proj1 (proj2 (proj2 (proj1 connect_disconnect_idempotent
                                  (uds_fresh "ab12") (channel_with [] []))))).
    reflexivity.
Defined.

Section SendFacts.
Context {RT : Runtime} {JC : JsonCodec}.

(** [send_command] on an object that holds a socket. *)
Lemma uds_send_connected (self : Uds.UnityUdsConnection) (ch : Channel)
    (command_type : string) (params : option pyval) :
  Uds.sock self <> None ->
  Uds.send_command self ch command_type params
  = match Uds.exchange command_type (encode_request command_type params) ch
    with
    | (Ok v, ch1) => (Ok v, self, ch1)
    | (Raise e, ch1) =>
        if is_instance e BrokenPipeError || is_instance e ConnectionResetError
        then (Raise (Exn ConnectionError ("UDS broken: " ++ str_of_exn e)),
              Uds.disconnect self, ch1)
        else (Raise e, Uds.disconnect self, ch1)
    end.
Proof.
  intros Hs. unfold Uds.send_command.
  destruct (Uds.sock self); [reflexivity|contradiction].
Qed.


End SendFacts.

Section ReuseFacts.
Context {RT : Runtime} {JC : JsonCodec}.

Lemma uds_connected_reuse (self : Uds.UnityUdsConnection) (ch : Channel)
    (command_type : string) (params : option pyval) :
  Uds.sock self <> None ->
  same_endpoint ch (snd (Uds.send_command self ch command_type params))
  /\ (forall v,
        fst (fst (Uds.send_command self ch command_type params)) = Ok v ->
        snd (fst (Uds.send_command self ch command_type params)) = self).
Proof.
  intros Hs. rewrite uds_send_connected by exact Hs.
  pose proof (uds_exchange_frame command_type
                (encode_request command_type params) ch) as [Hsame _].
  destruct (Uds.exchange command_type _ ch) as [[v|e] ch1].
  - split; [exact Hsame|]. intros v0 _. reflexivity.
  - destruct (is_instance e BrokenPipeError
              || is_instance e ConnectionResetError);
      (split; [exact Hsame|discriminate]).
Qed.

Lemma uds_connect_opens_one (self : Uds.UnityUdsConnection) (ch : Channel) :
  Uds.sock self = None ->
  fst (fst (Uds.connect self ch)) = true ->
  Uds.sock (snd (fst (Uds.connect self ch))) = Some (opened ch)
  /\ opened (snd (Uds.connect self ch)) = S (opened ch).
Proof.
  intros Hs. unfold Uds.connect. rewrite Hs.
  destruct (endpoint_exists ch); cbn [negb]; [|discriminate].
  unfold new_handle, pop_open. cbn [opens].
  destruct (opens ch) as [|[e|] rest]; cbn [fst snd];
    try discriminate;
    unfold pop_read; cbn [reads];
    destruct (reads ch) as [|[c|e] rs]; cbn;
    intros H; try discriminate; split; reflexivity.
Qed.

Lemma uds_closed_success (self : Uds.UnityUdsConnection) (ch : Channel)
    (command_type : string) (params : option pyval) (v : pyval) :
  Uds.sock self = None ->
  fst (fst (Uds.send_command self ch command_type params)) = Ok v ->
  Uds.sock (snd (fst (Uds.send_command self ch command_type params)))
  = Some (opened ch)
  /\ opened (snd (Uds.send_command self ch command_type params))
     = S (opened ch).
Proof.
  intros Hs. unfold Uds.send_command. rewrite Hs.
  pose proof (uds_connect_opens_one self ch Hs) as Hc.
  destruct (Uds.connect self ch) as [[connected self0] ch0].
  cbn [fst snd] in Hc.
  destruct connected; cbn [negb]; [|discriminate].
  destruct (Hc eq_refl) as [Hsock Hopened].
  pose proof (uds_exchange_frame command_type
                (encode_request command_type params) ch0)
    as [(_ & _ & Pe) _].
  destruct (Uds.exchange command_type _ ch0) as [[v0|e] ch1];
    cbn [fst snd] in *.
  - intros _. split; [exact Hsock|]. congruence.
  - destruct (is_instance e BrokenPipeError
              || is_instance e ConnectionResetError); discriminate.
Qed.

Lemma pipe_connected_reuse (self : Pipe.UnityPipeConnection) (ch : Channel)
    (command_type : string) (params : option pyval) :
  Pipe.pipe_handle self <> None ->
  same_endpoint ch (snd (Pipe.send_command true self ch command_type params))
  /\ (forall v,
        fst (fst (Pipe.send_command true self ch command_type params))
        = Ok v ->
        snd (fst (Pipe.send_command true self ch command_type params))
        = self).
Proof.
  intros Hs. unfold Pipe.send_command.
  destruct (Pipe.pipe_handle self) as [h|]; [|contradiction].
  cbn [negb].
  pose proof (pipe_exchange_frame command_type
                (encode_request command_type params) ch) as [Hsame _].
  destruct (Pipe.exchange command_type _ ch) as [[v|e] ch1].
  - split; [exact Hsame|]. intros v0 _. reflexivity.
  - destruct (is_instance e PyWinError);
      (split; [exact Hsame|discriminate]).
Qed.

Lemma unwrap_ping (resp_json v : pyval) :
  unwrap_response "ping" resp_json = Ok v ->
  v = PDict [("message", PStr "pong")].
Proof.
  unfold unwrap_response. destruct resp_json; try discriminate.
  destruct (eq_str (dict_get d "status") "error"); [discriminate|].
  cbn. intros H. inversion H. reflexivity.
Qed.

Lemma uds_send_ok_unwraps (self : Uds.UnityUdsConnection) (ch : Channel)
    (command_type : string) (params : option pyval) (v : pyval) :
  fst (fst (Uds.send_command self ch command_type params)) = Ok v ->
  exists resp_json, unwrap_response command_type resp_json = Ok v.
Proof.
  assert (Hex : forall s0 ch0,
             fst (fst (match Uds.exchange command_type
                               (encode_request command_type params) ch0 with
                       | (Ok v0, ch1) => (Ok v0, s0, ch1)
                       | (Raise e', ch1) =>
                           if is_instance e' BrokenPipeError
                              || is_instance e' ConnectionResetError
                           then (Raise (Exn ConnectionError
                                          ("UDS broken: " ++ str_of_exn e')),
                                 Uds.disconnect s0, ch1)
                           else (Raise e', Uds.disconnect s0, ch1)
                       end)) = Ok v ->
             exists resp_json, unwrap_response command_type resp_json = Ok v).
  { intros s0 ch0.
    pose proof (uds_exchange_frame command_type
                  (encode_request command_type params) ch0) as [_ Hu].
    destruct (Uds.exchange command_type _ ch0) as [[v0|e'] ch1].
    - cbn. intros H. apply Hu. exact H.
    - destruct (is_instance e' BrokenPipeError
                || is_instance e' ConnectionResetError); discriminate. }
  unfold Uds.send_command.
  destruct (Uds.sock self) as [h|]; [cbn [negb]; apply Hex|].
  destruct (Uds.connect self ch) as [[connected self0] ch0].
  destruct connected; cbn [negb]; [apply Hex|discriminate].
Qed.

Lemma pipe_send_ok_unwraps (has_win32 : bool)
    (self : Pipe.UnityPipeConnection) (ch : Channel)
    (command_type : string) (params : option pyval) (v : pyval) :
  fst (fst (Pipe.send_command has_win32 self ch command_type params))
  = Ok v ->
  exists resp_json, unwrap_response command_type resp_json = Ok v.
Proof.
  assert (Hex : forall s0 ch0,
             fst (fst (if negb has_win32
                       then (Raise (Exn NameError
                                      "name 'pywintypes' is not defined"),
                             s0, ch0)
                       else
                         match Pipe.exchange command_type
                                 (encode_request command_type params) ch0 with
                         | (Ok v0, ch1) => (Ok v0, s0, ch1)
                         | (Raise e', ch1) =>
                             if is_instance e' PyWinError
                             then (Raise (Exn ConnectionError
                                            ("Pipe broken: "
                                             ++ str_of_exn e')),
                                   Pipe.disconnect s0, ch1)
                             else (Raise e', Pipe.disconnect s0, ch1)
                         end)) = Ok v ->
             exists resp_json, unwrap_response command_type resp_json = Ok v).
  { intros s0 ch0. destruct has_win32; cbn [negb]; [|discriminate].
    pose proof (pipe_exchange_frame command_type
                  (encode_request command_type params) ch0) as [_ Hu].
    destruct (Pipe.exchange command_type _ ch0) as [[v0|e'] ch1].
    - cbn. intros H. apply Hu. exact H.
    - destruct (is_instance e' PyWinError); discriminate. }
  unfold Pipe.send_command.
  destruct (Pipe.pipe_handle self) as [h|]; [cbn [negb]; apply Hex|].
  destruct (Pipe.connect has_win32 self ch) as [[connected self0] ch0].
  destruct connected; cbn [negb]; [apply Hex|discriminate].
Qed.
End ReuseFacts.

(** X19.  One connection for many commands.  On an object that holds a
    socket or handle, [send_command] opens nothing (the openings to come
    and the count of handles are as before), and when it succeeds the
    object is unchanged, so the next command goes over the same socket.  On
    a closed UDS object, a successful [send_command] has opened exactly one
    socket, which the object now holds. *)
Theorem send_command_reuses_connection :
  forall (RT : Runtime) (JC : JsonCodec),
    (forall (self : Uds.UnityUdsConnection) (ch : Channel)
            (command_type : string) (params : option pyval),
        Uds.sock self <> None ->
        same_endpoint ch (snd (Uds.send_command self ch command_type params))
        /\ (forall v,
              fst (fst (Uds.send_command self ch command_type params))
              = Ok v ->
              snd (fst (Uds.send_command self ch command_type params))
              = self))
    /\ (forall (self : Uds.UnityUdsConnection) (ch : Channel)
               (command_type : string) (params : option pyval) (v : pyval),
          Uds.sock self = None ->
          fst (fst (Uds.send_command self ch command_type params)) = Ok v ->
          Uds.sock (snd (fst (Uds.send_command self ch command_type params)))
          = Some (opened ch)
          /\ opened (snd (Uds.send_command self ch command_type params))
             = S (opened ch))
    /\ (forall (self : Pipe.UnityPipeConnection) (ch : Channel)
               (command_type : string) (params : option pyval),
          Pipe.pipe_handle self <> None ->
          same_endpoint ch
            (snd (Pipe.send_command true self ch command_type params))
          /\ (forall v,
                fst (fst (Pipe.send_command true self ch command_type
                                            params)) = Ok v ->
                snd (fst (Pipe.send_command true self ch command_type
                                            params)) = self)).
Proof.
  intros RT JC. split; [|split].
  - intros self ch command_type params.
    apply uds_connected_reuse.
  - intros self ch command_type params v.
    apply uds_closed_success.
  - intros self ch command_type params.
    apply pipe_connected_reuse.
Qed.

Lemma send_command_reuses_connection_witness :
  Uds.sock
    (snd (fst (Uds.send_command (RT := Sample.runtime) (JC := Sample.codec)
                 (uds_fresh "ab12")
                 (channel_with []
                    [Ok [0; 0; 0; 0; 0; 0; 0; 2]; Ok Sample.body_ok])
                 "get_state" None)))
  = Some 0%nat
  /\ opened
       (snd (Uds.send_command (RT := Sample.runtime) (JC := Sample.codec)
               (uds_fresh "ab12")
               (channel_with []
                  [Ok [0; 0; 0; 0; 0; 0; 0; 2]; Ok Sample.body_ok])
               "get_state" None))
     = 1%nat.
Proof.
  apply (proj1 (proj2 (send_command_reuses_connection Sample.runtime
                         Sample.codec))
           (uds_fresh "ab12")
           (channel_with [] [Ok [0; 0; 0; 0; 0; 0; 0; 2]; Ok Sample.body_ok])
           "get_state" None (PDict [("x", PInt 1)])).
  - reflexivity.
  - vm_compute. reflexivity.
Defined.



(** X21.  A ping that succeeds answers [{"message": "pong"}] whatever the
    host put in its response, and what is sent for a ping does not depend
    on the parameters given; this holds of both connections. *)
Theorem ping_answers_pong :
  forall (RT : Runtime) (JC : JsonCodec),
    (forall (self : Uds.UnityUdsConnection) (ch : Channel)
            (params : option pyval),
        Uds.send_command self ch "ping" params
        = Uds.send_command self ch "ping" None
        /\ forall v,
            fst (fst (Uds.send_command self ch "ping" params)) = Ok v ->
            v = PDict [("message", PStr "pong")])
    /\ (forall (has_win32 : bool) (self : Pipe.UnityPipeConnection)
               (ch : Channel) (params : option pyval),
          Pipe.send_command has_win32 self ch "ping" params
          = Pipe.send_command has_win32 self ch "ping" None
          /\ forall v,
              fst (fst (Pipe.send_command has_win32 self ch "ping" params))
              = Ok v ->
              v = PDict [("message", PStr "pong")]).
Proof.
  intros RT JC. split.
  - intros self ch params. split; [reflexivity|].
    intros v Hv. apply uds_send_ok_unwraps in Hv.
    destruct Hv as (j & Hj). apply (unwrap_ping _ Hj).
  - intros has_win32 self ch params. split; [reflexivity|].
    intros v Hv. apply pipe_send_ok_unwraps in Hv.
    destruct Hv as (j & Hj). apply (unwrap_ping _ Hj).
Qed.

Lemma ping_answers_pong_witness :
  exists v,
    fst (fst (Uds.send_command (RT := Sample.runtime) (JC := Sample.codec)
                (uds_fresh "ab12")
                (channel_with []
                   [Ok [0; 0; 0; 0; 0; 0; 0; 2]; Ok Sample.body_ok])
                "ping" (Some (PDict [("x", PInt 1)]))))
    = Ok v
    /\ v = PDict [("message", PStr "pong")].
Proof.
  eexists. split.
  - vm_compute. reflexivity.
  - apply (proj2 (proj1 (ping_answers_pong Sample.runtime Sample.codec)
                    (uds_fresh "ab12")
                    (channel_with []
                       [Ok [0; 0; 0; 0; 0; 0; 0; 2]; Ok Sample.body_ok])
                    (Some (PDict [("x", PInt 1)])))).
    vm_compute. reflexivity.
Defined.

(* ===================================================================== *)
(** * Further properties of project identifiers *)
(* ===================================================================== *)

Lemma string_app_assoc (a b c : string) :
  ((a ++ b) ++ c = a ++ (b ++ c))%string.
Proof.
  induction a as [|x a IH]; [reflexivity|].
  cbn. rewrite IH. reflexivity.
Qed.

Lemma string_app_length (a b : string) :
  String.length (a ++ b) = (String.length a + String.length b)%nat.
Proof.
  induction a as [|x a IH]; [reflexivity|].
  cbn. rewrite IH. reflexivity.
Qed.

(** X22.  The separator is not escaped: two pairs that differ only in
    which colon separates the name from the path are different pairs with
    the same project id, as [("a:b", "c")] and [("a", "b:c")]. *)
Theorem compute_project_id_colon_shift :
  forall (a b c : string),
    compute_project_id (a ++ ":" ++ b) c = compute_project_id a (b ++ ":" ++ c)
    /\ (a ++ ":" ++ b, c) <> (a, b ++ ":" ++ c).
Proof.
  intros a b c. split.
  - unfold compute_project_id. cbv zeta.
    rewrite string_app_assoc. reflexivity.
  - intros H. inversion H as [[Ha Hc]].
    apply (f_equal String.length) in Ha.
    rewrite string_app_length in Ha. cbn in Ha. lia.
Qed.

(* ===================================================================== *)
(** * The selection resource ([services/resources/context_resources.py]) *)
(* ===================================================================== *)

(** An optional string inside an f-string. *)
Definition fmt_opt (o : option string) : string :=
  match o with
  | Some s => s
  | None => "None"
  end.

Section SelectionContext.
Context {RT : Runtime} {PD : Pydantic}.
Variable env : Env.

(** [get_selection_context(ctx)], where [unity_instance] is what
    [get_unity_instance_from_context(ctx)] returns and [instance] is
    [CustomToolService._instance].  The service is threaded through, as
    [execute_tool] may sync it. *)
Definition get_selection_context (fuel : nat)
    (instance : option CustomToolService) (w : World)
    (unity_instance : option string)
  : option (result string * option CustomToolService * World) :=
  match unity_instance with
  | None =>
      Some (Ok "No active Unity instance. Please select an instance first.",
            instance, w)
  | Some token =>
      if String.eqb token "" then
        Some (Ok "No active Unity instance. Please select an instance first.",
              instance, w)
      else
        let (resolved, w1) :=
          resolve_project_id_for_unity_instance env instance (Some token) w in
        let unresolved :=
          Some (Ok ("Could not resolve project ID for instance: " ++ token),
                instance, w1) in
        match resolved with
        | None => unresolved
        | Some project =>
            if String.eqb project "" then unresolved
            else
              match instance with
              | None =>
                  Some (Raise (Exn RuntimeError
                                 "CustomToolService has not been initialized"),
                        instance, w1)
              | Some service =>
                  match execute_tool env fuel service w1 project
                          "get_selection_context" (Some token) (Some [])
                  with
                  | None => None
                  | Some (Ok response, service', w2) =>
                      if success response
                      then Some (Ok (py_str (data response)),
                                 Some service', w2)
                      else Some (Ok ("Error fecthing selection: "
                                     ++ fmt_opt (message response)),
                                 Some service', w2)
                  | Some (Raise e, service', w2) =>
                      Some (Ok ("Failed to fetch selection context: "
                                ++ str_of_exn e),
                            Some service', w2)
                  end
              end
        end
  end.
End SelectionContext.

(** X23.  [get_selection_context] turns every failure into text, with one
    exception: whatever [execute_tool] raises is caught and reported in the
    returned string, a token that is missing, empty or unresolved is
    answered by a fixed message without any command being sent, and the
    only exception that leaves the function is the [RuntimeError] of a
    service that was never created, raised once the token has been
    resolved. *)
Theorem get_selection_context_errors_are_text :
  forall (RT : Runtime) (PD : Pydantic) (env : Env) (fuel : nat)
         (instance : option CustomToolService) (w : World)
         (unity_instance : option string),
    (unity_instance = None \/ unity_instance = Some "" ->
     get_selection_context env fuel instance w unity_instance
     = Some (Ok "No active Unity instance. Please select an instance first.",
             instance, w))
    /\ (forall out instance' w',
          get_selection_context env fuel instance w unity_instance
          = Some (out, instance', w') ->
          (instance <> None -> exists text, out = Ok text)
          /\ (forall e, out = Raise e ->
                instance = None
                /\ e = Exn RuntimeError
                         "CustomToolService has not been initialized"
                /\ exists project,
                     fst (resolve_project_id_for_unity_instance env instance
                            unity_instance w) = Some project
                     /\ project <> "")).
Proof.
  intros RT PD env fuel instance w unity_instance. split.
  - intros [->| ->]; reflexivity.
  - intros out instance' w'. unfold get_selection_context.
    destruct unity_instance as [token|];
      [|intros H; inversion H; split;
        [intros _; eexists; reflexivity|discriminate]].
    destruct (String.eqb token "");
      [intros H; inversion H; split;
       [intros _; eexists; reflexivity|discriminate]|].
    destruct (resolve_project_id_for_unity_instance env instance
                (Some token) w) as [resolved w1].
    destruct resolved as [project|];
      [|intros H; inversion H; split;
        [intros _; eexists; reflexivity|discriminate]].
    destruct (String.eqb project "") eqn:Ep;
      [intros H; inversion H; split;
       [intros _; eexists; reflexivity|discriminate]|].
    destruct instance as [service|].
    + destruct (execute_tool env fuel service w1 project
                  "get_selection_context" (Some token) (Some []))
        as [[[[response|e] service'] w2]|]; [| |discriminate].
      * destruct (success response); intros H; inversion H;
          (split; [intros _; eexists; reflexivity|discriminate]).
      * intros H; inversion H.
        split; [intros _; eexists; reflexivity|discriminate].
    + intros H; inversion H. split; [intros Hn; contradiction|].
      intros e He. inversion He. split; [reflexivity|].
      split; [reflexivity|]. exists project. split; [reflexivity|].
      intros Hp. subst project. discriminate.
Qed.

Lemma get_selection_context_errors_are_text_witness :
  get_selection_context (RT := Sample.runtime) (PD := Sample.pydantic)
                        down_env 10 (Some empty_service) world0 None
  = Some (Ok "No active Unity instance. Please select an instance first.",
          Some empty_service, world0).
Proof.
  apply (proj1 (get_selection_context_errors_are_text Sample.runtime
                  Sample.pydantic down_env 10 (Some empty_service) world0
                  None)).
  left. reflexivity.
Defined.

(** The two error paths of the resource, run: a transport that is down is
    reported in the text, and a service that was never created raises. *)
Example selection_context_transport_down :
  get_selection_context (RT := Sample.runtime) (PD := Sample.pydantic)
    down_env 10
    (Some {| _project_tools :=
               [("ab12", [("get_selection_context",
                           {| name := "get_selection_context";
                              description := None;
                              structured_output := true;
                              requires_polling := false;
                              poll_action := None; parameters := [] |})])];
             _hash_to_project := []; _last_sync_time := 0 |})
    world0 (Some "AB12")
  = Some (Ok "Failed to fetch selection context: Connection refused",
          Some {| _project_tools :=
                    [("ab12", [("get_selection_context",
                                {| name := "get_selection_context";
                                   description := None;
                                   structured_output := true;
                                   requires_polling := false;
                                   poll_action := None;
                                   parameters := [] |})])];
                  _hash_to_project := []; _last_sync_time := 0 |},
          {| now := 0; ticks := 2 |}).
Proof. vm_compute. reflexivity. Qed.

Example selection_context_no_service :
  get_selection_context (RT := Sample.runtime) (PD := Sample.pydantic)
    down_env 10 None world0 (Some "AB12")
  = Some (Raise (Exn RuntimeError
                   "CustomToolService has not been initialized"),
          None, {| now := 0; ticks := 1 |}).
Proof. vm_compute. reflexivity. Qed.

(* ===================================================================== *)
(** * Further properties of [get_tool_definition] *)
(* ===================================================================== *)

(** X24.  Where a definition comes from.  A tool that is in the registry is
    answered from it with no sync and no outside call.  Otherwise the
    throttled sync runs, which loses no registration and leaves the hash
    table alone; a definition then found in the registry is the answer, the
    hub is asked only when there is still none, and the only exception that
    can come out is one of the hub. *)
Theorem get_tool_definition_sources :
  forall (PD : Pydantic) (env : Env) (self : CustomToolService) (w : World)
         (project tool_name : string),
    let r := fst (fst (get_tool_definition env self w project tool_name)) in
    let self' := snd (fst (get_tool_definition env self w project tool_name))
    in
    (forall d,
        alist_find tool_name (project_dict self project) = Some d ->
        get_tool_definition env self w project tool_name
        = (Ok (Some d), self, w))
    /\ _hash_to_project self' = _hash_to_project self
    /\ (forall p n, _is_registered self p n = true ->
                    _is_registered self' p n = true)
    /\ (forall d,
          r = Ok (Some d) ->
          alist_find tool_name (project_dict self' project) = Some d
          \/ (alist_find tool_name (project_dict self' project) = None
              /\ hub_get_tool_definition env project tool_name
                 = Ok (Some d)))
    /\ (forall e,
          r = Raise e ->
          hub_get_tool_definition env project tool_name = Raise e).
Proof.
  intros PD env self w project tool_name. cbv zeta.
  unfold get_tool_definition.
  destruct (alist_find tool_name (project_dict self project)) as [d0|] eqn:E0.
  - cbn [fst snd]. split; [intros d Hd; inversion Hd; reflexivity|].
    split; [reflexivity|]. split; [intros p n H; exact H|].
    split; [|discriminate].
    intros d Hd. inversion Hd; subst. left. exact E0.
  - pose proof (sync_effect PD env false self w) as (Kh & Kr & _).
    destruct (_sync_all_unity_tools env false self w) as [self1 w1].
    cbn [fst] in Kh, Kr.
    destruct (alist_find tool_name (project_dict self1 project)) as [d1|]
      eqn:E1; cbn [fst snd].
    + split; [discriminate|]. split; [exact Kh|]. split; [exact Kr|].
      split; [|discriminate].
      intros d Hd. inversion Hd; subst. left. exact E1.
    + split; [discriminate|]. split; [exact Kh|]. split; [exact Kr|].
      split.
      * intros d Hd. right. split; [exact E1|exact Hd].
      * intros e He. exact He.
Qed.

Lemma get_tool_definition_sources_witness :
  get_tool_definition (PD := Sample.pydantic) live_env build_service world0
                      "P" "build"
  = (Ok (Some build_tool), build_service, world0).
Proof.
  apply (proj1 (get_tool_definition_sources Sample.pydantic live_env
                  build_service world0 "P" "build") build_tool).
  reflexivity.
Defined.
